(** * n8n-mcp-tools: workflow graph assembly and validation

    A shallow embedding of the workflow generator (node catalogue, node
    factory, requirements parser, workflow templates, sequential wiring,
    structural validation), of the template-application and social-posting
    tools, of the rule-based workflow validator and the deployment tool,
    of the template and workflow listings and of the dispatcher, followed
    by the properties proved about them.

    Conventions of the embedding.
    - A JavaScript object used as a dictionary is a [gmap string _] holding
      its own properties.  Reading [obj[key]] with a key supplied by a caller
      also sees the members every object literal inherits from
      [Object.prototype]; [Js.get] models that read.
    - [throw] / [try ... catch] is the error monad [Js.Result].
    - [number] values that the code only uses as integers are [Z] or [nat].
    - A field that is [undefined] at run time is [None]. *)

From Stdlib Require Import ZArith Ascii String Lia.
From stdpp Require Import gmap strings list fin_maps pretty.

Set Warnings "-register-all".
Open Scope string_scope.

(** ** JavaScript run-time notions used by the sources *)

Module Js.

(** Values that can be thrown: [new Error(message)], or a [TypeError]
    raised by the engine (reading a property of [undefined], calling a
    non-function); the text of an engine error is not fixed by the
    language. *)
Inductive Exn :=
| Error (message : string)
| TypeError.

Definition Result (A : Type) : Type := Exn + A.

Definition ret {A} (a : A) : Result A := inr a.
Definition throw {A} (e : Exn) : Result A := inl e.
Definition bind {A B} (c : Result A) (k : A -> Result B) : Result B :=
  match c with
  | inl e => inl e
  | inr a => k a
  end.

(** A message shown to the caller: literal text, or a prefix followed by
    the engine's text for a [TypeError]. *)
Inductive Message :=
| Text (s : string)
| EngineText (prefix : string).

(** [prefix + error.message] *)
Definition message_of (prefix : string) (e : Exn) : Message :=
  match e with
  | Error m => Text (prefix +:+ m)
  | TypeError => EngineText prefix
  end.

(** Truthiness of a string and of an optional string. *)
Definition truthy (s : string) : bool := negb (String.eqb s "").
Definition truthy_opt (o : option string) : bool :=
  match o with
  | Some s => truthy s
  | None => false
  end.

(** [hay.includes(needle)] *)
Fixpoint includes (needle hay : string) : bool :=
  String.prefix needle hay
  || match hay with
     | EmptyString => false
     | String _ rest => includes needle rest
     end.

(** [s.replace(pattern, replacement)] for a string pattern: only the first
    occurrence is replaced. *)
Fixpoint drop_chars (n : nat) (s : string) : string :=
  match n, s with
  | S n', String _ rest => drop_chars n' rest
  | _, _ => s
  end.

Fixpoint replace (pattern replacement s : string) : string :=
  if String.prefix pattern s
  then replacement +:+ drop_chars (String.length pattern) s
  else match s with
       | EmptyString => EmptyString
       | String c rest => String c (replace pattern replacement rest)
       end.

(** Case mapping on the letters A-Z / a-z; strings are sequences of 8-bit
    characters and the other characters are left as they are. *)
Definition lower_char (c : ascii) : ascii :=
  let n := nat_of_ascii c in
  if (65 <=? n)%nat && (n <=? 90)%nat then ascii_of_nat (n + 32) else c.

Fixpoint toLowerCase (s : string) : string :=
  match s with
  | EmptyString => EmptyString
  | String c rest => String (lower_char c) (toLowerCase rest)
  end.

(** [list.join(', ')] *)
Fixpoint join (sep : string) (l : list string) : string :=
  match l with
  | [] => ""
  | [x] => x
  | x :: rest => x +:+ sep +:+ join sep rest
  end.

(** The property names every object literal inherits from
    [Object.prototype].  Each of them reads as a truthy value (a function,
    or the prototype object for [__proto__]) that has none of the fields
    the sources look for. *)
Definition Object_prototype : list string :=
  [ "constructor"; "__defineGetter__"; "__defineSetter__"; "hasOwnProperty";
    "__lookupGetter__"; "__lookupSetter__"; "isPrototypeOf";
    "propertyIsEnumerable"; "toString"; "valueOf"; "__proto__";
    "toLocaleString" ].

Definition inherited (key : string) : bool :=
  bool_decide (key ∈ Object_prototype).

(** The outcome of reading [obj[key]] on an object literal whose own
    properties are [obj]: an own value, an inherited member, or
    [undefined] ([None]). *)
Inductive Property (A : Type) :=
| Own (a : A)
| Inherited (key : string).
Arguments Own {A} a.
Arguments Inherited {A} key.

Definition get {A} (obj : gmap string A) (key : string) : option (Property A) :=
  match obj !! key with
  | Some a => Some (Own a)
  | None => if inherited key then Some (Inherited key) else None
  end.

(** The property key an optional string denotes: [obj[undefined]] reads the
    key ["undefined"]. *)
Definition property_key (v : option string) : string :=
  match v with
  | Some s => s
  | None => "undefined"
  end.

(** [a === b] on optional strings. *)
Definition strict_eq (a b : option string) : bool := bool_decide (a = b).

End Js.

Notation "'do' x <- c ; k" := (Js.bind c (fun x => k))
  (at level 20, x name, c at level 100, k at level 200, only parsing).

(** ** schemas/n8nSchemas.ts *)

Module Schemas.

(** Parameter values: JSON-like data. *)
Inductive JSON :=
| JNull
| JBool (b : bool)
| JNum (n : Z)
| JStr (s : string)
| JArr (items : list JSON)
| JObj (fields : list (string * JSON)).

Definition Position : Type := Z * Z.

(** [N8nNode].  [name], [type] and [typeVersion] are declared as required,
    but the node factory copies them from its [definition] argument and
    leaves them [undefined] when that argument is not a catalogue entry. *)
Record N8nNode := {
  id : string;
  name : option string;
  type : option string;
  typeVersion : option Z;
  position : Position;
  parameters : gmap string JSON
}.

(** [N8nConnection]: [node] is the target's display name. *)
Record N8nConnection := {
  node : option string;
  conn_type : string;
  index : nat
}.

(** The value stored per source node: [{ main: N8nConnection[] }]. *)
Record SourceConnections := { main : list N8nConnection }.

(** [N8nConnections.main]: source display name to its connections. *)
Record N8nConnections := { conn_main : gmap string SourceConnections }.

Record Settings := {
  executionOrder : option string;
  saveExecutionProgress : bool;
  saveManualExecutions : bool
}.

Record N8nWorkflow := {
  wf_name : string;
  wf_description : string;
  nodes : list N8nNode;
  connections : N8nConnections;
  active : bool;
  settings : Settings
}.

(** The statements
    [if (!connections.main[name]) connections.main[name] = { main: [] };
     connections.main[name].main.push(connection)]
    that every builder uses to add a connection.  When [name] is an
    inherited member the guard finds it truthy and the [push] on its
    missing [main] raises a [TypeError]. *)
Definition push_connection (connections : gmap string SourceConnections)
    (source : option string) (connection : N8nConnection)
  : Js.Result (gmap string SourceConnections) :=
  let key := Js.property_key source in
  match Js.get connections key with
  | Some (Js.Own entry) =>
      Js.ret (<[key := {| main := (main entry ++ [connection])%list |}]> connections)
  | Some (Js.Inherited _) => Js.throw Js.TypeError
  | None => Js.ret (<[key := {| main := [connection] |}]> connections)
  end.

(** Truthiness of a JSON value. *)
Definition truthy_json (v : JSON) : bool :=
  match v with
  | JNull => false
  | JBool b => b
  | JNum n => negb (Z.eqb n 0)
  | JStr s => Js.truthy s
  | JArr _ => true
  | JObj _ => true
  end.

(** [obj.key || fallback] *)
Definition or_else (v : option JSON) (fallback : JSON) : JSON :=
  match v with
  | Some x => if truthy_json x then x else fallback
  | None => fallback
  end.

(** A node written as an object literal by the template tools (no [id]). *)
Record NodeData := {
  nd_parameters : JSON;
  nd_name : string;
  nd_type : string;
  nd_typeVersion : Z;
  nd_position : Position
}.

(** The [workflowData] object the template tools hand to the API client. *)
Record WorkflowData := {
  wd_name : string;
  wd_description : JSON;
  wd_nodes : list NodeData;
  wd_connections : N8nConnections;
  wd_active : bool;
  wd_settings : Settings;
  wd_tags : JSON
}.

End Schemas.

(** ** nodeDefinitions.ts *)

Module NodeDefinitions.
Import Schemas.

Inductive NodeCategory :=
| trigger | action | data | flow | helper | communication | services | analytics.

Record NodeDefinition := {
  def_type : string;
  def_typeVersion : Z;
  description : string;
  defaultName : string;
  defaultParameters : gmap string JSON;
  category : NodeCategory;
  inputs : list string;
  outputs : list string;
  requiredParameters : option (list string);
  parameterDescriptions : option (list (string * string))
}.

(** The fields [createNode] reads from its [definition] argument; an
    inherited member of [Object.prototype] has none of them. *)
Definition read_defaultName (definition : Js.Property NodeDefinition) : option string :=
  match definition with
  | Js.Own d => Some (defaultName d)
  | Js.Inherited _ => None
  end.

Definition read_type (definition : Js.Property NodeDefinition) : option string :=
  match definition with
  | Js.Own d => Some (def_type d)
  | Js.Inherited _ => None
  end.

Definition read_typeVersion (definition : Js.Property NodeDefinition) : option Z :=
  match definition with
  | Js.Own d => Some (def_typeVersion d)
  | Js.Inherited _ => None
  end.

(** [{...definition.defaultParameters}]: spreading [undefined] adds nothing. *)
Definition read_defaultParameters (definition : Js.Property NodeDefinition)
  : gmap string JSON :=
  match definition with
  | Js.Own d => defaultParameters d
  | Js.Inherited _ => ∅
  end.

(** [{ ...defaults, ...custom }]: every key of [custom] wins. *)
Definition spread (defaults custom : gmap string JSON) : gmap string JSON :=
  custom ∪ defaults.

(** [createNode(definition, id, position, customParameters = {}, customName?)] *)
Definition createNode (definition : Js.Property NodeDefinition) (id : string)
    (position : Position) (customParameters : option (gmap string JSON))
    (customName : option string) : N8nNode :=
  {| id := id;
     name := if Js.truthy_opt customName then customName
             else read_defaultName definition;
     type := read_type definition;
     typeVersion := read_typeVersion definition;
     position := position;
     parameters := spread (read_defaultParameters definition)
                          (default ∅ customParameters) |}.

(** [createNodeId(type, index)] *)
Definition createNodeId (type : string) (index : nat) : string :=
  let cleanType := Js.replace "n8n-nodes-base." "" type in
  cleanType +:+ "_" +:+ pretty index.

(** An object literal with the given fields. *)
Definition obj (fields : list (string * JSON)) : gmap string JSON :=
  list_to_map fields.

Definition start_def : NodeDefinition :=
  {| def_type := "n8n-nodes-base.start";
     def_typeVersion := 1;
     description := "Start node that triggers a workflow execution";
     defaultName := "Start";
     defaultParameters := obj [];
     category := trigger;
     inputs := [];
     outputs := ["main"];
     requiredParameters := None;
     parameterDescriptions := None |}.

Definition manualTrigger_def : NodeDefinition :=
  {| def_type := "n8n-nodes-base.manualTrigger";
     def_typeVersion := 1;
     description := "Trigger for manually starting a workflow";
     defaultName := "Manual Trigger";
     defaultParameters := obj [];
     category := trigger;
     inputs := [];
     outputs := ["main"];
     requiredParameters := None;
     parameterDescriptions := None |}.

Definition scheduleTrigger_def : NodeDefinition :=
  {| def_type := "n8n-nodes-base.scheduleTrigger";
     def_typeVersion := 1;
     description := "Trigger workflows at specific times or intervals";
     defaultName := "Schedule Trigger";
     defaultParameters :=
       obj [("interval",
             JArr [JObj [("field", JStr "cronExpression");
                         ("expression", JStr "0 0 * * *")]])];
     category := trigger;
     inputs := [];
     outputs := ["main"];
     requiredParameters := Some ["interval"];
     parameterDescriptions :=
       Some [("interval", "Schedule interval using CRON expression")] |}.

Definition httpRequest_def : NodeDefinition :=
  {| def_type := "n8n-nodes-base.httpRequest";
     def_typeVersion := 1;
     description := "Make HTTP requests to any API endpoint";
     defaultName := "HTTP Request";
     defaultParameters :=
       obj [("url", JStr ""); ("method", JStr "GET");
            ("authentication", JStr "none"); ("options", JObj [])];
     category := action;
     inputs := ["main"];
     outputs := ["main"];
     requiredParameters := Some ["url"; "method"];
     parameterDescriptions :=
       Some [("url", "The URL to make the request to");
             ("method", "HTTP method to use (GET, POST, PUT, etc.)");
             ("authentication", "Authentication method");
             ("options", "Additional HTTP options (headers, query params, etc.)")] |}.

Definition set_def : NodeDefinition :=
  {| def_type := "n8n-nodes-base.set";
     def_typeVersion := 1;
     description := "Set/add values to items and create new ones";
     defaultName := "Set";
     defaultParameters :=
       obj [("values", JObj [("string", JArr [])]); ("options", JObj [])];
     category := data;
     inputs := ["main"];
     outputs := ["main"];
     requiredParameters := None;
     parameterDescriptions :=
       Some [("values", "The values to set"); ("options", "Additional options")] |}.

Definition function_def : NodeDefinition :=
  {| def_type := "n8n-nodes-base.function";
     def_typeVersion := 1;
     description := "Run custom JavaScript code";
     defaultName := "Function";
     defaultParameters := obj [("functionCode", JStr "return items;")];
     category := helper;
     inputs := ["main"];
     outputs := ["main"];
     requiredParameters := Some ["functionCode"];
     parameterDescriptions :=
       Some [("functionCode", "JavaScript code to execute for each item")] |}.

Definition if_def : NodeDefinition :=
  {| def_type := "n8n-nodes-base.if";
     def_typeVersion := 1;
     description := "Split a workflow conditionally";
     defaultName := "IF";
     defaultParameters :=
       obj [("conditions",
             JObj [("string",
                    JArr [JObj [("value1", JStr "");
                                ("operation", JStr "equal");
                                ("value2", JStr "")]])])];
     category := flow;
     inputs := ["main"];
     outputs := ["main"; "main"];
     requiredParameters := Some ["conditions"];
     parameterDescriptions := Some [("conditions", "Conditions to evaluate")] |}.

Definition merge_def : NodeDefinition :=
  {| def_type := "n8n-nodes-base.merge";
     def_typeVersion := 2;
     description := "Merge data of multiple streams";
     defaultName := "Merge";
     defaultParameters := obj [("mode", JStr "append")];
     category := flow;
     inputs := ["main"; "main"];
     outputs := ["main"];
     requiredParameters := None;
     parameterDescriptions :=
       Some [("mode", "How to merge the data (append, keepKeyMatches, etc.)")] |}.

Definition email_def : NodeDefinition :=
  {| def_type := "n8n-nodes-base.email";
     def_typeVersion := 1;
     description := "Send emails";
     defaultName := "Email";
     defaultParameters :=
       obj [("fromEmail", JStr ""); ("toEmail", JStr ""); ("subject", JStr "");
            ("text", JStr ""); ("options", JObj [])];
     category := communication;
     inputs := ["main"];
     outputs := ["main"];
     requiredParameters := Some ["fromEmail"; "toEmail"; "subject"];
     parameterDescriptions :=
       Some [("fromEmail", "Sender email address");
             ("toEmail", "Recipient email address");
             ("subject", "Email subject");
             ("text", "Email body text");
             ("options", "Additional email options")] |}.

Definition googleSheets_def : NodeDefinition :=
  {| def_type := "n8n-nodes-base.googleSheets";
     def_typeVersion := 1;
     description := "Read/write data to Google Sheets";
     defaultName := "Google Sheets";
     defaultParameters :=
       obj [("operation", JStr "read"); ("sheetId", JStr "");
            ("range", JStr ""); ("options", JObj [])];
     category := services;
     inputs := ["main"];
     outputs := ["main"];
     requiredParameters := Some ["operation"; "sheetId"];
     parameterDescriptions :=
       Some [("operation", "Operation to perform (read/write)");
             ("sheetId", "ID of the Google Sheet");
             ("range", "Cell range to read/write");
             ("options", "Additional options")] |}.

Definition twitter_def : NodeDefinition :=
  {| def_type := "n8n-nodes-base.twitter";
     def_typeVersion := 1;
     description := "Post tweets, search tweets, etc.";
     defaultName := "Twitter";
     defaultParameters :=
       obj [("operation", JStr "search"); ("searchText", JStr "");
            ("options", JObj [])];
     category := services;
     inputs := ["main"];
     outputs := ["main"];
     requiredParameters := Some ["operation"];
     parameterDescriptions :=
       Some [("operation", "Operation to perform (search, post, etc.)");
             ("searchText", "Text to search for");
             ("options", "Additional options")] |}.

Definition reddit_def : NodeDefinition :=
  {| def_type := "n8n-nodes-base.reddit";
     def_typeVersion := 1;
     description := "Get data from Reddit";
     defaultName := "Reddit";
     defaultParameters :=
       obj [("operation", JStr "search"); ("subreddit", JStr "");
            ("options", JObj [])];
     category := services;
     inputs := ["main"];
     outputs := ["main"];
     requiredParameters := Some ["operation"; "subreddit"];
     parameterDescriptions :=
       Some [("operation", "Operation to perform (search, get posts, etc.)");
             ("subreddit", "Subreddit to search in");
             ("options", "Additional options")] |}.

Definition slack_def : NodeDefinition :=
  {| def_type := "n8n-nodes-base.slack";
     def_typeVersion := 1;
     description := "Send messages to Slack";
     defaultName := "Slack";
     defaultParameters :=
       obj [("operation", JStr "sendMessage"); ("channel", JStr "");
            ("text", JStr ""); ("options", JObj [])];
     category := communication;
     inputs := ["main"];
     outputs := ["main"];
     requiredParameters := Some ["operation"; "channel"; "text"];
     parameterDescriptions :=
       Some [("operation", "Operation to perform (sendMessage, etc.)");
             ("channel", "Channel to send message to");
             ("text", "Message text");
             ("options", "Additional options")] |}.

(** The catalogue entries, keyed as in the source. *)
Definition catalogue : list (string * NodeDefinition) :=
  [ ("n8n-nodes-base.start", start_def);
    ("n8n-nodes-base.manualTrigger", manualTrigger_def);
    ("n8n-nodes-base.scheduleTrigger", scheduleTrigger_def);
    ("n8n-nodes-base.httpRequest", httpRequest_def);
    ("n8n-nodes-base.set", set_def);
    ("n8n-nodes-base.function", function_def);
    ("n8n-nodes-base.if", if_def);
    ("n8n-nodes-base.merge", merge_def);
    ("n8n-nodes-base.email", email_def);
    ("n8n-nodes-base.googleSheets", googleSheets_def);
    ("n8n-nodes-base.twitter", twitter_def);
    ("n8n-nodes-base.reddit", reddit_def);
    ("n8n-nodes-base.slack", slack_def) ].

Definition nodeDefinitions : gmap string NodeDefinition := list_to_map catalogue.

End NodeDefinitions.

(** ** workflow-generation/index.ts: the workflow generator *)

Module Generator.
Import Schemas NodeDefinitions.

Inductive Complexity := simple | medium | complex.

Record WorkflowRequirements := {
  req_name : string;
  req_description : string;
  operations : list string;
  dataTypes : list string;
  conditionalLogic : bool;
  scheduling : option string;
  templateId : option string;
  complexity : Complexity
}.

Record WorkflowGenerationInput := {
  in_description : option string;
  requiredNodes : option (list string);
  in_complexity : option Complexity;
  includeCredentials : bool
}.

(** [list.includes(x)] on a list of strings *)
Definition mem (x : string) (l : list string) : bool := bool_decide (x ∈ l).

(** [determineRequiredNodes(requirements, explicitNodes = [])] *)
Definition determineRequiredNodes (requirements : WorkflowRequirements)
    (explicitNodes : option (list string)) : list string :=
  let ops := operations requirements in
  let description := Js.toLowerCase (req_description requirements) in
  let nodes := (
    [ if mem "schedule" ops then "n8n-nodes-base.scheduleTrigger"
      else "n8n-nodes-base.start" ]
    ++ (if mem "fetch" ops then ["n8n-nodes-base.httpRequest"] else [])
    ++ (if mem "process" ops
        then ["n8n-nodes-base.function"; "n8n-nodes-base.set"] else [])
    ++ (if mem "notify" ops
        then (if Js.includes "email" description then ["n8n-nodes-base.email"] else [])
             ++ (if Js.includes "slack" description then ["n8n-nodes-base.slack"] else [])
        else [])
    ++ (if conditionalLogic requirements then ["n8n-nodes-base.if"] else [])
    ++ (if mem "store" ops
        then (if Js.includes "google sheet" description
              then ["n8n-nodes-base.googleSheets"] else [])
        else []) )%list in
  fold_left (fun nodes node => if mem node nodes then nodes else (nodes ++ [node])%list)
            (default [] explicitNodes) nodes.

(** The cron expression chosen for a [scheduling] value. *)
Definition cronExpression_for (scheduling : string) : string :=
  if String.eqb scheduling "hourly" then "0 * * * *"
  else if String.eqb scheduling "daily" then "0 9 * * *"
  else if String.eqb scheduling "weekly" then "0 9 * * 1"
  else if String.eqb scheduling "monthly" then "0 9 1 * *"
  else "0 9 * * *".

Definition functionCode_template : string :=
"// Process the data from the previous node
return items.map(item => {
  // Add your processing logic here
  return {
    json: {
      ...item.json,
      processed: true,
      timestamp: new Date().toISOString()
    }
  };
});".

Section Collaborators.

(** The parts of the generator that are text matching or text
    production are parameters of the embedding; every statement below
    holds for all of them.
    - [parseWorkflowRequirements]: keyword and regular-expression
      matching on the description.
    - [apiUrlMatch description]: capture group 1 of
      [description.match(/api:?\s+([^\s,]+)/i)], if it matches.
    - [templateNodes templateId requirements]: [None] when
      [workflowTemplates[templateId]] is falsy, otherwise the [nodes] of
      the workflow that template generates from the parameters
      [createNodeStructure] derives for it, or what that throws.
    - [generateExplanations], [generateSetupInstructions]: the texts
      shown with the workflow; both only read the workflow. *)
Variable parseWorkflowRequirements : string -> Js.Result WorkflowRequirements.
Variable apiUrlMatch : string -> option string.
Variable templateNodes :
  string -> WorkflowRequirements -> option (Js.Result (list N8nNode)).
Variable generateExplanations :
  N8nWorkflow -> WorkflowRequirements -> Js.Result (gmap string string).
Variable generateSetupInstructions : N8nWorkflow -> Js.Result string.

(** The customisation of parameters and display name by node type, in
    the body of the [forEach] of [createNodeStructure]. *)
Definition customize (nodeType : string) (requirements : WorkflowRequirements)
  : gmap string JSON * option string :=
  if String.eqb nodeType "n8n-nodes-base.scheduleTrigger"
     && Js.truthy_opt (scheduling requirements)
  then
    let cronExpression := cronExpression_for (default "" (scheduling requirements)) in
    (obj [("interval",
           JArr [JObj [("field", JStr "cronExpression");
                       ("expression", JStr cronExpression)]])],
     Some "Schedule Trigger")
  else if String.eqb nodeType "n8n-nodes-base.httpRequest" then
    let url := match apiUrlMatch (req_description requirements) with
               | Some u => if Js.truthy u then u else "https://api.example.com/data"
               | None => "https://api.example.com/data"
               end in
    let method :=
      if Js.includes "post" (Js.toLowerCase (req_description requirements))
      then "POST" else "GET" in
    (obj [("url", JStr url); ("method", JStr method)], Some "API Request")
  else if String.eqb nodeType "n8n-nodes-base.function" then
    (obj [("functionCode", JStr functionCode_template)], Some "Process Data")
  else (∅, None).

(** One call of the [forEach] callback: [nodes] and [xPosition] are the
    variables it updates. *)
Definition addNode (requirements : WorkflowRequirements)
    (state : list N8nNode * Z) (nodeType : string) (index : nat)
  : list N8nNode * Z :=
  let '(nodes, xPosition) := state in
  match Js.get nodeDefinitions nodeType with
  | None => state
  | Some definition =>
      let nodeId := createNodeId nodeType (index + 1) in
      let position := (xPosition, 300%Z) in
      let '(customParameters, customName) := customize nodeType requirements in
      let node := createNode definition nodeId position (Some customParameters) customName in
      ((nodes ++ [node])%list, (xPosition + 200)%Z)
  end.

(** [nodeTypes.forEach((nodeType, index) => ...)], from [index] on. *)
Fixpoint forEach_nodeType (requirements : WorkflowRequirements)
    (index : nat) (nodeTypes : list string) (state : list N8nNode * Z)
  : list N8nNode * Z :=
  match nodeTypes with
  | [] => state
  | nodeType :: rest =>
      forEach_nodeType requirements (S index) rest
        (addNode requirements state nodeType index)
  end.

(** The part of [createNodeStructure] that builds the nodes one by one. *)
Definition buildSequential (nodeTypes : list string)
    (requirements : WorkflowRequirements) : list N8nNode :=
  fst (forEach_nodeType requirements 0 nodeTypes ([], 100%Z)).

(** [createNodeStructure(nodeTypes, requirements)] *)
Definition createNodeStructure (nodeTypes : list string)
    (requirements : WorkflowRequirements) : Js.Result (list N8nNode) :=
  let fromTemplate :=
    match templateId requirements with
    | Some tid => if Js.truthy tid then templateNodes tid requirements else None
    | None => None
    end in
  match fromTemplate with
  | Some nodes => nodes
  | None => Js.ret (buildSequential nodeTypes requirements)
  end.

(** [nodeDefinitions[currentNode.type]?.outputs?.length] is truthy *)
Definition has_outputs (currentNode : N8nNode) : bool :=
  match Js.get nodeDefinitions (Js.property_key (type currentNode)) with
  | Some (Js.Own definition) => negb (Nat.eqb (length (outputs definition)) 0)
  | Some (Js.Inherited _) => false
  | None => false
  end.

Definition connection_to (target : N8nNode) (index : nat) : N8nConnection :=
  {| node := name target; conn_type := "main"; index := index |}.

(** The loop [for (let i = 0; i < nodes.length - 1; i++)] of
    [createConnections], started at the position whose remaining nodes
    are [nodes]: [currentNode] is [nodes[i]], [remainingNodes] is
    [nodes.slice(i + 1)]. *)
Fixpoint connect_from (nodes : list N8nNode)
    (connections : gmap string SourceConnections)
  : Js.Result (gmap string SourceConnections) :=
  match nodes with
  | currentNode :: ((nextNode :: afterNext) as remainingNodes) =>
      if negb (has_outputs currentNode) then
        connect_from remainingNodes connections
      else if Js.strict_eq (type currentNode) (Some "n8n-nodes-base.if") then
        match remainingNodes with
        | first :: second :: _ =>
            do c1 <- push_connection connections (name currentNode)
                       (connection_to first 0) ;
            do c2 <- push_connection c1 (name currentNode)
                       (connection_to second 1) ;
            connect_from afterNext c2
        | _ =>
            do c1 <- push_connection connections (name currentNode)
                       (connection_to nextNode 0) ;
            connect_from remainingNodes c1
        end
      else
        do c1 <- push_connection connections (name currentNode)
                   (connection_to nextNode 0) ;
        connect_from remainingNodes c1
  | _ => Js.ret connections
  end.

(** [createConnections(nodes)] *)
Definition createConnections (nodes : list N8nNode) : Js.Result N8nConnections :=
  do main <- connect_from nodes ∅ ;
  Js.ret {| conn_main := main |}.

(** [workflow.nodes.some(node => node.type.includes('Trigger') ||
    node.type === 'n8n-nodes-base.start')]; reading [includes] on an
    [undefined] type raises a [TypeError]. *)
Fixpoint some_trigger (nodes : list N8nNode) : Js.Result bool :=
  match nodes with
  | [] => Js.ret false
  | node :: rest =>
      match type node with
      | None => Js.throw Js.TypeError
      | Some t =>
          if Js.includes "Trigger" t || String.eqb t "n8n-nodes-base.start"
          then Js.ret true
          else some_trigger rest
      end
  end.

(** [workflow.nodes.find(n => n.name === target)] finds a node *)
Definition find_node (nodes : list N8nNode) (target : option string) : bool :=
  existsb (fun n => Js.strict_eq (name n) target) nodes.

(** The three nested loops of the connection check, over the entries of
    [workflow.connections.main] and the targets under each.  The entries
    are enumerated in the order of [map_to_list]; the source's
    [Object.entries] follows insertion order, so when several targets are
    missing the one reported may differ, not whether one is. *)
Fixpoint check_targets (nodes : list N8nNode) (targets : list N8nConnection)
  : Js.Result unit :=
  match targets with
  | [] => Js.ret tt
  | connection :: rest =>
      if find_node nodes (node connection) then check_targets nodes rest
      else Js.throw (Js.Error ("Connection points to non-existent node: "
                               +:+ Js.property_key (node connection)))
  end.

Fixpoint check_sources (nodes : list N8nNode)
    (entries : list (string * SourceConnections)) : Js.Result unit :=
  match entries with
  | [] => Js.ret tt
  | (_, sourceConnections) :: rest =>
      do _ <- check_targets nodes (main sourceConnections) ;
      check_sources nodes rest
  end.

(** [validateWorkflow(workflow)]: returns nothing, throws on the first
    problem found. *)
Definition validateWorkflow (workflow : N8nWorkflow) : Js.Result unit :=
  if negb (Js.truthy (wf_name workflow)) then
    Js.throw (Js.Error "Workflow must have a name")
  else if Nat.eqb (length (nodes workflow)) 0 then
    Js.throw (Js.Error "Workflow must have at least one node")
  else
    do hasTriggerNode <- some_trigger (nodes workflow) ;
    if negb hasTriggerNode then
      Js.throw (Js.Error "Workflow must have a trigger node")
    else
      check_sources (nodes workflow)
                    (map_to_list (conn_main (connections workflow))).

(** [ExecuteResult] of the generator. *)
Inductive ExecuteResult :=
| Data (workflow : N8nWorkflow) (explanations : gmap string string)
       (setupInstructions : option string)
| Failed (message : Js.Message).

Definition with_complexity (requirements : WorkflowRequirements)
    (c : Complexity) : WorkflowRequirements :=
  {| req_name := req_name requirements;
     req_description := req_description requirements;
     operations := operations requirements;
     dataTypes := dataTypes requirements;
     conditionalLogic := conditionalLogic requirements;
     scheduling := scheduling requirements;
     templateId := templateId requirements;
     complexity := c |}.

(** The body of the [try] block of [generateWorkflow]. *)
Definition generateWorkflow_try (input : WorkflowGenerationInput)
  : Js.Result ExecuteResult :=
  if negb (Js.truthy_opt (in_description input)) then
    Js.ret (Failed (Js.Text "Workflow description is required"))
  else
    do parsed <- parseWorkflowRequirements (default "" (in_description input)) ;
    let requirements :=
      match in_complexity input with
      | Some c => with_complexity parsed c
      | None => parsed
      end in
    let neededNodes := determineRequiredNodes requirements (requiredNodes input) in
    do nodes <- createNodeStructure neededNodes requirements ;
    do connections <- createConnections nodes ;
    let workflow :=
      {| wf_name := req_name requirements;
         wf_description := req_description requirements;
         nodes := nodes;
         connections := connections;
         active := false;
         settings := {| executionOrder := Some "v1";
                        saveExecutionProgress := true;
                        saveManualExecutions := true |} |} in
    do _ <- validateWorkflow workflow ;
    do explanations <- generateExplanations workflow requirements ;
    do setupInstructions <-
      (if includeCredentials input
       then do text <- generateSetupInstructions workflow ; Js.ret (Some text)
       else Js.ret None) ;
    Js.ret (Data workflow explanations setupInstructions).

(** [generateWorkflow(params)]: the [catch] turns whatever was thrown
    into an error result, [error.message || 'Failed to generate workflow']. *)
Definition generateWorkflow (input : WorkflowGenerationInput) : ExecuteResult :=
  match generateWorkflow_try input with
  | inr result => result
  | inl (Js.Error m) =>
      Failed (Js.Text (if Js.truthy m then m else "Failed to generate workflow"))
  | inl Js.TypeError => Failed (Js.EngineText "")
  end.

End Collaborators.

End Generator.

(** ** templates/applyTemplate.ts *)

Module ApplyTemplate.
Import Schemas.

Record ApplyTemplateInput := {
  template_id : option string;
  name : option string;
  parameters : option (gmap string JSON)
}.

Definition dquote : string := String "034"%char EmptyString.

Definition default_settings : Settings :=
  {| executionOrder := None;
     saveExecutionProgress := true;
     saveManualExecutions := true |}.

Definition start_node : NodeData :=
  {| nd_parameters := JObj [];
     nd_name := "Start";
     nd_type := "n8n-nodes-base.start";
     nd_typeVersion := 1;
     nd_position := (250, 300)%Z |}.

Definition link (target : string) : SourceConnections :=
  {| main := [{| node := Some target; conn_type := "main"; index := 0 |}] |}.

Definition processedData : JSON :=
  JObj [("values",
         JObj [("string",
                JArr [JObj [("name", JStr "processedData");
                            ("value", JStr "={{ $json }}")]])])].

(** [createApiRequestWorkflow(name, parameters)] *)
Definition createApiRequestWorkflow (name : string)
    (parameters : gmap string JSON) : WorkflowData :=
  let apiUrl := or_else (parameters !! "apiUrl") (JStr "https://api.example.com/data") in
  let method := or_else (parameters !! "method") (JStr "GET") in
  {| wd_name := name;
     wd_description := JStr "Workflow created from the API Request template";
     wd_nodes :=
       [ start_node;
         {| nd_parameters := JObj [("url", apiUrl); ("method", method);
                                   ("authentication", JStr "none");
                                   ("options", JObj [])];
            nd_name := "HTTP Request";
            nd_type := "n8n-nodes-base.httpRequest";
            nd_typeVersion := 1;
            nd_position := (450, 300)%Z |};
         {| nd_parameters := processedData;
            nd_name := "Process Data";
            nd_type := "n8n-nodes-base.set";
            nd_typeVersion := 1;
            nd_position := (650, 300)%Z |} ];
     wd_connections :=
       {| conn_main := <["HTTP Request" := link "Process Data"]>
                         (<["Start" := link "HTTP Request"]> ∅) |};
     wd_active := false;
     wd_settings := default_settings;
     wd_tags := JArr [JStr "api"; JStr "template"] |}.

(** [createSocialMediaWorkflow(name, parameters)] *)
Definition createSocialMediaWorkflow (name : string)
    (parameters : gmap string JSON) : WorkflowData :=
  {| wd_name := name;
     wd_description := JStr "Workflow created from the Social Media Posting template";
     wd_nodes :=
       [ start_node;
         {| nd_parameters :=
              JObj [("values",
                     JObj [("string",
                            JArr [JObj [("name", JStr "postContent");
                                        ("value", JStr "Sample post content")];
                                  JObj [("name", JStr "postTitle");
                                        ("value", JStr "Sample post title")]])])];
            nd_name := "Create Post Content";
            nd_type := "n8n-nodes-base.set";
            nd_typeVersion := 1;
            nd_position := (450, 300)%Z |} ];
     wd_connections := {| conn_main := <["Start" := link "Create Post Content"]> ∅ |};
     wd_active := false;
     wd_settings := default_settings;
     wd_tags := JArr [JStr "social"; JStr "marketing"; JStr "template"] |}.

(** [createDataProcessingWorkflow(name, parameters)] *)
Definition createDataProcessingWorkflow (name : string)
    (parameters : gmap string JSON) : WorkflowData :=
  {| wd_name := name;
     wd_description := JStr "Workflow created from the Data Processing Pipeline template";
     wd_nodes :=
       [ start_node;
         {| nd_parameters := JObj [("url", JStr "https://api.example.com/data");
                                   ("method", JStr "GET");
                                   ("authentication", JStr "none");
                                   ("options", JObj [])];
            nd_name := "Data Source";
            nd_type := "n8n-nodes-base.httpRequest";
            nd_typeVersion := 1;
            nd_position := (450, 300)%Z |};
         {| nd_parameters :=
              JObj [("functionCode",
                     JStr "// Process the data from the previous node
return items;")];
            nd_name := "Transform Data";
            nd_type := "n8n-nodes-base.function";
            nd_typeVersion := 1;
            nd_position := (650, 300)%Z |};
         {| nd_parameters := processedData;
            nd_name := "Format Data";
            nd_type := "n8n-nodes-base.set";
            nd_typeVersion := 1;
            nd_position := (850, 300)%Z |} ];
     wd_connections :=
       {| conn_main := <["Transform Data" := link "Format Data"]>
                         (<["Data Source" := link "Transform Data"]>
                            (<["Start" := link "Data Source"]> ∅)) |};
     wd_active := false;
     wd_settings := default_settings;
     wd_tags := JArr [JStr "data"; JStr "transformation"; JStr "template"] |}.

(** [createNotificationWorkflow(name, parameters)] *)
Definition createNotificationWorkflow (name : string)
    (parameters : gmap string JSON) : WorkflowData :=
  {| wd_name := name;
     wd_description := JStr "Workflow created from the Notification System template";
     wd_nodes :=
       [ start_node;
         {| nd_parameters :=
              JObj [("values",
                     JObj [("string",
                            JArr [JObj [("name", JStr "notificationTitle");
                                        ("value", JStr "Notification Title")];
                                  JObj [("name", JStr "notificationBody");
                                        ("value", JStr "Notification Body")]])])];
            nd_name := "Prepare Notification";
            nd_type := "n8n-nodes-base.set";
            nd_typeVersion := 1;
            nd_position := (450, 300)%Z |};
         {| nd_parameters :=
              JObj [("fromEmail", JStr "notifications@example.com");
                    ("toEmail", or_else (parameters !! "email") (JStr "user@example.com"));
                    ("subject", JStr "={{ $json.notificationTitle }}");
                    ("text", JStr "={{ $json.notificationBody }}")];
            nd_name := "Send Email";
            nd_type := "n8n-nodes-base.email";
            nd_typeVersion := 1;
            nd_position := (650, 300)%Z |} ];
     wd_connections :=
       {| conn_main := <["Prepare Notification" := link "Send Email"]>
                         (<["Start" := link "Prepare Notification"]> ∅) |};
     wd_active := false;
     wd_settings := default_settings;
     wd_tags := JArr [JStr "notification"; JStr "email"; JStr "template"] |}.

(** The identifiers the [switch] knows. *)
Definition template_ids : list string :=
  ["api-request"; "social-media"; "data-processing"; "notification"].

(** The [switch (template_id)]: the workflow data of a known template,
    [None] for the [default] branch. *)
Definition select_template (template_id name : string)
    (parameters : gmap string JSON) : option WorkflowData :=
  if String.eqb template_id "api-request" then
    Some (createApiRequestWorkflow name parameters)
  else if String.eqb template_id "social-media" then
    Some (createSocialMediaWorkflow name parameters)
  else if String.eqb template_id "data-processing" then
    Some (createDataProcessingWorkflow name parameters)
  else if String.eqb template_id "notification" then
    Some (createNotificationWorkflow name parameters)
  else None.

(** [if (parameters.description) ...; if (parameters.tags) ...] *)
Definition apply_parameters (workflowData : WorkflowData)
    (parameters : gmap string JSON) : WorkflowData :=
  {| wd_name := wd_name workflowData;
     wd_description := or_else (parameters !! "description") (wd_description workflowData);
     wd_nodes := wd_nodes workflowData;
     wd_connections := wd_connections workflowData;
     wd_active := wd_active workflowData;
     wd_settings := wd_settings workflowData;
     wd_tags := or_else (parameters !! "tags") (wd_tags workflowData) |}.

Section Api.

(** The API client: [n8nApi.createWorkflow(workflowData)] answers with
    the stored workflow or throws. *)
Variable StoredWorkflow : Type.
Variable createWorkflow : WorkflowData -> Js.Result StoredWorkflow.

Inductive ExecuteResult :=
| Data (workflow : StoredWorkflow) (template_id : string) (message : string)
| Failed (message : Js.Message).

(** What a call of the tool does: its result and the workflow data it
    handed to [createWorkflow], in call order. *)
Record Outcome := {
  result : ExecuteResult;
  sent : list WorkflowData
}.

(** [applyTemplate(input)] *)
Definition applyTemplate (input : ApplyTemplateInput) : Outcome :=
  let parameters := default ∅ (parameters input) in
  if negb (Js.truthy_opt (template_id input)) then
    {| result := Failed (Js.Text "Template ID is required"); sent := [] |}
  else if negb (Js.truthy_opt (name input)) then
    {| result := Failed (Js.Text "Workflow name is required"); sent := [] |}
  else
    let template_id := default "" (template_id input) in
    let name := default "" (name input) in
    match select_template template_id name parameters with
    | None =>
        {| result := Failed (Js.Text ("Template with ID " +:+ dquote +:+ template_id
                                      +:+ dquote +:+ " not found"));
           sent := [] |}
    | Some workflowData =>
        let workflowData := apply_parameters workflowData parameters in
        match createWorkflow workflowData with
        | inr workflow =>
            {| result := Data workflow template_id
                           ("Workflow " +:+ dquote +:+ name +:+ dquote
                            +:+ " created from template " +:+ dquote
                            +:+ template_id +:+ dquote);
               sent := [workflowData] |}
        | inl error =>
            {| result := Failed (Js.message_of "Failed to apply template: " error);
               sent := [workflowData] |}
        end
    end.

End Api.

End ApplyTemplate.

(** ** social-media/createSocialPostWorkflow.ts *)

Module SocialPost.
Import Schemas.

Record CreateSocialPostWorkflowInput := {
  name : option string;
  platforms : option (list string);
  content_source : option string
}.

Definition start_node : NodeData :=
  {| nd_parameters := JObj [];
     nd_name := "Start";
     nd_type := "n8n-nodes-base.start";
     nd_typeVersion := 1;
     nd_position := (250, 300)%Z |}.

(** The [contentSourceNode], after the adjustment for manual input. *)
Definition contentSourceNode (content_source : string) (xPosition : Z) : NodeData :=
  {| nd_parameters :=
       if String.eqb content_source "manual" then
         JObj [("values",
                JObj [("string",
                       JArr [JObj [("name", JStr "postContent"); ("value", JStr "")];
                             JObj [("name", JStr "postTitle"); ("value", JStr "")];
                             JObj [("name", JStr "postImage"); ("value", JStr "")]])])]
       else JObj [];
     nd_name := "Content Source";
     nd_type := if String.eqb content_source "rss"
                then "n8n-nodes-base.rssFeedRead" else "n8n-nodes-base.set";
     nd_typeVersion := 1;
     nd_position := (xPosition, 300%Z) |}.

Section Engine.

(** The case mappings are the engine's, which follow Unicode, and are
    parameters of the embedding; every statement below holds for all of
    them.
    - [toLowerCase platform]: [platform.toLowerCase()].
    - [capitalize platform]:
      [platform.charAt(0).toUpperCase() + platform.slice(1)]. *)
Variable toLowerCase : string -> string.
Variable capitalize : string -> string.

(** The display name given to the node of a platform:
    [`Post to ${platform.charAt(0).toUpperCase() + platform.slice(1)}`]. *)
Definition platformNode_name (platform : string) : string :=
  "Post to " +:+ capitalize platform.

(** The [platformNode] built in the loop body, with the [switch] on the
    lower-cased platform. *)
Definition platformNode (platform : string) (xPosition : Z) : NodeData :=
  let lower := toLowerCase platform in
  let '(type, parameters) :=
    if String.eqb lower "twitter" || String.eqb lower "x" then
      ("n8n-nodes-base.twitter",
       JObj [("text", JStr "={{ $json.postContent }}"); ("operation", JStr "create")])
    else if String.eqb lower "linkedin" then
      ("n8n-nodes-base.linkedIn",
       JObj [("text", JStr "={{ $json.postContent }}"); ("operation", JStr "create")])
    else if String.eqb lower "facebook" then
      ("n8n-nodes-base.facebookGraphApi",
       JObj [("message", JStr "={{ $json.postContent }}"); ("operation", JStr "create")])
    else
      ("n8n-nodes-base.httpRequest",
       JObj [("url", JStr ("https://api.example.com/" +:+ platform +:+ "/post"));
             ("method", JStr "POST");
             ("body", JObj [("content", JStr "={{ $json.postContent }}");
                            ("title", JStr "={{ $json.postTitle }}")]);
             ("bodyContentType", JStr "json")]) in
  {| nd_parameters := parameters;
     nd_name := platformNode_name platform;
     nd_type := type;
     nd_typeVersion := 1;
     nd_position := (xPosition, 300%Z) |}.

(** The variables the platform loop updates. *)
Record LoopState := {
  ls_nodes : list NodeData;
  ls_main : gmap string SourceConnections;
  lastNodeName : string;
  xPosition : Z
}.

(** One iteration of [for (const platform of platforms)]. *)
Definition add_platform (st : LoopState) (platform : string) : Js.Result LoopState :=
  let node := platformNode platform (xPosition st) in
  do main <- push_connection (ls_main st) (Some (lastNodeName st))
               {| node := Some (nd_name node); conn_type := "main"; index := 0 |} ;
  Js.ret {| ls_nodes := (ls_nodes st ++ [node])%list;
            ls_main := main;
            lastNodeName := nd_name node;
            xPosition := (xPosition st + 200)%Z |}.

Fixpoint for_platforms (platforms : list string) (st : LoopState) : Js.Result LoopState :=
  match platforms with
  | [] => Js.ret st
  | platform :: rest =>
      do st' <- add_platform st platform ;
      for_platforms rest st'
  end.

(** The workflow data assembled before the API call. *)
Definition build_workflowData (name : string) (platforms : list string)
    (content_source : string) : Js.Result WorkflowData :=
  let source := contentSourceNode content_source 450 in
  let st0 :=
    {| ls_nodes := [start_node; source];
       ls_main := <["Start" := {| main := [{| node := Some "Content Source";
                                              conn_type := "main";
                                              index := 0 |}] |}]> ∅;
       lastNodeName := "Content Source";
       xPosition := 650 |} in
  do st <- for_platforms platforms st0 ;
  Js.ret {| wd_name := name;
            wd_description :=
              JStr ("Social media posting workflow for " +:+ Js.join ", " platforms);
            wd_nodes := ls_nodes st;
            wd_connections := {| conn_main := ls_main st |};
            wd_active := false;
            wd_settings := {| executionOrder := None;
                              saveExecutionProgress := true;
                              saveManualExecutions := true |};
            wd_tags := JArr (JStr "social" :: map JStr platforms) |}.

Section Api.

Variable StoredWorkflow : Type.
Variable createWorkflow : WorkflowData -> Js.Result StoredWorkflow.

Inductive ExecuteResult :=
| Data (workflow : StoredWorkflow) (message : string)
| Failed (message : Js.Message).

Record Outcome := {
  result : ExecuteResult;
  sent : list WorkflowData
}.

(** [createSocialPostWorkflow(input)] *)
Definition createSocialPostWorkflow (input : CreateSocialPostWorkflowInput) : Outcome :=
  let platforms := default [] (platforms input) in
  let content_source := default "manual" (content_source input) in
  if negb (Js.truthy_opt (name input)) then
    {| result := Failed (Js.Text "Workflow name is required"); sent := [] |}
  else if Nat.eqb (length platforms) 0 then
    {| result := Failed (Js.Text "At least one social media platform is required");
       sent := [] |}
  else
    match build_workflowData (default "" (name input)) platforms content_source with
    | inl error =>
        {| result := Failed (Js.message_of "Failed to create social post workflow: " error);
           sent := [] |}
    | inr workflowData =>
        match createWorkflow workflowData with
        | inr workflow =>
            {| result := Data workflow
                           ("Social media posting workflow for "
                            +:+ Js.join ", " platforms +:+ " created successfully");
               sent := [workflowData] |}
        | inl error =>
            {| result := Failed (Js.message_of "Failed to create social post workflow: " error);
               sent := [workflowData] |}
        end
    end.

End Api.

End Engine.

End SocialPost.

(** ** tools/common-infrastructure/index.ts: the rule-based validator *)

Module Infrastructure.

(** A workflow fetched from the API: the fields the rules read, and its
    connections. *)
Record ApiNode := {
  name : string;
  type : string;
  continueOnFail : option bool;
  credentials : option (list string)
}.

Record ApiWorkflow := {
  wf_name : option string;
  nodes : list ApiNode;
  connections : Schemas.N8nConnections;
  errorWorkflow : option string
}.

(** The same workflow with other connections. *)
Definition with_connections (wf : ApiWorkflow) (c : Schemas.N8nConnections)
  : ApiWorkflow :=
  {| wf_name := wf_name wf;
     nodes := nodes wf;
     connections := c;
     errorWorkflow := errorWorkflow wf |}.

Record ValidateWorkflowInput := {
  workflowId : option string;
  validationRules : option (list string)
}.

(** What a rule returns; [pass] holds the truthiness of the value the
    source stores there. *)
Record RuleResult := { pass : bool; issues : list string }.

Definition Rule : Type := ApiWorkflow -> RuleResult.

Definition rule_trigger : Rule := fun wf =>
  let hasTrigger :=
    existsb (fun node => Js.includes "Trigger" (type node)
                         || String.eqb (type node) "n8n-nodes-base.start")
            (nodes wf) in
  {| pass := hasTrigger;
     issues := if hasTrigger then []
               else ["Workflow must have at least one trigger node"] |}.

Definition rule_errorHandling : Rule := fun wf =>
  let hasErrorHandling :=
    Js.truthy_opt (errorWorkflow wf)
    || existsb (fun node => bool_decide (continueOnFail node = Some true)) (nodes wf) in
  {| pass := hasErrorHandling;
     issues := if hasErrorHandling then []
               else ["Workflow lacks error handling mechanisms"] |}.

(** The callback of [wf.nodes.forEach] in the naming rule: [seen] is the
    set [uniqueNodeNames]. *)
Definition naming_step (state : gset string * list string) (node : ApiNode)
  : gset string * list string :=
  let '(seen, issues) := state in
  let issues :=
    if bool_decide (name node ∈ seen)
    then (issues ++ ["Duplicate node name: " +:+ name node])%list else issues in
  let seen := {[ name node ]} ∪ seen in
  let issues :=
    if String.eqb (name node) (type node) || Js.includes "Node" (name node)
    then (issues ++ ["Generic node name detected: " +:+ name node])%list else issues in
  (seen, issues).

Definition rule_naming : Rule := fun wf =>
  let issues0 :=
    match wf_name wf with
    | Some n => if negb (Js.truthy n) || (String.length n <? 3)%nat
                then ["Workflow name is too short or missing"] else []
    | None => ["Workflow name is too short or missing"]
    end in
  let issues := snd (fold_left naming_step (nodes wf) (∅, issues0)) in
  {| pass := Nat.eqb (length issues) 0; issues := issues |}.

Definition rule_credentials : Rule := fun wf =>
  let nodesWithCredentials :=
    List.filter (fun node => match credentials node with
                             | Some keys => (0 <? length keys)%nat
                             | None => false
                             end) (nodes wf) in
  let issues :=
    if (0 <? length nodesWithCredentials)%nat
    then ["Workflow uses credentials that should be verified"] else [] in
  {| pass := Nat.eqb (length issues) 0; issues := issues |}.

(** The own properties of [rules], in the order they are written. *)
Definition rules_entries : list (string * Rule) :=
  [ ("trigger", rule_trigger);
    ("errorHandling", rule_errorHandling);
    ("naming", rule_naming);
    ("credentials", rule_credentials) ].

Definition rules : gmap string Rule := list_to_map rules_entries.

(** [results[rule] = value] on an insertion-ordered record. *)
Fixpoint assign (key : string) (value : RuleResult)
    (results : list (string * RuleResult)) : list (string * RuleResult) :=
  match results with
  | [] => [(key, value)]
  | (k, v) :: rest =>
      if String.eqb k key then (k, value) :: rest
      else (k, v) :: assign key value rest
  end.

(** The loop over the selected rule names.  [rules[rule]] is also truthy
    for the members inherited from [Object.prototype]; such a member is
    then called in place of a rule, and either the call or the later read
    of [issues] on what it returned raises a [TypeError]. *)
Fixpoint apply_selected (selected : list string) (wf : ApiWorkflow)
    (results : list (string * RuleResult)) : Js.Result (list (string * RuleResult)) :=
  match selected with
  | [] => Js.ret results
  | rule :: rest =>
      match Js.get rules rule with
      | Some (Js.Own ruleFunc) => apply_selected rest wf (assign rule (ruleFunc wf) results)
      | Some (Js.Inherited _) => Js.throw Js.TypeError
      | None => apply_selected rest wf results
      end
  end.

(** The loop that collects the issues of the rules that did not pass. *)
Fixpoint collect (results : list (string * RuleResult)) (allPassed : bool)
    (allIssues : list string) : bool * list string :=
  match results with
  | [] => (allPassed, allIssues)
  | (ruleName, result) :: rest =>
      if negb (pass result) then
        collect rest false
          (allIssues ++ map (fun issue => "[" +:+ ruleName +:+ "] " +:+ issue)
                            (issues result))%list
      else collect rest allPassed allIssues
  end.

Record Body := {
  body_workflowId : string;
  workflowName : option string;
  validationPassed : bool;
  ruleResults : list (string * RuleResult);
  body_issues : list string
}.

Inductive MCPResponse :=
| Ok (body : Body)
| Failed (message : Js.Message).

Section Api.

(** The API client: [n8nApi.getWorkflow(workflowId)]. *)
Variable getWorkflow : string -> Js.Result ApiWorkflow.

(** [validateWorkflow(input)] *)
Definition validateWorkflow (input : ValidateWorkflowInput) : MCPResponse :=
  let validationRules := default ["all"] (validationRules input) in
  if negb (Js.truthy_opt (workflowId input)) then
    Failed (Js.Text "Workflow ID is required for validation")
  else
    let workflowId := default "" (workflowId input) in
    match getWorkflow workflowId with
    | inl error =>
        Failed (Js.message_of ("Failed to retrieve workflow " +:+ workflowId +:+ ": ") error)
    | inr workflow =>
        let applied :=
          if bool_decide ("all" ∈ validationRules) then
            Js.ret (map (fun '(ruleName, ruleFunc) => (ruleName, ruleFunc workflow))
                        rules_entries)
          else apply_selected validationRules workflow [] in
        match applied with
        | inl error => Failed (Js.message_of "Validation failed: " error)
        | inr results =>
            let '(allPassed, allIssues) := collect results true [] in
            Ok {| body_workflowId := workflowId;
                  workflowName := wf_name workflow;
                  validationPassed := allPassed;
                  ruleResults := results;
                  body_issues := allIssues |}
        end
    end.

End Api.

End Infrastructure.

(** ** tools/common-infrastructure/index.ts: deployment *)

Module Deploy.

Record DeployWorkflowInput := {
  workflowId : option string;
  environments : option (list string);
  activate : option bool;
  force : option bool
}.

(** [getEnvironments()] *)
Definition getEnvironments : list string :=
  ["development"; "staging"; "production"].

(** One element of [deploymentResults]. *)
Record Deployment := {
  environment : string;
  success : bool;
  message : string;
  deployed_workflowId : string;
  activationStatus : bool
}.

(** The [details] an error answer may carry. *)
Inductive Details :=
| NoDetails
| AvailableEnvironments (available : list string)
| ValidationError (message : Js.Message).

Inductive Response :=
| Deployed (message : string) (deployments : list Deployment)
| Rejected (message : Js.Message) (details : Details).

(** The callback of [environments.map] that builds a deployment record. *)
Definition deployment_of (workflow : Infrastructure.ApiWorkflow)
    (workflowId : string) (activate : bool) (env : string) : Deployment :=
  {| environment := env;
     success := true;
     message := "Workflow " +:+ Js.property_key (Infrastructure.wf_name workflow)
                +:+ " deployed to " +:+ env;
     deployed_workflowId := env +:+ "-" +:+ workflowId;
     activationStatus := activate |}.

(** [deployWorkflow(input)].  [getWorkflow n] is the API client's answer to
    the call number [n] of [n8nApi.getWorkflow] made during the invocation:
    the first is made by [deployWorkflow] itself, the second inside
    [validateWorkflow]. *)
Definition deployWorkflow
    (getWorkflow : nat -> string -> Js.Result Infrastructure.ApiWorkflow)
    (input : DeployWorkflowInput) : Response :=
  let activate := default false (activate input) in
  let force := default false (force input) in
  if negb (Js.truthy_opt (workflowId input)) then
    Rejected (Js.Text "Workflow ID is required for deployment") NoDetails
  else if Nat.eqb (length (default [] (environments input))) 0 then
    Rejected (Js.Text "At least one target environment is required for deployment")
             NoDetails
  else
    let workflowId := default "" (workflowId input) in
    let environments := default [] (environments input) in
    let availableEnvironments := getEnvironments in
    let invalidEnvironments :=
      List.filter (fun env => negb (Generator.mem env availableEnvironments))
                  environments in
    if (0 <? length invalidEnvironments)%nat && negb force then
      Rejected (Js.Text ("Invalid environment(s): " +:+ Js.join ", " invalidEnvironments))
               (AvailableEnvironments availableEnvironments)
    else
      match getWorkflow 0%nat workflowId with
      | inl error =>
          Rejected (Js.message_of ("Failed to retrieve workflow " +:+ workflowId +:+ ": ")
                                  error)
                   NoDetails
      | inr workflow =>
          let validationError :=
            if force then None
            else
              match Infrastructure.validateWorkflow (getWorkflow 1%nat)
                      {| Infrastructure.workflowId := Some workflowId;
                         Infrastructure.validationRules := None |} with
              | Infrastructure.Failed error => Some error
              | Infrastructure.Ok _ => None
              end in
          match validationError with
          | Some error =>
              Rejected (Js.Text "Validation failed, deployment aborted")
                       (ValidationError error)
          | None =>
              Deployed ("Workflow deployed to " +:+ pretty (length environments)
                        +:+ " environment(s)")
                       (map (deployment_of workflow workflowId activate) environments)
          end
      end.

End Deploy.

(** ** templates/listTemplates.ts *)

Module ListTemplates.

Record Template := {
  id : string;
  name : string;
  description : string;
  category : list string;
  nodeCount : nat
}.

Definition templates : list Template :=
  [ {| id := "api-request";
       name := "API Request";
       description := "A template for making API requests and processing the responses";
       category := ["api"; "data"];
       nodeCount := 3 |};
    {| id := "social-media";
       name := "Social Media Posting";
       description := "Post content to various social media platforms";
       category := ["social"; "marketing"];
       nodeCount := 5 |};
    {| id := "data-processing";
       name := "Data Processing Pipeline";
       description := "Process and transform data from various sources";
       category := ["data"; "transformation"];
       nodeCount := 7 |};
    {| id := "notification";
       name := "Notification System";
       description := "Send notifications through multiple channels based on triggers";
       category := ["communication"; "automation"];
       nodeCount := 4 |} ].

Record Listing := {
  listed : list Template;
  count : nat;
  total : nat;
  categories : list string
}.

Section Engine.

(** The engine's [String.prototype.toLowerCase]. *)
Variable toLowerCase : string -> string.

(** [listTemplates(input)], for an input whose [category] is a string or
    absent. *)
Definition listTemplates (requested : option string) : Listing :=
  let filteredTemplates :=
    match requested with
    | Some wanted =>
        if Js.truthy wanted && negb (String.eqb wanted "all") then
          List.filter
            (fun template =>
               existsb (fun cat => String.eqb (toLowerCase cat) (toLowerCase wanted))
                       (category template))
            templates
        else templates
    | None => templates
    end in
  {| listed := filteredTemplates;
     count := length filteredTemplates;
     total := length templates;
     categories := ["api"; "data"; "social"; "marketing"; "transformation";
                    "communication"; "automation"] |}.

End Engine.

End ListTemplates.

(** ** index.ts: the manifest and the dispatcher *)

Module Server.

(** The names of [manifest.tools], in order. *)
Definition manifest_tools : list string :=
  [ "n8n/list_workflows"; "n8n/get_workflow"; "n8n/create_workflow";
    "n8n/activate_workflow"; "n8n/delete_workflow";
    "n8n/create_research_workflow"; "n8n/create_social_post_workflow";
    "n8n/generate_node"; "n8n/run_workflow"; "n8n/get_execution_logs";
    "n8n/fix_workflow_error"; "n8n/list_templates"; "n8n/apply_template";
    "n8n/generate_workflow"; "n8n/analyze_error"; "n8n/build_expression";
    "n8n/convert_workflow"; "n8n/deploy_workflow"; "n8n/validate_workflow";
    "n8n/manage_credentials"; "n8n/generate_environment_config" ].

(** The [name] fields of the array [commonInfrastructureTools], the default
    export of the common-infrastructure module, in order. *)
Definition commonInfrastructureTools : list string :=
  ["deployWorkflow"; "validateWorkflow"; "manageCredentials";
   "generateEnvironmentConfig"].

(** The tool functions the [switch] of [execute] calls directly. *)
Inductive Handler :=
| listWorkflows | getWorkflow | createWorkflow | activateWorkflow | deleteWorkflow
| createResearchWorkflow | createSocialPostWorkflow | generateNode
| runWorkflow | getExecutionLogs | fixWorkflowError
| listTemplates | applyTemplate
| generateWorkflow | analyzeWorkflowError
| expressionBuilderTool | convertWorkflowTool.

(** Where the [switch (tool)] goes. *)
Inductive Route :=
| Direct (handler : Handler)
| Infrastructure
| Unknown.

Definition route (tool : string) : Route :=
  if String.eqb tool "n8n/list_workflows" then Direct listWorkflows
  else if String.eqb tool "n8n/get_workflow" then Direct getWorkflow
  else if String.eqb tool "n8n/create_workflow" then Direct createWorkflow
  else if String.eqb tool "n8n/activate_workflow" then Direct activateWorkflow
  else if String.eqb tool "n8n/delete_workflow" then Direct deleteWorkflow
  else if String.eqb tool "n8n/create_research_workflow" then Direct createResearchWorkflow
  else if String.eqb tool "n8n/create_social_post_workflow"
  then Direct createSocialPostWorkflow
  else if String.eqb tool "n8n/generate_node" then Direct generateNode
  else if String.eqb tool "n8n/run_workflow" then Direct runWorkflow
  else if String.eqb tool "n8n/get_execution_logs" then Direct getExecutionLogs
  else if String.eqb tool "n8n/fix_workflow_error" then Direct fixWorkflowError
  else if String.eqb tool "n8n/list_templates" then Direct listTemplates
  else if String.eqb tool "n8n/apply_template" then Direct applyTemplate
  else if String.eqb tool "n8n/generate_workflow" then Direct generateWorkflow
  else if String.eqb tool "n8n/analyze_error" then Direct analyzeWorkflowError
  else if String.eqb tool "n8n/build_expression" then Direct expressionBuilderTool
  else if String.eqb tool "n8n/convert_workflow" then Direct convertWorkflowTool
  else if String.eqb tool "n8n/deploy_workflow"
          || String.eqb tool "n8n/validate_workflow"
          || String.eqb tool "n8n/manage_credentials"
          || String.eqb tool "n8n/generate_environment_config"
  then Infrastructure
  else Unknown.

Section Tools.

(** The tools are parameters: [call handler tool input] is what the tool
    function answers, or throws, when the dispatcher calls it for the
    params [{tool, input}] (most tools are handed [input], two the whole
    params, two the adapted request), and [infrastructureHandler name tool
    input] is what the [handler] of the infrastructure tool called [name]
    answers for the adapted request. *)
Variable Input Answer : Type.
Variable call : Handler -> string -> Input -> Js.Result Answer.
Variable infrastructureHandler : string -> string -> Input -> Js.Result Answer.

(** What [execute] returns: the answer of a tool, or an error of its own. *)
Inductive Executed :=
| Returned (answer : Answer)
| Failed (message : Js.Message).

(** The body of the [try] block of [execute]. *)
Definition execute_try (tool : string) (input : Input) : Js.Result Executed :=
  match route tool with
  | Direct handler =>
      do answer <- call handler tool input ;
      Js.ret (Returned answer)
  | Infrastructure =>
      match List.find (fun name => String.eqb name (Js.replace "n8n/" "" tool))
                      commonInfrastructureTools with
      | Some name =>
          do answer <- infrastructureHandler name tool input ;
          Js.ret (Returned answer)
      | None =>
          Js.ret (Failed (Js.Text ("Infrastructure tool not found: " +:+ tool)))
      end
  | Unknown => Js.ret (Failed (Js.Text ("Unknown tool: " +:+ tool)))
  end.

(** [execute(params)]: the [catch] answers
    [error.message || 'An unknown error occurred']. *)
Definition execute (tool : string) (input : Input) : Executed :=
  match execute_try tool input with
  | inr executed => executed
  | inl (Js.Error m) =>
      Failed (Js.Text (if Js.truthy m then m else "An unknown error occurred"))
  | inl Js.TypeError => Failed (Js.EngineText "")
  end.

End Tools.

End Server.

(** ** workflow-generator/templates.ts *)

Module Templates.
Import Schemas NodeDefinitions.

(** The values the templates read from [params.parameters].  The source
    types it as [Record<string, any>]; the fields are given the types the
    templates use them at, and a field that is absent is [None]. *)
Record SourceConfig := {
  url : option string;
  sc_method : option string;
  sheetId : option string;
  range : option string
}.

Record TriggerConfig := { tc_schedule : option string }.

Record EmailConfig := {
  email_to : option string;
  email_subject : option string;
  email_body : option string;
  email_from : option string
}.

Record SlackConfig := { channel : option string }.

Record NotificationConfig := {
  email : option EmailConfig;
  slack : option SlackConfig
}.

Record Parameters := {
  apiUrl : option string;
  method : option string;
  platforms : option (list string);
  keywords : option (list string);
  schedule : option string;
  sourceType : option string;
  sourceConfig : option SourceConfig;
  transformations : option (list string);
  trigger : option string;
  triggerConfig : option TriggerConfig;
  notificationChannels : option (list string);
  notificationConfig : option NotificationConfig
}.

(** [{}] *)
Definition no_parameters : Parameters :=
  {| apiUrl := None; method := None; platforms := None; keywords := None;
     schedule := None; sourceType := None; sourceConfig := None;
     transformations := None; trigger := None; triggerConfig := None;
     notificationChannels := None; notificationConfig := None |}.

(** [WorkflowTemplateParams] *)
Record WorkflowTemplateParams := {
  tp_name : string;
  tp_description : option string;
  tp_parameters : option Parameters
}.

(** [WorkflowTemplate] *)
Record WorkflowTemplate := {
  t_id : string;
  t_name : string;
  t_description : string;
  t_category : list string;
  generateWorkflow : WorkflowTemplateParams -> Js.Result N8nWorkflow
}.

(** [createConnections(sourceNodeName, targetNodeName)] *)
Definition createConnections (sourceNodeName targetNodeName : option string)
  : N8nConnection :=
  {| node := targetNodeName; conn_type := "main"; index := 0 |}.

(** [value || fallback] on an optional string. *)
Definition or_default (value : option string) (fallback : string) : string :=
  match value with
  | Some s => if Js.truthy s then s else fallback
  | None => fallback
  end.

(** [createNode(nodeDefinitions[key], id, position, customParameters,
    customName)]: when the catalogue has no such key the factory reads
    [type] on [undefined], a [TypeError]. *)
Definition node_of_type (key id : string) (position : Position)
    (customParameters : option (gmap string JSON)) (customName : option string)
  : Js.Result N8nNode :=
  match Js.get nodeDefinitions key with
  | Some definition =>
      Js.ret (createNode definition id position customParameters customName)
  | None => Js.throw Js.TypeError
  end.

Definition template_settings : Settings :=
  {| executionOrder := None;
     saveExecutionProgress := true;
     saveManualExecutions := true |}.

(** The variables the loops of the templates update. *)
Record LoopState := {
  ls_nodes : list N8nNode;
  ls_main : gmap string SourceConnections;
  lastNodeName : option string;
  nodePosition : Position
}.

(** [nodes.push(node)], the connection from [lastNodeName] to it, and the
    move to the next position; [advance] tells whether [lastNodeName] and
    [nodePosition] are updated. *)
Definition append_node (advance : bool) (st : LoopState) (newNode : N8nNode)
  : Js.Result LoopState :=
  do main <- push_connection (ls_main st) (lastNodeName st)
               (createConnections (lastNodeName st) (name newNode)) ;
  Js.ret {| ls_nodes := (ls_nodes st ++ [newNode])%list;
            ls_main := main;
            lastNodeName := if advance then name newNode else lastNodeName st;
            nodePosition := if advance
                            then ((fst (nodePosition st) + 200)%Z, snd (nodePosition st))
                            else nodePosition st |}.

(** [list.forEach((item, index) => ...)] from [index] on, for a callback
    that may build a node to append. *)
Fixpoint forEach_append (advance : bool)
    (build : string -> nat -> LoopState -> option (Js.Result N8nNode))
    (index : nat) (items : list string) (st : LoopState) : Js.Result LoopState :=
  match items with
  | [] => Js.ret st
  | item :: rest =>
      do st' <- match build item index st with
                | Some made => do newNode <- made ; append_node advance st newNode
                | None => Js.ret st
                end ;
      forEach_append advance build (S index) rest st'
  end.

Definition processedData : JSON :=
  JObj [("string", JArr [JObj [("name", JStr "processedData");
                                ("value", JStr "={{ $json }}")]])].

(** [apiRequestTemplate.generateWorkflow] *)
Definition apiRequest_generateWorkflow (params : WorkflowTemplateParams)
  : Js.Result N8nWorkflow :=
  let parameters := default no_parameters (tp_parameters params) in
  let apiUrl := default "https://api.example.com/data" (apiUrl parameters) in
  let method := default "GET" (method parameters) in
  do startNode <- node_of_type "n8n-nodes-base.start" (createNodeId "start" 1)
                    (250, 300)%Z None None ;
  do httpNode <- node_of_type "n8n-nodes-base.httpRequest" (createNodeId "httpRequest" 1)
                   (450, 300)%Z
                   (Some (obj [("url", JStr apiUrl); ("method", JStr method)]))
                   (Some "API Request") ;
  do setNode <- node_of_type "n8n-nodes-base.set" (createNodeId "set" 1)
                  (650, 300)%Z
                  (Some (obj [("values", processedData)]))
                  (Some "Process Data") ;
  let connections :=
    <[Js.property_key (name httpNode) :=
        {| main := [createConnections (name httpNode) (name setNode)] |}]>
      (<[Js.property_key (name startNode) :=
           {| main := [createConnections (name startNode) (name httpNode)] |}]> ∅) in
  Js.ret {| wf_name := tp_name params;
            wf_description := or_default (tp_description params)
                                "Workflow to fetch and process API data";
            nodes := [startNode; httpNode; setNode];
            connections := {| conn_main := connections |};
            active := false;
            settings := template_settings |}.

Definition socialCode_before : string :=
"
// Deduplicate and format the social media data
const results = [];
const seenIds = new Set();

for (const item of items) {
  let id, content, source, url, date;
  
  if (item.json.id_str) {
    // Twitter data
    id = item.json.id_str;
    content = item.json.text || item.json.full_text;
    source = 'Twitter';
    url = `https://twitter.com/user/status/${id}`;
    date = item.json.created_at;
  } else if (item.json.id) {
    // Reddit data
    id = item.json.id;
    content = item.json.title || item.json.selftext;
    source = 'Reddit';
    url = item.json.url;
    date = new Date(item.json.created_utc * 1000).toISOString();
  }
  
  if (id && !seenIds.has(id)) {
    seenIds.add(id);
    results.push({
      id,
      content,
      source,
      url,
      date,
      keywords: ".

Definition socialCode_after : string :=
".filter(keyword => 
        content.toLowerCase().includes(keyword.toLowerCase())
      )
    });
  }
}

return results.map(r => ({ json: r }));
".

Definition filterCode : string :=
"
// Filter data example
return items.filter(item => {
  // Add your filtering logic here
  // Example: only keep items with a specific property
  return item.json.status === 'active';
});".

Definition mergeCode : string :=
"
// Merge or combine data example
// For a real merge, you'd need multiple inputs to the node
return items.map(item => {
  // Transform the data as needed
  return {
    json: {
      ...item.json,
      merged: true,
      timestamp: new Date().toISOString()
    }
  };
});".

Definition dquote : string := String "034"%char EmptyString.

Definition slackText : string :=
  "={{ $json.notificationTitle + " +:+ dquote +:+ "\n\n" +:+ dquote
  +:+ " + $json.notificationBody }}".

Section Engine.

(** The engine's [String.prototype.toLowerCase] and [JSON.stringify] (on
    an array of strings). *)
Variable toLowerCase : string -> string.
Variable JSON_stringify : list string -> string.

(** The callback of [platforms.forEach] in the social media template. *)
Definition platform_node (keywords : list string) (platform : string) (index : nat)
    (st : LoopState) : option (Js.Result N8nNode) :=
  if String.eqb (toLowerCase platform) "twitter" then
    Some (node_of_type "n8n-nodes-base.twitter" (createNodeId "twitter" (index + 1))
            (nodePosition st)
            (Some (obj [("operation", JStr "search");
                        ("searchText", JStr (Js.join " OR " keywords));
                        ("options", JObj [("limit", JNum 10);
                                          ("includeReplies", JBool false)])]))
            (Some "Twitter Search"))
  else if String.eqb (toLowerCase platform) "reddit" then
    Some (node_of_type "n8n-nodes-base.reddit" (createNodeId "reddit" (index + 1))
            (nodePosition st)
            (Some (obj [("operation", JStr "search");
                        ("subreddit", JStr "all");
                        ("options", JObj [("limit", JNum 10);
                                          ("query", JStr (Js.join " OR " keywords))])]))
            (Some "Reddit Search"))
  else None.

(** [socialMediaTemplate.generateWorkflow] *)
Definition socialMedia_generateWorkflow (params : WorkflowTemplateParams)
  : Js.Result N8nWorkflow :=
  let parameters := default no_parameters (tp_parameters params) in
  let platforms := default ["twitter"] (platforms parameters) in
  let keywords := default ["n8n"; "workflow automation"] (keywords parameters) in
  let schedule := default "0 */2 * * *" (schedule parameters) in
  do scheduleNode <-
    node_of_type "n8n-nodes-base.scheduleTrigger" (createNodeId "scheduleTrigger" 1)
      (250, 300)%Z
      (Some (obj [("interval",
                   JArr [JObj [("field", JStr "cronExpression");
                               ("expression", JStr schedule)]])]))
      None ;
  let st0 := {| ls_nodes := [scheduleNode];
                ls_main := ∅;
                lastNodeName := name scheduleNode;
                nodePosition := (450, 300)%Z |} in
  do st1 <- forEach_append true (platform_node keywords) 0 platforms st0 ;
  do functionNode <-
    node_of_type "n8n-nodes-base.function" (createNodeId "function" 1)
      (nodePosition st1)
      (Some (obj [("functionCode",
                   JStr (socialCode_before +:+ JSON_stringify keywords
                         +:+ socialCode_after))]))
      (Some "Process Social Data") ;
  do st2 <- append_node false st1 functionNode ;
  Js.ret {| wf_name := tp_name params;
            wf_description := or_default (tp_description params)
                                "Workflow to monitor social media for keywords";
            nodes := ls_nodes st2;
            connections := {| conn_main := ls_main st2 |};
            active := false;
            settings := template_settings |}.

(** The [sourceNode] of the data processing template. *)
Definition source_node (sourceType : string) (sourceConfig : SourceConfig)
    (position : Position) : option (Js.Result N8nNode) :=
  if String.eqb sourceType "http" then
    Some (node_of_type "n8n-nodes-base.httpRequest" (createNodeId "httpRequest" 1)
            position
            (Some (obj [("url", JStr (or_default (url sourceConfig)
                                        "https://api.example.com/data"));
                        ("method", JStr (or_default (sc_method sourceConfig) "GET"))]))
            (Some "Data Source"))
  else if String.eqb sourceType "googleSheets" then
    Some (node_of_type "n8n-nodes-base.googleSheets" (createNodeId "googleSheets" 1)
            position
            (Some (obj [("operation", JStr "read");
                        ("sheetId", JStr (or_default (sheetId sourceConfig) ""));
                        ("range", JStr (or_default (range sourceConfig) "A:Z"))]))
            (Some "Google Sheets Source"))
  else None.

(** The callback of [transformations.forEach]. *)
Definition transform_node (transformation : string) (index : nat) (st : LoopState)
  : option (Js.Result N8nNode) :=
  if String.eqb transformation "filter" then
    Some (node_of_type "n8n-nodes-base.function" (createNodeId "function" (index + 1))
            (nodePosition st)
            (Some (obj [("functionCode", JStr filterCode)]))
            (Some "Filter Data"))
  else if String.eqb transformation "format" then
    Some (node_of_type "n8n-nodes-base.set" (createNodeId "set" (index + 1))
            (nodePosition st)
            (Some (obj [("values",
                         JObj [("string",
                                JArr [JObj [("name", JStr "formattedData");
                                            ("value", JStr "={{ $json }}")]])])]))
            (Some "Format Data"))
  else if String.eqb transformation "merge" then
    Some (node_of_type "n8n-nodes-base.function" (createNodeId "function" (index + 1))
            (nodePosition st)
            (Some (obj [("functionCode", JStr mergeCode)]))
            (Some "Transform Data"))
  else None.

(** [dataProcessingTemplate.generateWorkflow] *)
Definition dataProcessing_generateWorkflow (params : WorkflowTemplateParams)
  : Js.Result N8nWorkflow :=
  let parameters := default no_parameters (tp_parameters params) in
  let sourceType := default "http" (sourceType parameters) in
  let sourceConfig :=
    default {| url := Some "https://api.example.com/data"; sc_method := None;
               sheetId := None; range := None |}
            (sourceConfig parameters) in
  let transformations := default ["filter"; "format"] (transformations parameters) in
  do startNode <- node_of_type "n8n-nodes-base.start" (createNodeId "start" 1)
                    (250, 300)%Z None None ;
  let st0 := {| ls_nodes := [startNode];
                ls_main := ∅;
                lastNodeName := name startNode;
                nodePosition := (450, 300)%Z |} in
  do st1 <- match source_node sourceType sourceConfig (nodePosition st0) with
            | Some made => do sourceNode <- made ; append_node true st0 sourceNode
            | None => Js.ret st0
            end ;
  do st2 <- forEach_append true transform_node 0 transformations st1 ;
  Js.ret {| wf_name := tp_name params;
            wf_description :=
              or_default (tp_description params)
                "Data processing workflow with multiple transformations";
            nodes := ls_nodes st2;
            connections := {| conn_main := ls_main st2 |};
            active := false;
            settings := template_settings |}.

(** The [triggerNode] of the notification template. *)
Definition trigger_node (trigger : string) (triggerConfig : TriggerConfig)
  : option (Js.Result N8nNode) :=
  if String.eqb trigger "schedule" then
    Some (node_of_type "n8n-nodes-base.scheduleTrigger"
            (createNodeId "scheduleTrigger" 1) (250, 300)%Z
            (Some (obj [("interval",
                         JArr [JObj [("field", JStr "cronExpression");
                                     ("expression",
                                      JStr (or_default (tc_schedule triggerConfig)
                                              "0 9 * * *"))]])]))
            (Some "Schedule Trigger"))
  else if String.eqb trigger "manual" then
    Some (node_of_type "n8n-nodes-base.manualTrigger" (createNodeId "manualTrigger" 1)
            (250, 300)%Z (Some ∅) (Some "Manual Trigger"))
  else None.

(** [notificationConfig.email?.field] and [notificationConfig.slack?.channel] *)
Definition email_field (notificationConfig : NotificationConfig)
    (field : EmailConfig -> option string) : option string :=
  match email notificationConfig with
  | Some config => field config
  | None => None
  end.

Definition slack_channel (notificationConfig : NotificationConfig) : option string :=
  match slack notificationConfig with
  | Some config => channel config
  | None => None
  end.

(** The callback of [notificationChannels.forEach]. *)
Definition channel_node (notificationConfig : NotificationConfig)
    (channel : string) (index : nat) (st : LoopState) : option (Js.Result N8nNode) :=
  let position := (fst (nodePosition st),
                   (snd (nodePosition st) + Z.of_nat index * 150)%Z) in
  if String.eqb channel "email" then
    Some (node_of_type "n8n-nodes-base.email" (createNodeId "email" (index + 1))
            position
            (Some (obj [("fromEmail",
                         JStr (or_default (email_field notificationConfig email_from)
                                 "notifications@example.com"));
                        ("toEmail",
                         JStr (or_default (email_field notificationConfig email_to)
                                 "user@example.com"));
                        ("subject", JStr "={{ $json.notificationTitle }}");
                        ("text", JStr "={{ $json.notificationBody }}")]))
            (Some "Send Email"))
  else if String.eqb channel "slack" then
    Some (node_of_type "n8n-nodes-base.slack" (createNodeId "slack" (index + 1))
            position
            (Some (obj [("operation", JStr "sendMessage");
                        ("channel",
                         JStr (or_default (slack_channel notificationConfig) "general"));
                        ("text", JStr slackText)]))
            (Some "Send Slack Message"))
  else None.

(** [notificationTemplate.generateWorkflow]; without a trigger node the
    read of [triggerNode.name] raises a [TypeError]. *)
Definition notification_generateWorkflow (params : WorkflowTemplateParams)
  : Js.Result N8nWorkflow :=
  let parameters := default no_parameters (tp_parameters params) in
  let trigger := default "schedule" (trigger parameters) in
  let triggerConfig :=
    default {| tc_schedule := Some "0 9 * * *" |} (triggerConfig parameters) in
  let notificationChannels := default ["email"] (notificationChannels parameters) in
  let notificationConfig :=
    default {| email := Some {| email_to := Some "user@example.com";
                                email_subject := Some "Notification";
                                email_body := None;
                                email_from := None |};
               slack := None |}
            (notificationConfig parameters) in
  match trigger_node trigger triggerConfig with
  | None => Js.throw Js.TypeError
  | Some made =>
      do triggerNode <- made ;
      do setNode <-
        node_of_type "n8n-nodes-base.set" (createNodeId "set" 1) (450, 300)%Z
          (Some (obj [("values",
                       JObj [("string",
                              JArr [JObj [("name", JStr "notificationTitle");
                                          ("value",
                                           JStr (or_default
                                                   (email_field notificationConfig
                                                      email_subject)
                                                   "Notification"))];
                                    JObj [("name", JStr "notificationBody");
                                          ("value",
                                           JStr (or_default
                                                   (email_field notificationConfig
                                                      email_body)
                                                   "This is an automated notification from n8n."))];
                                    JObj [("name", JStr "timestamp");
                                          ("value", JStr "={{ $now }}")]])])]))
          (Some "Prepare Notification") ;
      let st0 := {| ls_nodes := [triggerNode];
                    ls_main := ∅;
                    lastNodeName := name triggerNode;
                    nodePosition := (450, 300)%Z |} in
      do st1 <- append_node true st0 setNode ;
      do st2 <- forEach_append false (channel_node notificationConfig) 0
                  notificationChannels st1 ;
      Js.ret {| wf_name := tp_name params;
                wf_description := or_default (tp_description params)
                                    "Workflow to send notifications";
                nodes := ls_nodes st2;
                connections := {| conn_main := ls_main st2 |};
                active := false;
                settings := template_settings |}
  end.

(** [workflowTemplates] *)
Definition workflowTemplates : gmap string WorkflowTemplate :=
  list_to_map
    [ ("api-request",
       {| t_id := "api-request";
          t_name := "API Request Workflow";
          t_description := "Fetch data from an API and process the results";
          t_category := ["api"; "data"];
          generateWorkflow := apiRequest_generateWorkflow |});
      ("social-media-monitoring",
       {| t_id := "social-media-monitoring";
          t_name := "Social Media Monitoring";
          t_description := "Monitor social media platforms for keywords or topics";
          t_category := ["social-media"; "monitoring"];
          generateWorkflow := socialMedia_generateWorkflow |});
      ("data-processing",
       {| t_id := "data-processing";
          t_name := "Data Processing Pipeline";
          t_description := "Multi-step data processing workflow with transformations";
          t_category := ["data"; "processing"];
          generateWorkflow := dataProcessing_generateWorkflow |});
      ("notification",
       {| t_id := "notification";
          t_name := "Notification Workflow";
          t_description := "Send notifications when specific events occur";
          t_category := ["notification"; "alerts"];
          generateWorkflow := notification_generateWorkflow |}) ].

(** *** The use of the templates in [createNodeStructure] *)

(** - [keywordsOf lowered]: the list
      [lowered.match(/keywords?:?\s+([^.]+)/i)?.[1].split(',').map(k => k.trim())],
      [None] when the expression does not match.
    - [apiUrlMatch description]: capture group 1 of
      [description.match(/api:?\s+([^\s,]+)/i)], if it matches. *)
Variable keywordsOf : string -> option (list string).
Variable apiUrlMatch : string -> option string.

(** The [templateParams] built for the template [templateId]. *)
Definition templateParams (templateId : string)
    (requirements : Generator.WorkflowRequirements) : WorkflowTemplateParams :=
  let description := Generator.req_description requirements in
  let parameters :=
    if String.eqb templateId "social-media-monitoring" then
      {| apiUrl := None; method := None;
         platforms :=
           Some (List.filter (fun p => Js.includes p (toLowerCase description))
                             ["twitter"; "reddit"]);
         keywords :=
           Some (default ["automation"; "workflow"]
                         (keywordsOf (toLowerCase description)));
         schedule := None; sourceType := None; sourceConfig := None;
         transformations := None; trigger := None; triggerConfig := None;
         notificationChannels := None; notificationConfig := None |}
    else if String.eqb templateId "api-request" then
      {| apiUrl := Some (or_default (apiUrlMatch description)
                           "https://api.example.com/data");
         method := Some (if Js.includes "post" (toLowerCase description)
                         then "POST" else "GET");
         platforms := None; keywords := None;
         schedule := None; sourceType := None; sourceConfig := None;
         transformations := None; trigger := None; triggerConfig := None;
         notificationChannels := None; notificationConfig := None |}
    else if String.eqb templateId "notification" then
      {| apiUrl := None; method := None; platforms := None; keywords := None;
         schedule := None; sourceType := None; sourceConfig := None;
         transformations := None;
         trigger := Some (if Generator.mem "schedule" (Generator.operations requirements)
                          then "schedule" else "manual");
         triggerConfig :=
           if Js.truthy_opt (Generator.scheduling requirements)
           then Some {| tc_schedule :=
                          Some (Generator.cronExpression_for
                                  (default "" (Generator.scheduling requirements))) |}
           else None;
         notificationChannels :=
           Some ((if Js.includes "email" (toLowerCase description) then ["email"] else [])
                 ++ (if Js.includes "slack" (toLowerCase description) then ["slack"]
                     else []))%list;
         notificationConfig := None |}
    else no_parameters in
  {| tp_name := Generator.req_name requirements;
     tp_description := Some description;
     tp_parameters := Some parameters |}.

(** The template branch of [createNodeStructure]: [None] when
    [workflowTemplates[templateId]] is falsy, otherwise the nodes of the
    workflow the template generates, or what that throws.  An inherited
    member is truthy and has no [generateWorkflow] to call. *)
Definition templateNodes (templateId : string)
    (requirements : Generator.WorkflowRequirements)
  : option (Js.Result (list N8nNode)) :=
  match Js.get workflowTemplates templateId with
  | None => None
  | Some (Js.Inherited _) => Some (Js.throw Js.TypeError)
  | Some (Js.Own template) =>
      Some (do workflow <- generateWorkflow template
                             (templateParams templateId requirements) ;
            Js.ret (nodes workflow))
  end.

End Engine.

End Templates.

(** ** workflow-generator/index.ts: the requirements parser *)

Module Parser.
Import Generator.

(** [operationKeywords] and [dataTypeKeywords] *)
Definition operationKeywords : list (list string * string) :=
  [ (["fetch"; "get"; "retrieve"; "download"; "api"], "fetch");
    (["send"; "email"; "message"; "notification"], "notify");
    (["filter"; "process"; "transform"; "clean"], "process");
    (["schedule"; "recurring"; "every day"; "weekly"; "monthly"], "schedule");
    (["if"; "condition"; "when"; "case"], "condition");
    (["store"; "save"; "database"; "google sheets"], "store") ].

Definition dataTypeKeywords : list (list string * string) :=
  [ (["json"; "api response"], "json");
    (["csv"; "excel"; "spreadsheet"], "tabular");
    (["text"; "string"], "text");
    (["image"; "photo"; "picture"], "image");
    (["email"], "email") ].

Section Engine.

(** - [toLowerCase]: the engine's [String.prototype.toLowerCase].
    - [nameOf description]: when
      [description.match(/workflow (?:to|that|which) ([\w\s]+)/i)] matches,
      the name made of its capture group 1,
      [nameMatch[1].trim().charAt(0).toUpperCase() + nameMatch[1].trim().slice(1)];
      [None] when it does not match. *)
Variable toLowerCase : string -> string.
Variable nameOf : string -> option string.

(** [keywords.some(keyword => description.toLowerCase().includes(keyword))] *)
Definition some_keyword (description : string) (keywords : list string) : bool :=
  existsb (fun keyword => Js.includes keyword (toLowerCase description)) keywords.

(** The fields the first [forEach] updates. *)
Record Found := {
  found_operations : list string;
  found_scheduling : option string;
  found_conditionalLogic : bool
}.

(** The callback of [operationKeywords.forEach]. *)
Definition operation_step (description : string) (found : Found)
    (opKeyword : list string * string) : Found :=
  let '(keywords, operation) := opKeyword in
  if some_keyword description keywords then
    {| found_operations :=
         if mem operation (found_operations found) then found_operations found
         else (found_operations found ++ [operation])%list;
       found_scheduling :=
         if String.eqb operation "schedule" then
           Some (if Js.includes "every hour" (toLowerCase description) then "hourly"
                 else if Js.includes "every day" (toLowerCase description) then "daily"
                 else if Js.includes "weekly" (toLowerCase description) then "weekly"
                 else if Js.includes "monthly" (toLowerCase description) then "monthly"
                 else "daily")
         else found_scheduling found;
       found_conditionalLogic :=
         if String.eqb operation "condition" then true
         else found_conditionalLogic found |}
  else found.

(** The callback of [dataTypeKeywords.forEach]. *)
Definition dataType_step (description : string) (dataTypes : list string)
    (dtKeyword : list string * string) : list string :=
  let '(keywords, dataType) := dtKeyword in
  if some_keyword description keywords then
    if mem dataType dataTypes then dataTypes else (dataTypes ++ [dataType])%list
  else dataTypes.

(** [parseWorkflowRequirements(description)] *)
Definition parseWorkflowRequirements (description : string) : WorkflowRequirements :=
  let name := default "Generated Workflow" (nameOf description) in
  let found :=
    fold_left (operation_step description) operationKeywords
              {| found_operations := [];
                 found_scheduling := None;
                 found_conditionalLogic := false |} in
  let operations := found_operations found in
  let dataTypes := fold_left (dataType_step description) dataTypeKeywords [] in
  let lowered := toLowerCase description in
  let templateId :=
    if Js.includes "api" lowered && mem "fetch" operations then Some "api-request"
    else if Js.includes "social media" lowered
            || Js.includes "twitter" lowered
            || Js.includes "reddit" lowered
    then Some "social-media-monitoring"
    else if mem "notify" operations then Some "notification"
    else if mem "process" operations
            || (mem "fetch" operations && mem "store" operations)
    then Some "data-processing"
    else None in
  let complexity :=
    if (4 <=? length operations)%nat
       || (found_conditionalLogic found && (3 <=? length operations)%nat)
    then complex
    else if (2 <=? length operations)%nat || found_conditionalLogic found
    then medium
    else simple in
  {| req_name := name;
     req_description := description;
     operations := operations;
     dataTypes := dataTypes;
     conditionalLogic := found_conditionalLogic found;
     scheduling := found_scheduling found;
     templateId := templateId;
     complexity := complexity |}.

End Engine.

End Parser.

(** ** workflow-management/listWorkflows.ts *)

Module ListWorkflows.

(** An element of [workflow.tags]: a string, or an object with a [name]. *)
Inductive Tag :=
| TagText (text : string)
| TagObject (name : string).

(** A workflow as the API lists it: the fields the tool reads. *)
Record ApiWorkflow := {
  id : string;
  name : string;
  active : bool;
  createdAt : string;
  updatedAt : string;
  tags : option (list Tag);
  nodes : option (list Schemas.JSON)
}.

(** An element of the [workflows] array of the answer. *)
Record Summary := {
  s_id : string;
  s_name : string;
  s_active : bool;
  s_createdAt : string;
  s_updatedAt : string;
  nodeCount : nat
}.

Inductive ExecuteResult :=
| Data (workflows : list Summary) (count totalCount : nat)
| Failed (message : Js.Message).

(** The callback of [filteredWorkflows.map]. *)
Definition summary (workflow : ApiWorkflow) : Summary :=
  {| s_id := id workflow;
     s_name := name workflow;
     s_active := active workflow;
     s_createdAt := createdAt workflow;
     s_updatedAt := updatedAt workflow;
     nodeCount := length (default [] (nodes workflow)) |}.

Section Api.

(** The engine's [String.prototype.toLowerCase], and the API client:
    [n8nApi.getWorkflows()]. *)
Variable toLowerCase : string -> string.
Variable getWorkflows : Js.Result (list ApiWorkflow).

(** The predicate the non-empty [filter] selects the workflows with. *)
Definition selects (filter : string) (workflow : ApiWorkflow) : bool :=
  if String.eqb (toLowerCase filter) "active" then active workflow
  else if String.eqb (toLowerCase filter) "inactive" then negb (active workflow)
  else if String.prefix "tag:" filter then
    let tag := toLowerCase (Js.drop_chars 4 filter) in
    existsb (fun t => match t with
                      | TagText text => Js.includes tag (toLowerCase text)
                      | TagObject name => Js.includes tag (toLowerCase name)
                      end)
            (default [] (tags workflow))
  else Js.includes (toLowerCase filter) (toLowerCase (name workflow)).

(** [listWorkflows(input)], for an input whose [filter] is a string or
    absent. *)
Definition listWorkflows (filter : option string) : ExecuteResult :=
  match getWorkflows with
  | inl error => Failed (Js.message_of "Failed to list workflows: " error)
  | inr workflows =>
      let filteredWorkflows :=
        match filter with
        | Some f => if Js.truthy f then List.filter (selects f) workflows else workflows
        | None => workflows
        end in
      let result := map summary filteredWorkflows in
      Data result (length result) (length workflows)
  end.

End Api.

End ListWorkflows.

(** ** Notions used to state the properties *)

Module Notions.
Import Schemas NodeDefinitions Generator.

(** The key under which a node's outgoing connections are stored. *)
Definition key_of (n : N8nNode) : string := Js.property_key (name n).

(** The outgoing connections recorded for a source key. *)
Definition targets (c : gmap string SourceConnections) (k : string)
  : list N8nConnection :=
  match c !! k with
  | Some entry => main entry
  | None => []
  end.

(** The number of target entries of a connections map. *)
Definition total_targets (c : gmap string SourceConnections) : nat :=
  sum_list_with (fun kv => length (main (snd kv))) (map_to_list c).

Definition is_branch (n : N8nNode) : bool :=
  Js.strict_eq (type n) (Some "n8n-nodes-base.if").


(** The display name is not a member inherited from [Object.prototype]. *)
Definition own_key (n : N8nNode) : Prop := Js.inherited (key_of n) = false.

(** A node of a catalogue entry, with that entry's default name and
    parameters. *)
Definition node_of (d : NodeDefinition) (id : string) (x : Z) : N8nNode :=
  createNode (Js.Own d) id (x, 300%Z) None None.

(** A definition whose defaults are those of the merge scenario. *)
Definition scenario_def : NodeDefinition :=
  {| def_type := "n8n-nodes-base.httpRequest";
     def_typeVersion := 1;
     description := "";
     defaultName := "HTTP Request";
     defaultParameters := obj [("url", JStr ""); ("method", JStr "GET")];
     category := action;
     inputs := ["main"];
     outputs := ["main"];
     requiredParameters := None;
     parameterDescriptions := None |}.

(** What the lookup [nodeDefinitions[nodeType]] contributes to the node
    list: nothing when it is falsy, otherwise one node whose [type] is read
    from what was found. *)
Definition built_type (nodeType : string) : option (option string) :=
  match Js.get nodeDefinitions nodeType with
  | Some definition => Some (read_type definition)
  | None => None
  end.

(** A run of the generator used as an example: the requirements a parser
    could extract, and an input. *)
Definition example_requirements (description : string) : WorkflowRequirements :=
  {| req_name := "Generated Workflow";
     req_description := description;
     operations := ["fetch"];
     dataTypes := [];
     conditionalLogic := false;
     scheduling := None;
     templateId := None;
     complexity := simple |}.

Definition example_input : WorkflowGenerationInput :=
  {| in_description := Some "get the data";
     requiredNodes := Some ["n8n-nodes-base.set"];
     in_complexity := None;
     includeCredentials := false |}.

(** A workflow with a name, a start node, and one connection, from
    [Start] to a node [Ghost] that does not exist; and an answer of the API
    with the same graph, error handling switched on. *)
Definition ghost_connections : N8nConnections :=
  {| conn_main :=
       {[ "Start" := {| main := [{| node := Some "Ghost";
                                    conn_type := "main";
                                    index := 0 |}] |} ]} |}.

Definition ghost_workflow : N8nWorkflow :=
  {| wf_name := "Demo";
     wf_description := "";
     nodes := [node_of start_def "start_1" 100];
     connections := ghost_connections;
     active := false;
     settings := {| executionOrder := Some "v1";
                    saveExecutionProgress := true;
                    saveManualExecutions := true |} |}.

Definition ghost_api_workflow : Infrastructure.ApiWorkflow :=
  {| Infrastructure.wf_name := Some "Demo";
     Infrastructure.nodes :=
       [{| Infrastructure.name := "Start";
           Infrastructure.type := "n8n-nodes-base.start";
           Infrastructure.continueOnFail := Some true;
           Infrastructure.credentials := None |}];
     Infrastructure.connections := ghost_connections;
     Infrastructure.errorWorkflow := None |}.

(** A workflow with a name and no node, and the same as an answer of the
    API. *)
Definition empty_workflow : N8nWorkflow :=
  {| wf_name := "Empty";
     wf_description := "";
     nodes := [];
     connections := {| conn_main := ∅ |};
     active := false;
     settings := {| executionOrder := Some "v1";
                    saveExecutionProgress := true;
                    saveManualExecutions := true |} |}.

Definition empty_api_workflow : Infrastructure.ApiWorkflow :=
  {| Infrastructure.wf_name := Some "Empty";
     Infrastructure.nodes := [];
     Infrastructure.connections := {| conn_main := ∅ |};
     Infrastructure.errorWorkflow := None |}.

(** A posting request for two platforms, and an API client that stores
    whatever it is handed. *)
Definition two_platforms : SocialPost.CreateSocialPostWorkflowInput :=
  {| SocialPost.name := Some "Launch";
     SocialPost.platforms := Some ["twitter"; "linkedin"];
     SocialPost.content_source := None |}.

Definition store (workflowData : WorkflowData) : Js.Result WorkflowData :=
  Js.ret workflowData.

(** Requests for a template that does not exist, with a workflow name and
    with an empty one. *)
Definition unknown_template_named : ApplyTemplate.ApplyTemplateInput :=
  {| ApplyTemplate.template_id := Some "unknown-template-id";
     ApplyTemplate.name := Some "X";
     ApplyTemplate.parameters := Some ∅ |}.

Definition unknown_template_unnamed : ApplyTemplate.ApplyTemplateInput :=
  {| ApplyTemplate.template_id := Some "unknown-template-id";
     ApplyTemplate.name := Some "";
     ApplyTemplate.parameters := Some ∅ |}.

(** The text of the not-found error of [applyTemplate]. *)
Definition not_found_text (template_id : string) : string :=
  "Template with ID " +:+ ApplyTemplate.dquote +:+ template_id
  +:+ ApplyTemplate.dquote +:+ " not found".

(** The connection the posting tool records towards a platform's node,
    for a capitalisation [capitalize]. *)
Definition to_platform (capitalize : string -> string) (platform : string)
  : N8nConnection :=
  {| node := Some (SocialPost.platformNode_name capitalize platform);
     conn_type := "main";
     index := 0 |}.

(** A capitalisation for the examples: a first letter a-z becomes A-Z and
    every other string is returned as it is, which is what the engine does
    to a platform name that starts with an ASCII character. *)
Definition capitalize_ascii (s : string) : string :=
  match s with
  | EmptyString => EmptyString
  | String c rest =>
      let n := nat_of_ascii c in
      String (if (97 <=? n)%nat && (n <=? 122)%nat then ascii_of_nat (n - 32) else c)
             rest
  end.

(** The issues of a rule as they appear in the answer. *)
Definition tagged (ruleName : string) (result : Infrastructure.RuleResult)
  : list string :=
  map (fun issue => "[" +:+ ruleName +:+ "] " +:+ issue) (Infrastructure.issues result).

(** A rule result that passes exactly when it reports no issue. *)
Definition consistent (result : Infrastructure.RuleResult) : Prop :=
  Infrastructure.pass result = true <-> Infrastructure.issues result = [].

(** A connection of the workflow whose target is the display name of no
    node. *)
Definition dangling (workflow : N8nWorkflow) (connection : N8nConnection) : Prop :=
  (exists source entry,
      conn_main (connections workflow) !! source = Some entry
      /\ connection ∈ main entry)
  /\ find_node (nodes workflow) (node connection) = false.

(** The error [validateWorkflow] throws for such a connection. *)
Definition missing_target_error (connection : N8nConnection) : Js.Exn :=
  Js.Error ("Connection points to non-existent node: "
            +:+ Js.property_key (node connection)).

End Notions.

(** ** Examples used to instantiate the properties *)

Module Examples.
Import Schemas NodeDefinitions Generator.

(** Requirements as the parser gives them for a description from which it
    extracts an empty name and no operation. *)
Definition nameless_requirements (description : string) : WorkflowRequirements :=
  {| req_name := "";
     req_description := description;
     operations := [];
     dataTypes := [];
     conditionalLogic := false;
     scheduling := None;
     templateId := None;
     complexity := simple |}.

Definition nameless_input : WorkflowGenerationInput :=
  {| in_description := Some "workflow to  ";
     requiredNodes := None;
     in_complexity := None;
     includeCredentials := false |}.

(** An API client that answers every retrieval with a workflow without
    nodes, which fails the trigger rule, and one whose second answer is a
    failure. *)
Definition api_always (call : nat) (workflowId : string)
  : Js.Result Infrastructure.ApiWorkflow :=
  Js.ret Notions.empty_api_workflow.

Definition api_once (call : nat) (workflowId : string)
  : Js.Result Infrastructure.ApiWorkflow :=
  match call with
  | O => Js.ret Notions.empty_api_workflow
  | S _ => Js.throw (Js.Error "timeout")
  end.

Definition deploy_request : Deploy.DeployWorkflowInput :=
  {| Deploy.workflowId := Some "42";
     Deploy.environments := Some ["staging"; "production"];
     Deploy.activate := None;
     Deploy.force := None |}.

Definition forced_request : Deploy.DeployWorkflowInput :=
  {| Deploy.workflowId := Some "42";
     Deploy.environments := Some ["staging"; "moon"];
     Deploy.activate := Some true;
     Deploy.force := Some true |}.

(** Tools that answer with the name of the function called. *)
Definition echo_call (handler : Server.Handler) (tool : string) (input : unit)
  : Js.Result string :=
  Js.ret tool.

Definition echo_infrastructure (name tool : string) (input : unit)
  : Js.Result string :=
  Js.ret name.


Definition branch_name_shared : list N8nNode :=
  [ Notions.node_of if_def "if_1" 100;
    Notions.node_of set_def "set_2" 300;
    Notions.node_of slack_def "slack_3" 500;
    createNode (Js.Own httpRequest_def) "httpRequest_4" (700, 300)%Z None (Some "IF");
    Notions.node_of email_def "email_5" 900 ].


Definition twice_twitter : SocialPost.CreateSocialPostWorkflowInput :=
  {| SocialPost.name := Some "Launch";
     SocialPost.platforms := Some ["twitter"; "Twitter"];
     SocialPost.content_source := None |}.

(** A validation request that names one rule twice and one name that is
    no rule. *)
Definition selected_rules : Infrastructure.ValidateWorkflowInput :=
  {| Infrastructure.workflowId := Some "42";
     Infrastructure.validationRules :=
       Some ["naming"; "speed"; "trigger"; "naming"] |}.

(** Requirements that select a template, and a template generator that
    answers with a start node alone. *)
Definition template_requirements (description : string) : WorkflowRequirements :=
  {| req_name := "Generated Workflow";
     req_description := description;
     operations := ["fetch"];
     dataTypes := [];
     conditionalLogic := false;
     scheduling := None;
     templateId := Some "api-request";
     complexity := simple |}.

Definition start_only (templateId : string) (requirements : WorkflowRequirements)
  : option (Js.Result (list N8nNode)) :=
  Some (Js.ret [Notions.node_of start_def "start_1" 250]).

End Examples.

(** ** Notions used to state the properties of the templates *)

Module Shapes.
Import Schemas Generator Notions.

(** Every connection is stored under the key of a node of the list and
    targets the display name of a node of the list. *)
Definition well_wired (nodes : list N8nNode) (c : gmap string SourceConnections)
  : Prop :=
  forall k x, x ∈ targets c k ->
              k ∈ map key_of nodes /\ node x ∈ map name nodes.

(** The first node is a trigger node, as [validateWorkflow] understands
    it. *)
Definition starts_with_trigger (nodes : list N8nNode) : Prop :=
  exists first rest t,
    nodes = first :: rest
    /\ type first = Some t
    /\ (Js.includes "Trigger" t = true \/ t = "n8n-nodes-base.start").

(** What the loops of the templates maintain. *)
Definition wired_state (st : Templates.LoopState) : Prop :=
  Forall own_key (Templates.ls_nodes st)
  /\ Templates.lastNodeName st ∈ map name (Templates.ls_nodes st)
  /\ well_wired (Templates.ls_nodes st) (Templates.ls_main st)
  /\ S (total_targets (Templates.ls_main st)) = length (Templates.ls_nodes st).

(** What every workflow a template generates satisfies: it carries the
    name asked for, is inactive, begins with a trigger node, gives its
    nodes display names that are own keys, only connects nodes it holds,
    and holds one connection less than it has nodes. *)
Definition templated (name : string) (workflow : N8nWorkflow) : Prop :=
  wf_name workflow = name
  /\ active workflow = false
  /\ Forall own_key (nodes workflow)
  /\ starts_with_trigger (nodes workflow)
  /\ well_wired (nodes workflow) (conn_main (connections workflow))
  /\ S (total_targets (conn_main (connections workflow))) = length (nodes workflow).

(** The trigger the notification template is asked for. *)
Definition trigger_of (params : Templates.WorkflowTemplateParams) : string :=
  default "schedule"
    (Templates.trigger
       (default Templates.no_parameters (Templates.tp_parameters params))).

(** The workflow [generateWorkflow] validates, for given nodes and
    connections. *)
Definition workflow_of (requirements : WorkflowRequirements)
    (nodes : list N8nNode) (connections : N8nConnections) : N8nWorkflow :=
  {| wf_name := req_name requirements;
     wf_description := req_description requirements;
     nodes := nodes;
     connections := connections;
     active := false;
     settings := {| executionOrder := Some "v1";
                    saveExecutionProgress := true;
                    saveManualExecutions := true |} |}.

End Shapes.

(** ** Examples used to instantiate the properties of the templates *)

Module TemplateExamples.
Import Schemas Generator.

(** An engine whose [JSON.stringify] is left out of the picture, a
    description without keyword list and without name. *)
Definition stringify (values : list string) : string :=
  "[" +:+ Js.join "," values +:+ "]".

Definition no_match (text : string) : option string := None.

Definition no_keywords (text : string) : option (list string) := None.

(** The connection to the node of a given display name. *)
Definition to_node (target : string) : N8nConnection :=
  {| node := Some target; conn_type := "main"; index := 0 |}.

(** A request for a notification workflow. *)
Definition notify_input : WorkflowGenerationInput :=
  {| in_description := Some "send an email and a slack message";
     requiredNodes := None;
     in_complexity := None;
     includeCredentials := false |}.

(** The data processing template as [workflowTemplates] holds it, and
    parameters that carry a name only. *)
Definition data_processing : Templates.WorkflowTemplate :=
  {| Templates.t_id := "data-processing";
     Templates.t_name := "Data Processing Pipeline";
     Templates.t_description :=
       "Multi-step data processing workflow with transformations";
     Templates.t_category := ["data"; "processing"];
     Templates.generateWorkflow := Templates.dataProcessing_generateWorkflow |}.

Definition bare_params : Templates.WorkflowTemplateParams :=
  {| Templates.tp_name := "Pipeline";
     Templates.tp_description := None;
     Templates.tp_parameters := None |}.

(** Two workflows as the API lists them, one of them active. *)
Definition two_workflows : list ListWorkflows.ApiWorkflow :=
  [ {| ListWorkflows.id := "1";
       ListWorkflows.name := "Daily report";
       ListWorkflows.active := true;
       ListWorkflows.createdAt := "2024-01-01";
       ListWorkflows.updatedAt := "2024-01-02";
       ListWorkflows.tags := Some [ListWorkflows.TagText "reports"];
       ListWorkflows.nodes := Some [] |};
    {| ListWorkflows.id := "2";
       ListWorkflows.name := "Draft";
       ListWorkflows.active := false;
       ListWorkflows.createdAt := "2024-01-03";
       ListWorkflows.updatedAt := "2024-01-03";
       ListWorkflows.tags := None;
       ListWorkflows.nodes := None |} ].

End TemplateExamples.

(** * Properties *)

(** Case analysis on a membership [H : x ∈ [a; b; ...]] in an explicit list:
    [tac] closes the case of each element. *)
Ltac each_member H tac :=
  repeat (apply elem_of_cons in H as [H|H]; [tac|]);
  inversion H.

Section NodeFactory.
Import Schemas NodeDefinitions Notions.

Lemma spread_lookup (defaults custom : gmap string JSON) (k : string) :
  spread defaults custom !! k =
    match custom !! k with
    | Some v => Some v
    | None => defaults !! k
    end.
Proof.
  unfold spread. rewrite lookup_union.
  destruct (custom !! k), (defaults !! k); reflexivity.
Qed.

(** C5. [createNode] resolves the parameters of a node by laying the
    overrides over the defaults of its definition, key by key at the top
    level: a key of the overrides takes the override's value, a key only in
    the defaults keeps the default.  With defaults [{url: "", method:
    "GET"}] and override [{method: "POST"}] the result is [{url: "",
    method: "POST"}]; without overrides the result is the defaults. *)
Theorem createNode_merges_parameters :
  (forall (d : NodeDefinition) id position custom customName (k : string),
      parameters (createNode (Js.Own d) id position (Some custom) customName) !! k =
        match custom !! k with
        | Some v => Some v
        | None => defaultParameters d !! k
        end)
  /\ (forall (d : NodeDefinition) id position customName,
         defaultParameters d = obj [("url", JStr ""); ("method", JStr "GET")] ->
         parameters (createNode (Js.Own d) id position
                       (Some (obj [("method", JStr "POST")])) customName)
         = obj [("url", JStr ""); ("method", JStr "POST")])
  /\ (forall (d : NodeDefinition) id position customName,
         parameters (createNode (Js.Own d) id position None customName)
         = defaultParameters d).
Proof.
  split; [|split].
  - intros d id0 position0 custom customName k. simpl. apply spread_lookup.
  - intros d id0 position0 customName Hd. simpl. rewrite Hd.
    apply map_eq. intros k. rewrite spread_lookup.
    unfold obj. simpl.
    destruct (decide (k = "method")) as [->|Hm].
    + rewrite !lookup_insert_eq.
      rewrite lookup_insert_ne by discriminate. rewrite lookup_insert_eq. reflexivity.
    + rewrite (lookup_insert_ne _ "method" k) by congruence.
      rewrite lookup_empty.
      destruct (decide (k = "url")) as [->|Hu].
      * rewrite !lookup_insert_eq. reflexivity.
      * rewrite !lookup_insert_ne by congruence. reflexivity.
  - intros d id0 position0 customName. simpl. unfold spread.
    apply (left_id_L ∅ (∪)).
Qed.

Lemma createNode_merges_parameters_witness :
  parameters (createNode (Js.Own scenario_def) "httpRequest_1" (450, 300)%Z
                (Some (obj [("method", JStr "POST")])) None)
  = obj [("url", JStr ""); ("method", JStr "POST")].
Proof.
  apply (proj1 (proj2 createNode_merges_parameters) scenario_def). reflexivity.
Defined.

End NodeFactory.

Section SequentialBuilder.
Import Schemas NodeDefinitions Generator Notions.

Variable apiUrlMatch : string -> option string.
Variable requirements : WorkflowRequirements.

Lemma addNode_types (nodes : list N8nNode) (x : Z) (nodeType : string) (index : nat) :
  map type (fst (addNode apiUrlMatch requirements (nodes, x) nodeType index))
  = (map type nodes ++ option_list (built_type nodeType))%list.
Proof.
  unfold addNode, built_type.
  destruct (Js.get nodeDefinitions nodeType) as [definition|]; simpl.
  - destruct (customize apiUrlMatch nodeType requirements) as [customParameters customName].
    simpl. rewrite map_app. reflexivity.
  - rewrite app_nil_r. reflexivity.
Qed.

Lemma forEach_nodeType_types (nodeTypes : list string) :
  forall (index : nat) (state : list N8nNode * Z),
    map type (fst (forEach_nodeType apiUrlMatch requirements index nodeTypes state))
    = (map type (fst state) ++ omap built_type nodeTypes)%list.
Proof.
  induction nodeTypes as [|nodeType rest IH]; intros index [nodes x].
  - simpl. rewrite app_nil_r. reflexivity.
  - cbn [forEach_nodeType]. rewrite IH, addNode_types.
    rewrite <- app_assoc. cbn [fst]. f_equal.
    change (omap built_type (nodeType :: rest))
      with (match built_type nodeType with
            | Some y => y :: omap built_type rest
            | None => omap built_type rest
            end).
    destruct (built_type nodeType); reflexivity.
Qed.

(** The types of the nodes built one by one: one node for each identifier
    whose catalogue lookup is truthy, in input order. *)
Lemma buildSequential_types (nodeTypes : list string) :
  map type (buildSequential apiUrlMatch nodeTypes requirements)
  = omap built_type nodeTypes.
Proof.
  unfold buildSequential. rewrite forEach_nodeType_types. reflexivity.
Qed.

Lemma catalogue_keys_are_types (nodeType : string) (d : NodeDefinition) :
  nodeDefinitions !! nodeType = Some d -> def_type d = nodeType.
Proof.
  unfold nodeDefinitions. intros H.
  apply elem_of_list_to_map_2 in H.
  unfold catalogue in H.
  each_member H ltac:(inversion H; reflexivity).
Qed.

(** When no identifier is an inherited member name, the nodes are exactly
    those of the identifiers present in the catalogue, in input order. *)
Lemma buildSequential_types_own (nodeTypes : list string) :
  Forall (fun t => Js.inherited t = false) nodeTypes ->
  map type (buildSequential apiUrlMatch nodeTypes requirements)
  = map Some (List.filter (fun t => bool_decide (is_Some (nodeDefinitions !! t))) nodeTypes).
Proof.
  intros Hown. rewrite buildSequential_types.
  induction Hown as [|t rest Ht _ IH]; [reflexivity|].
  change (omap built_type (t :: rest))
    with (match built_type t with
          | Some y => y :: omap built_type rest
          | None => omap built_type rest
          end).
  rewrite IH. cbn [List.filter]. unfold built_type, Js.get. rewrite Ht.
  destruct (nodeDefinitions !! t) as [d|] eqn:Hd.
  - rewrite bool_decide_eq_true_2 by (eexists; reflexivity).
    cbn [map read_type]. rewrite (catalogue_keys_are_types t d Hd). reflexivity.
  - rewrite bool_decide_eq_false_2 by (intros [? ?]; discriminate).
    reflexivity.
Qed.

Lemma customize_name (nodeType : string) :
  snd (customize apiUrlMatch nodeType requirements) = None
  \/ snd (customize apiUrlMatch nodeType requirements) = Some "Schedule Trigger"
  \/ snd (customize apiUrlMatch nodeType requirements) = Some "API Request"
  \/ snd (customize apiUrlMatch nodeType requirements) = Some "Process Data".
Proof.
  unfold customize.
  destruct (String.eqb nodeType "n8n-nodes-base.scheduleTrigger"
            && Js.truthy_opt (scheduling requirements)); [right; left; reflexivity|].
  destruct (String.eqb nodeType "n8n-nodes-base.httpRequest");
    [right; right; left; reflexivity|].
  destruct (String.eqb nodeType "n8n-nodes-base.function");
    [right; right; right; reflexivity | left; reflexivity].
Qed.

Lemma catalogue_names_own (nodeType : string) (d : NodeDefinition) :
  nodeDefinitions !! nodeType = Some d -> Js.inherited (defaultName d) = false.
Proof.
  unfold nodeDefinitions. intros H.
  apply elem_of_list_to_map_2 in H.
  unfold catalogue in H.
  each_member H ltac:(inversion H; reflexivity).
Qed.

Lemma addNode_own_keys (nodes : list N8nNode) (x : Z) (nodeType : string) (index : nat) :
  Forall own_key nodes ->
  Forall own_key (fst (addNode apiUrlMatch requirements (nodes, x) nodeType index)).
Proof.
  intros Hnodes. unfold addNode, Js.get.
  pose proof (customize_name nodeType) as Hname.
  destruct (customize apiUrlMatch nodeType requirements) as [customParameters customName].
  cbn [snd] in Hname.
  assert (forall definition,
             Js.inherited (Js.property_key (read_defaultName definition)) = false ->
             own_key (createNode definition (createNodeId nodeType (index + 1))
                        (x, 300%Z) (Some customParameters) customName)) as Hnode.
  { intros definition Hdefault. unfold own_key, key_of. cbn [createNode name].
    destruct Hname as [->|[->|[->| ->]]]; [exact Hdefault | reflexivity..]. }
  destruct (nodeDefinitions !! nodeType) as [d|] eqn:Hd.
  - cbn [fst]. apply Forall_app. split; [exact Hnodes|].
    constructor; [|constructor]. apply Hnode. cbn [read_defaultName Js.property_key].
    apply (catalogue_names_own nodeType d Hd).
  - destruct (Js.inherited nodeType); [|exact Hnodes].
    cbn [fst]. apply Forall_app. split; [exact Hnodes|].
    constructor; [|constructor]. apply Hnode. reflexivity.
Qed.

(** The display names the sequential builder gives are own keys: they come
    from the catalogue or from three fixed custom names, or are missing. *)
Lemma buildSequential_own_keys (nodeTypes : list string) :
  Forall own_key (buildSequential apiUrlMatch nodeTypes requirements).
Proof.
  unfold buildSequential.
  assert (forall index state,
             Forall own_key (fst state) ->
             Forall own_key
               (fst (forEach_nodeType apiUrlMatch requirements index nodeTypes state)))
    as Hloop.
  { induction nodeTypes as [|nodeType rest IH]; intros index [nodes x] Hstate.
    - exact Hstate.
    - cbn [forEach_nodeType]. apply IH.
      destruct (addNode apiUrlMatch requirements (nodes, x) nodeType index) eqn:Hstep.
      pose proof (addNode_own_keys nodes x nodeType index Hstate) as Hown.
      rewrite Hstep in Hown. exact Hown. }
  apply Hloop. constructor.
Qed.

(** C6. The guard [if (!definition) return] lets through an identifier
    that names a member inherited from [Object.prototype]: for the
    identifiers [n8n-nodes-base.start] and [constructor], only the first
    of which is in the catalogue, two nodes are built, the second with an
    [undefined] type. *)
Theorem buildSequential_inherited_member :
  map type (buildSequential apiUrlMatch
              ["n8n-nodes-base.start"; "constructor"] requirements)
  = [Some "n8n-nodes-base.start"; None]
  /\ nodeDefinitions !! "constructor" = None.
Proof.
  split.
  - rewrite buildSequential_types. reflexivity.
  - reflexivity.
Qed.

End SequentialBuilder.

Section Wiring.
Import Schemas NodeDefinitions Generator Notions.

(** *** Counting target entries *)

Lemma total_targets_insert_fresh (c : gmap string SourceConnections) k entry :
  c !! k = None ->
  total_targets (<[k := entry]> c) = (length (main entry) + total_targets c)%nat.
Proof.
  intros Hk. unfold total_targets.
  rewrite (map_to_list_insert c k entry Hk). reflexivity.
Qed.

Lemma total_targets_insert_over (c : gmap string SourceConnections) k old entry :
  c !! k = Some old ->
  (total_targets (<[k := entry]> c) + length (main old)
   = length (main entry) + total_targets c)%nat.
Proof.
  intros Hk.
  rewrite <- (insert_delete_eq c k entry).
  rewrite total_targets_insert_fresh by apply lookup_delete_eq.
  rewrite <- (insert_delete_id c k old Hk) at 2.
  rewrite total_targets_insert_fresh by apply lookup_delete_eq.
  lia.
Qed.

(** *** Adding one connection *)

Lemma push_connection_own (c : gmap string SourceConnections) source connection :
  Js.inherited (Js.property_key source) = false ->
  exists c',
    push_connection c source connection = inr c'
    /\ targets c' (Js.property_key source)
       = (targets c (Js.property_key source) ++ [connection])%list
    /\ (forall k, k <> Js.property_key source -> targets c' k = targets c k)
    /\ total_targets c' = S (total_targets c).
Proof.
  intros Hown. unfold push_connection, Js.get, targets. rewrite Hown.
  destruct (c !! Js.property_key source) as [entry|] eqn:Hentry.
  - eexists. split; [reflexivity|]. rewrite lookup_insert_eq. split; [reflexivity|].
    split.
    + intros k Hk. rewrite lookup_insert_ne by congruence. reflexivity.
    + pose proof (total_targets_insert_over c _ entry
                    {| main := (main entry ++ [connection])%list |} Hentry) as Ht.
      cbn [main] in Ht. rewrite length_app in Ht. simpl in Ht. lia.
  - eexists. split; [reflexivity|]. rewrite lookup_insert_eq. split; [reflexivity|].
    split.
    + intros k Hk. rewrite lookup_insert_ne by congruence. reflexivity.
    + rewrite total_targets_insert_fresh by assumption. reflexivity.
Qed.

(** *** The equations of the wiring loop *)

Lemma has_outputs_branch (n : N8nNode) : is_branch n = true -> has_outputs n = true.
Proof.
  unfold is_branch, Js.strict_eq, has_outputs. intros H.
  apply bool_decide_eq_true_1 in H. rewrite H. reflexivity.
Qed.

Lemma connect_from_skip cur next after c :
  has_outputs cur = false ->
  connect_from (cur :: next :: after) c = connect_from (next :: after) c.
Proof. intros H. cbn [connect_from]. rewrite H. reflexivity. Qed.

Lemma connect_from_plain cur next after c :
  has_outputs cur = true -> is_branch cur = false ->
  connect_from (cur :: next :: after) c
  = Js.bind (push_connection c (name cur) (connection_to next 0))
            (connect_from (next :: after)).
Proof.
  intros Ho Hb. cbn [connect_from]. rewrite Ho. unfold is_branch in Hb.
  rewrite Hb. reflexivity.
Qed.

Lemma connect_from_branch cur first second after c :
  is_branch cur = true ->
  connect_from (cur :: first :: second :: after) c
  = Js.bind (push_connection c (name cur) (connection_to first 0))
      (fun c1 => Js.bind (push_connection c1 (name cur) (connection_to second 1))
                   (connect_from (second :: after))).
Proof.
  intros Hb. cbn [connect_from]. rewrite (has_outputs_branch cur Hb).
  unfold is_branch in Hb. rewrite Hb. reflexivity.
Qed.

Lemma connect_from_branch_last cur next c :
  is_branch cur = true ->
  connect_from [cur; next] c
  = push_connection c (name cur) (connection_to next 0).
Proof.
  intros Hb. cbn [connect_from]. rewrite (has_outputs_branch cur Hb).
  unfold is_branch in Hb. rewrite Hb. cbn [negb].
  destruct (push_connection c (name cur) (connection_to next 0)); reflexivity.
Qed.

(** Induction over a list two elements at a time, as the loop may step. *)
Lemma list_ind_two {A} (P : list A -> Prop) :
  P [] -> (forall x, P [x]) ->
  (forall x y l, P l -> P (y :: l) -> P (x :: y :: l)) ->
  forall l, P l.
Proof.
  intros Hnil Hone Hstep l.
  assert (P l /\ forall x, P (x :: l)) as [H _]; [|exact H].
  induction l as [|y l [IH1 IH2]].
  - split; [exact Hnil | exact Hone].
  - split; [apply IH2 | intros x; apply Hstep; [exact IH1 | apply IH2]].
Qed.






(** The entry of a branch node whose display name another node carries
    also receives that node's connection. *)
Lemma shared_name_shares_entry :
  exists c,
    createConnections Examples.branch_name_shared = inr c
    /\ map node (targets (conn_main c) "IF")
       = [Some "Set"; Some "Slack"; Some "Email"].
Proof.
  eexists. split; reflexivity.
Qed.

(** The index written with the second connection of a branch node is 1,
    where the schema's [index] is the index on the target. *)
Lemma branch_second_connection_index :
  exists c,
    createConnections [node_of if_def "if_1" 100;
                       node_of set_def "set_2" 300;
                       node_of slack_def "slack_3" 500] = inr c
    /\ targets (conn_main c) "IF"
       = [ {| node := Some "Set"; conn_type := "main"; index := 0 |};
           {| node := Some "Slack"; conn_type := "main"; index := 1 |} ].
Proof.
  eexists. split; reflexivity.
Qed.

(** *** Lists without branch nodes *)

Lemma connect_from_chain (nodes : list N8nNode) :
  Forall (fun n => has_outputs n = true /\ is_branch n = false) nodes ->
  Forall own_key nodes ->
  forall c, exists c',
    connect_from nodes c = inr c'
    /\ total_targets c' = (total_targets c + (length nodes - 1))%nat
    /\ (forall k x, x ∈ targets c k -> x ∈ targets c' k)
    /\ (forall i cur next,
           nodes !! i = Some cur -> nodes !! S i = Some next ->
           connection_to next 0 ∈ targets c' (key_of cur)).
Proof.
  induction nodes as [|cur rest IH]; intros Hkind Hown c.
  - exists c. repeat split; [simpl; lia | auto | intros i ? ? H; inversion H].
  - destruct rest as [|next after].
    + exists c. repeat split; [simpl; lia | auto |].
      intros i ? ? _ H. inversion H.
    + apply Forall_cons in Hkind as [[Ho Hb] Hkind].
      apply Forall_cons in Hown as [Hcur Hown].
      rewrite connect_from_plain by assumption.
      destruct (push_connection_own c (name cur) (connection_to next 0) Hcur)
        as (c1 & -> & Hmine & Hother & Htotal).
      cbn [Js.bind].
      destruct (IH Hkind Hown c1) as (c2 & Hc2 & Htotal2 & Hmono & Hwired).
      exists c2. split; [exact Hc2|]. split; [|split].
      * rewrite Htotal2, Htotal. simpl. lia.
      * intros k x Hx. apply Hmono.
        destruct (decide (k = Js.property_key (name cur))) as [->|Hne].
        -- rewrite Hmine. apply elem_of_app. left. exact Hx.
        -- rewrite Hother by exact Hne. exact Hx.
      * intros [|i] cur' next' Hi HSi.
        -- simpl in Hi, HSi. inversion Hi; subst cur'. inversion HSi; subst next'.
           apply Hmono. unfold key_of. rewrite Hmine.
           apply elem_of_app. right. apply list_elem_of_singleton. reflexivity.
        -- apply (Hwired i); assumption.
Qed.

(** For a list of at least two nodes, none of them a branch node and all
    of types with a declared output, whose display names are no members
    inherited from [Object.prototype], the connections map records node
    [i+1] as a target of node [i] for every [i], and holds [len - 1]
    target entries in total. *)
Lemma chain_wiring (nodes : list N8nNode) :
  (2 <= length nodes)%nat ->
  Forall (fun n => has_outputs n = true /\ is_branch n = false) nodes ->
  Forall own_key nodes ->
  exists c,
    createConnections nodes = inr c
    /\ total_targets (conn_main c) = (length nodes - 1)%nat
    /\ (forall i cur next,
           nodes !! i = Some cur -> nodes !! S i = Some next ->
           {| node := name next; conn_type := "main"; index := 0 |}
           ∈ targets (conn_main c) (Js.property_key (name cur))).
Proof.
  intros _ Hkind Hown.
  destruct (connect_from_chain nodes Hkind Hown ∅) as (c & Hc & Htotal & _ & Hwired).
  exists {| conn_main := c |}. split; [|split].
  - unfold createConnections. rewrite Hc. reflexivity.
  - cbn [conn_main]. rewrite Htotal. unfold total_targets.
    rewrite map_to_list_empty. reflexivity.
  - exact Hwired.
Qed.

Lemma chain_wiring_example :
  exists c,
    createConnections [node_of start_def "start_1" 100;
                       node_of httpRequest_def "httpRequest_2" 300;
                       node_of set_def "set_3" 500] = inr c
    /\ total_targets (conn_main c) = 2%nat
    /\ targets (conn_main c) "Start"
       = [ {| node := Some "HTTP Request"; conn_type := "main"; index := 0 |} ]
    /\ targets (conn_main c) "HTTP Request"
       = [ {| node := Some "Set"; conn_type := "main"; index := 0 |} ].
Proof.
  eexists. split; [reflexivity|]. split; [vm_compute; reflexivity|].
  split; reflexivity.
Qed.

(** *** Display names inherited from [Object.prototype] *)






End Wiring.

Section BuiltChains.
Import Schemas NodeDefinitions Generator Notions.

Variable apiUrlMatch : string -> option string.
Variable requirements : WorkflowRequirements.

Lemma catalogue_has_outputs (nodeType : string) (d : NodeDefinition) :
  nodeDefinitions !! nodeType = Some d -> outputs d <> [].
Proof.
  unfold nodeDefinitions. intros H.
  apply elem_of_list_to_map_2 in H.
  unfold catalogue in H.
  each_member H ltac:(inversion H; discriminate).
Qed.

Lemma kind_of_type (n : N8nNode) (t : string) :
  type n = Some t -> is_Some (nodeDefinitions !! t) -> t <> "n8n-nodes-base.if" ->
  has_outputs n = true /\ is_branch n = false.
Proof.
  intros Ht [d Hd] Hif. unfold has_outputs, is_branch, Js.strict_eq, Js.get.
  rewrite Ht. cbn [Js.property_key]. rewrite Hd. split.
  - pose proof (catalogue_has_outputs t d Hd) as Hout.
    destruct (outputs d); [congruence | reflexivity].
  - apply bool_decide_eq_false_2. congruence.
Qed.

(** The sequential builder and the wiring together: for identifiers that
    are all in the catalogue and none the branch type, the nodes built are
    wired into a chain, one node per identifier and one target entry per
    pair of neighbours. *)
Lemma built_chain_wiring (nodeTypes : list string) :
  Forall (fun t => is_Some (nodeDefinitions !! t) /\ t <> "n8n-nodes-base.if")
         nodeTypes ->
  exists c,
    createConnections (buildSequential apiUrlMatch nodeTypes requirements) = inr c
    /\ length (buildSequential apiUrlMatch nodeTypes requirements) = length nodeTypes
    /\ total_targets (conn_main c) = (length nodeTypes - 1)%nat.
Proof.
  intros Hknown.
  assert (map type (buildSequential apiUrlMatch nodeTypes requirements)
          = map Some nodeTypes) as Htypes.
  { rewrite buildSequential_types.
    induction Hknown as [|t rest [[d Hd] _] _ IH]; [reflexivity|].
    change (omap built_type (t :: rest))
      with (match built_type t with
            | Some y => y :: omap built_type rest
            | None => omap built_type rest
            end).
    rewrite IH. unfold built_type, Js.get. rewrite Hd. cbn [read_type map].
    rewrite (catalogue_keys_are_types t d Hd). reflexivity. }
  assert (length (buildSequential apiUrlMatch nodeTypes requirements)
          = length nodeTypes) as Hlen.
  { rewrite <- (length_map type), Htypes, length_map. reflexivity. }
  assert (Forall (fun n => has_outputs n = true /\ is_branch n = false)
            (buildSequential apiUrlMatch nodeTypes requirements)) as Hkind.
  { apply Forall_forall. intros n Hn.
    assert (type n ∈ map Some nodeTypes) as Ht.
    { rewrite <- Htypes. apply list_elem_of_fmap. exists n. split; [reflexivity|exact Hn]. }
    apply list_elem_of_fmap in Ht as (t & Ht & Hin).
    rewrite Forall_forall in Hknown. destruct (Hknown t Hin) as [Hsome Hif].
    apply (kind_of_type n t Ht Hsome Hif). }
  destruct (connect_from_chain _ Hkind
              (buildSequential_own_keys apiUrlMatch requirements nodeTypes) ∅)
    as (c & Hc & Htotal & _ & _).
  exists {| conn_main := c |}. split; [|split].
  - unfold createConnections. rewrite Hc. reflexivity.
  - exact Hlen.
  - cbn [conn_main]. rewrite Htotal, Hlen. unfold total_targets.
    rewrite map_to_list_empty. reflexivity.
Qed.

End BuiltChains.

Section GeneratorValidation.
Import Schemas NodeDefinitions Generator Notions.

Lemma check_targets_spec (ns : list N8nNode) (ts : list N8nConnection) :
  (check_targets ns ts = inr tt
   /\ forall x, x ∈ ts -> find_node ns (node x) = true)
  \/ (exists x, x ∈ ts /\ find_node ns (node x) = false
                /\ check_targets ns ts = inl (missing_target_error x)).
Proof.
  induction ts as [|t ts IH]; simpl.
  - left. split; [reflexivity|]. intros x H. inversion H.
  - destruct (find_node ns (node t)) eqn:Hfound.
    + destruct IH as [[Hok Hall] | (x & Hx & Hmiss & Herr)].
      * left. split; [exact Hok|]. intros x Hx.
        apply elem_of_cons in Hx as [->|Hx]; [exact Hfound | apply Hall, Hx].
      * right. exists x. split; [right; exact Hx | split; assumption].
    + right. exists t. split; [left | split; [exact Hfound | reflexivity]].
Qed.

Lemma check_sources_spec (ns : list N8nNode) (entries : list (string * SourceConnections)) :
  (check_sources ns entries = inr tt
   /\ forall k entry x, (k, entry) ∈ entries -> x ∈ main entry ->
                        find_node ns (node x) = true)
  \/ (exists k entry x, (k, entry) ∈ entries /\ x ∈ main entry
                        /\ find_node ns (node x) = false
                        /\ check_sources ns entries = inl (missing_target_error x)).
Proof.
  induction entries as [|[k0 entry0] entries IH]; simpl.
  - left. split; [reflexivity|]. intros k entry x H. inversion H.
  - destruct (check_targets_spec ns (main entry0))
      as [[Hok Hall] | (x & Hx & Hmiss & Herr)].
    + rewrite Hok. cbn [Js.bind].
      destruct IH as [[Hok' Hall'] | (k & entry & x & Hin & Hx & Hmiss & Herr)].
      * left. split; [exact Hok'|]. intros k entry x Hin Hx.
        apply elem_of_cons in Hin as [Heq|Hin].
        -- inversion Heq; subst. apply Hall, Hx.
        -- apply (Hall' k entry x Hin Hx).
      * right. exists k, entry, x. split; [right; exact Hin|].
        split; [exact Hx | split; assumption].
    + right. exists k0, entry0, x. split; [left|].
      split; [exact Hx | split; [exact Hmiss|]]. rewrite Herr. reflexivity.
Qed.

Lemma some_trigger_true (ns : list N8nNode) :
  some_trigger ns = inr true ->
  exists n t, n ∈ ns /\ type n = Some t
              /\ (Js.includes "Trigger" t = true \/ t = "n8n-nodes-base.start").
Proof.
  induction ns as [|n ns IH]; simpl; [discriminate|].
  destruct (type n) as [t|] eqn:Ht; [|discriminate].
  destruct (Js.includes "Trigger" t || String.eqb t "n8n-nodes-base.start") eqn:Hq.
  - intros _. exists n, t. split; [left | split; [exact Ht|]].
    apply orb_true_iff in Hq as [Hq|Hq]; [left; exact Hq | right].
    apply String.eqb_eq, Hq.
  - intros H. destruct (IH H) as (n' & t' & Hin & Ht' & Hq').
    exists n', t'. split; [right; exact Hin | split; assumption].
Qed.

Lemma find_node_true (ns : list N8nNode) (target : option string) :
  find_node ns target = true -> exists n, n ∈ ns /\ name n = target.
Proof.
  unfold find_node. intros H. apply existsb_exists in H as (n & Hin & Heq).
  exists n. split; [apply list_elem_of_In, Hin|].
  unfold Js.strict_eq in Heq. apply bool_decide_eq_true_1 in Heq. exact Heq.
Qed.

(** What a workflow that passes [validateWorkflow] satisfies. *)
Lemma validateWorkflow_passed (workflow : N8nWorkflow) :
  validateWorkflow workflow = inr tt ->
  Js.truthy (wf_name workflow) = true
  /\ nodes workflow <> []
  /\ some_trigger (nodes workflow) = inr true
  /\ forall x, ~ dangling workflow x.
Proof.
  unfold validateWorkflow.
  destruct (Js.truthy (wf_name workflow)) eqn:Hname; cbn [negb]; [|discriminate].
  destruct (nodes workflow) as [|n ns] eqn:Hnodes; [discriminate|].
  cbn [length Nat.eqb].
  destruct (some_trigger (n :: ns)) as [e|[|]] eqn:Htrigger;
    cbn [Js.bind negb]; try discriminate.
  intros Hcheck. split; [reflexivity|]. split; [discriminate|].
  split; [reflexivity|].
  intros x [(source & entry & Hentry & Hx) Hmiss]. rewrite Hnodes in Hmiss.
  destruct (check_sources_spec (n :: ns) (map_to_list (conn_main (connections workflow))))
    as [[_ Hall] | (k & entry' & x' & _ & _ & _ & Herr)].
  - apply elem_of_map_to_list in Hentry.
    rewrite (Hall source entry x Hentry Hx) in Hmiss. discriminate.
  - rewrite Herr in Hcheck. discriminate.
Qed.

(** On a workflow with a name, at least one node and a trigger node found,
    one of whose connections names a target that no node carries,
    [validateWorkflow] throws an [Error] whose message names such a
    missing target. *)
Lemma validateWorkflow_missing_target (workflow : N8nWorkflow) :
  Js.truthy (wf_name workflow) = true ->
  nodes workflow <> [] ->
  some_trigger (nodes workflow) = inr true ->
  (exists x, dangling workflow x) ->
  exists x, dangling workflow x
            /\ validateWorkflow workflow = inl (missing_target_error x).
Proof.
  intros Hname Hnodes Htrigger (x & (source & entry & Hentry & Hx) & Hmiss).
  unfold validateWorkflow. rewrite Hname. cbn [negb].
  destruct (nodes workflow) as [|n ns] eqn:Hns; [congruence|].
  cbn [length Nat.eqb]. rewrite Htrigger. cbn [Js.bind negb].
  unfold dangling in *. rewrite Hns in *.
  destruct (check_sources_spec (n :: ns) (map_to_list (conn_main (connections workflow))))
    as [[_ Hall] | (k & entry' & x' & Hin & Hx' & Hmiss' & Herr)].
  - apply elem_of_map_to_list in Hentry.
    rewrite (Hall source entry x Hentry Hx) in Hmiss. discriminate.
  - exists x'. split; [|exact Herr].
    split; [|exact Hmiss'].
    exists k, entry'. split; [apply elem_of_map_to_list, Hin | exact Hx'].
Qed.

End GeneratorValidation.

Section GeneratorPipeline.
Import Schemas NodeDefinitions Generator Notions.

Variable parseWorkflowRequirements : string -> Js.Result WorkflowRequirements.
Variable apiUrlMatch : string -> option string.
Variable templateNodes :
  string -> WorkflowRequirements -> option (Js.Result (list N8nNode)).
Variable generateExplanations :
  N8nWorkflow -> WorkflowRequirements -> Js.Result (gmap string string).
Variable generateSetupInstructions : N8nWorkflow -> Js.Result string.

Local Abbreviation generate :=
  (generateWorkflow parseWorkflowRequirements apiUrlMatch templateNodes
     generateExplanations generateSetupInstructions).

(** A success payload is only built after [validateWorkflow] has returned
    on the workflow it carries. *)
Lemma generateWorkflow_validated input workflow explanations setupInstructions :
  generate input = Data workflow explanations setupInstructions ->
  validateWorkflow workflow = inr tt.
Proof.
  unfold generate, generateWorkflow.
  destruct (generateWorkflow_try _ _ _ _ _ input) as [[m|]|result] eqn:Htry;
    try discriminate.
  intros ->. unfold generateWorkflow_try in Htry.
  destruct (Js.truthy_opt (in_description input)); cbn [negb] in Htry;
    [|discriminate].
  repeat match type of Htry with
         | Js.bind ?c _ = inr _ =>
             let H := fresh "Hstep" in
             destruct c eqn:H; cbn [Js.bind] in Htry; [discriminate|]
         end.
  inversion Htry; subst. destruct u. assumption.
Qed.

(** C10. A success payload of [generateWorkflow] carries a well-formed
    workflow: its name is not empty, it has a node, one of its nodes has a
    type that contains [Trigger] or is the start type, and the target of
    every connection is the display name of one of its nodes. *)
Theorem generateWorkflow_success_is_well_formed
    input workflow explanations setupInstructions :
  generate input = Data workflow explanations setupInstructions ->
  wf_name workflow <> ""
  /\ (1 <= length (nodes workflow))%nat
  /\ (exists n t, n ∈ nodes workflow /\ type n = Some t
                  /\ (Js.includes "Trigger" t = true \/ t = "n8n-nodes-base.start"))
  /\ (forall source entry x,
         conn_main (connections workflow) !! source = Some entry ->
         x ∈ main entry ->
         exists n, n ∈ nodes workflow /\ name n = node x).
Proof.
  intros Hgen. apply generateWorkflow_validated in Hgen.
  apply validateWorkflow_passed in Hgen as (Hname & Hnodes & Htrigger & Hclosed).
  split; [|split; [|split]].
  - intros Heq. rewrite Heq in Hname. discriminate.
  - destruct (nodes workflow); [congruence | simpl; lia].
  - apply some_trigger_true, Htrigger.
  - intros source entry x Hentry Hx.
    apply find_node_true.
    destruct (find_node (nodes workflow) (node x)) eqn:Hfound; [reflexivity|].
    exfalso. apply (Hclosed x). split; [eauto | exact Hfound].
Qed.

End GeneratorPipeline.

Lemma generateWorkflow_success_witness :
  exists workflow,
    Generator.generateWorkflow
      (fun d => Js.ret (Notions.example_requirements d)) (fun _ => None)
      (fun _ _ => None) (fun _ _ => Js.ret ∅) (fun _ => Js.ret "")
      Notions.example_input = Generator.Data workflow ∅ None
    /\ Schemas.wf_name workflow <> ""
    /\ (1 <= length (Schemas.nodes workflow))%nat
    /\ (exists n t, n ∈ Schemas.nodes workflow /\ Schemas.type n = Some t
                    /\ (Js.includes "Trigger" t = true \/ t = "n8n-nodes-base.start"))
    /\ (forall source entry x,
           Schemas.conn_main (Schemas.connections workflow) !! source = Some entry ->
           x ∈ Schemas.main entry ->
           exists n, n ∈ Schemas.nodes workflow /\ Schemas.name n = Schemas.node x).
Proof.
  eexists. split; [reflexivity|].
  eapply (generateWorkflow_success_is_well_formed
            (fun d => Js.ret (Notions.example_requirements d)) (fun _ => None)
            (fun _ _ => None) (fun _ _ => Js.ret ∅) (fun _ => Js.ret "")
            Notions.example_input).
  reflexivity.
Defined.

Section RuleBasedValidator.
Import Infrastructure Notions.

Lemma rule_trigger_consistent (wf : ApiWorkflow) : consistent (rule_trigger wf).
Proof. unfold consistent. simpl. destruct (existsb _ _); split; congruence. Qed.

Lemma rule_errorHandling_consistent (wf : ApiWorkflow) :
  consistent (rule_errorHandling wf).
Proof. unfold consistent. simpl. destruct (_ || _); split; congruence. Qed.

Lemma rule_naming_consistent (wf : ApiWorkflow) : consistent (rule_naming wf).
Proof. unfold consistent. simpl. destruct (snd _); simpl; split; congruence. Qed.

Lemma rule_credentials_consistent (wf : ApiWorkflow) :
  consistent (rule_credentials wf).
Proof. unfold consistent. simpl. destruct (0 <? _)%nat; simpl; split; congruence. Qed.

Lemma rules_consistent (ruleName : string) (ruleFunc : Rule) (wf : ApiWorkflow) :
  (ruleName, ruleFunc) ∈ rules_entries -> consistent (ruleFunc wf).
Proof.
  unfold rules_entries. intros H.
  repeat (apply elem_of_cons in H as [H|H];
          [inversion H; subst; clear H|]);
    [ | | | | inversion H].
  - apply rule_trigger_consistent.
  - apply rule_errorHandling_consistent.
  - apply rule_naming_consistent.
  - apply rule_credentials_consistent.
Qed.

Lemma assign_consistent key value (results : list (string * RuleResult)) :
  consistent value ->
  Forall (fun kv => consistent (snd kv)) results ->
  Forall (fun kv => consistent (snd kv)) (assign key value results).
Proof.
  intros Hvalue Hresults.
  induction Hresults as [|[k v] rest Hv Hrest IH]; simpl.
  - constructor; [exact Hvalue | constructor].
  - destruct (String.eqb k key); constructor; assumption.
Qed.

Lemma apply_selected_consistent (selected : list string) (wf : ApiWorkflow) :
  forall results results',
    Forall (fun kv => consistent (snd kv)) results ->
    apply_selected selected wf results = inr results' ->
    Forall (fun kv => consistent (snd kv)) results'.
Proof.
  induction selected as [|rule rest IH]; intros results results' Hres; simpl.
  - intros H. inversion H; subst. exact Hres.
  - unfold Js.get. destruct (rules !! rule) as [ruleFunc|] eqn:Hrule.
    + apply IH. apply assign_consistent; [|exact Hres].
      apply (rules_consistent rule). apply elem_of_list_to_map_2, Hrule.
    + destruct (Js.inherited rule); [discriminate|]. apply IH, Hres.
Qed.

Lemma collect_flag (results : list (string * RuleResult)) :
  Forall (fun kv => consistent (snd kv)) results ->
  forall allPassed allIssues,
    (allPassed = true <-> allIssues = []) ->
    fst (collect results allPassed allIssues) = true
    <-> snd (collect results allPassed allIssues) = [].
Proof.
  induction 1 as [|[ruleName result] rest Hresult _ IH];
    intros allPassed allIssues Hinv; simpl.
  - exact Hinv.
  - destruct (pass result) eqn:Hpass; cbn [negb].
    + apply IH, Hinv.
    + apply IH. split; [discriminate|].
      intros Hnil. apply app_eq_nil in Hnil as [_ Hnil].
      apply fmap_nil_inv in Hnil.
      unfold consistent in Hresult. cbn [snd] in Hresult.
      apply Hresult in Hnil. congruence.
Qed.

Variable getWorkflow : string -> Js.Result ApiWorkflow.

(** In every answer that carries a body, [validationPassed] holds exactly
    when the list of issues is empty. *)
Lemma validationPassed_iff_no_issues (input : ValidateWorkflowInput) (body : Body) :
  validateWorkflow getWorkflow input = Ok body ->
  validationPassed body = true <-> body_issues body = [].
Proof.
  unfold validateWorkflow.
  destruct (Js.truthy_opt (workflowId input)); cbn [negb]; [|discriminate].
  destruct (getWorkflow _) as [e|wf]; [discriminate|].
  match goal with
  | |- context [match ?a with inl _ => _ | inr _ => _ end] =>
      destruct a as [e|results] eqn:Happlied
  end; [discriminate|].
  assert (Forall (fun kv => consistent (snd kv)) results) as Hcons.
  { destruct (bool_decide _).
    - inversion Happlied; subst. clear Happlied.
      constructor; [apply rule_trigger_consistent|].
      constructor; [apply rule_errorHandling_consistent|].
      constructor; [apply rule_naming_consistent|].
      constructor; [apply rule_credentials_consistent|constructor].
    - eapply apply_selected_consistent; [|exact Happlied]. constructor. }
  pose proof (collect_flag results Hcons true [] (conj (fun _ => eq_refl) (fun _ => eq_refl)))
    as Hflag.
  destruct (collect results true []) as [allPassed allIssues].
  intros H. inversion H; subst. exact Hflag.
Qed.

(** A requested name that is neither a rule nor an inherited member is
    passed over. *)
Lemma apply_selected_unknown (rule : string) rest (wf : ApiWorkflow) results :
  rules !! rule = None -> Js.inherited rule = false ->
  apply_selected (rule :: rest) wf results = apply_selected rest wf results.
Proof.
  intros Hrule Hown. simpl. unfold Js.get. rewrite Hrule, Hown. reflexivity.
Qed.

Lemma rules_not_inherited (rule : string) :
  Js.inherited rule = true -> rules !! rule = None.
Proof.
  unfold Js.inherited, Js.Object_prototype. intros H.
  apply bool_decide_eq_true_1 in H.
  each_member H ltac:(subst rule; reflexivity).
Qed.

(** A requested name that is an inherited member makes the whole selection
    fail, wherever it stands in the list. *)
Lemma apply_selected_inherited (selected : list string) (wf : ApiWorkflow) :
  forall results,
    Exists (fun rule => Js.inherited rule = true) selected ->
    apply_selected selected wf results = inl Js.TypeError.
Proof.
  induction selected as [|rule rest IH]; intros results Hex.
  - inversion Hex.
  - cbn [apply_selected]. unfold Js.get.
    destruct (Js.inherited rule) eqn:Hrule.
    + rewrite (rules_not_inherited rule Hrule). reflexivity.
    + apply Exists_cons in Hex as [Hhere|Hlater]; [congruence|].
      destruct (rules !! rule); apply IH, Hlater.
Qed.

End RuleBasedValidator.

(** C9. A requested rule name that is no rule but names a member inherited
    from [Object.prototype] is not passed over: for the rule list
    [["toString"]] the validator answers with the error
    ["Validation failed: ..."], whatever workflow was fetched. *)
Theorem validateWorkflow_inherited_rule_name (wf : Infrastructure.ApiWorkflow) :
  Infrastructure.validateWorkflow (fun _ => Js.ret wf)
    {| Infrastructure.workflowId := Some "42";
       Infrastructure.validationRules := Some ["toString"] |}
  = Infrastructure.Failed (Js.EngineText "Validation failed: ")
  /\ Infrastructure.rules !! "toString" = None.
Proof. split; reflexivity. Qed.

Section ValidationOfGraphs.
Import Notions.

Lemma apply_selected_connections (selected : list string)
    (wf : Infrastructure.ApiWorkflow) (c : Schemas.N8nConnections) :
  forall results,
    Infrastructure.apply_selected selected (Infrastructure.with_connections wf c) results
    = Infrastructure.apply_selected selected wf results.
Proof.
  induction selected as [|rule rest IH]; intros results; simpl; [reflexivity|].
  unfold Js.get.
  destruct (Infrastructure.rules !! rule) as [ruleFunc|] eqn:Hrule.
  - rewrite IH. f_equal. f_equal.
    apply elem_of_list_to_map_2 in Hrule. unfold Infrastructure.rules_entries in Hrule.
    each_member Hrule ltac:(inversion Hrule; reflexivity).
  - destruct (Js.inherited rule); [reflexivity | apply IH].
Qed.

(** The rule-based validator does not look at connections. *)
Lemma validateWorkflow_ignores_connections
    (wf : Infrastructure.ApiWorkflow) (c : Schemas.N8nConnections)
    (input : Infrastructure.ValidateWorkflowInput) :
  Infrastructure.validateWorkflow
    (fun _ => Js.ret (Infrastructure.with_connections wf c)) input
  = Infrastructure.validateWorkflow (fun _ => Js.ret wf) input.
Proof.
  unfold Infrastructure.validateWorkflow.
  destruct (Js.truthy_opt (Infrastructure.workflowId input)); [|reflexivity].
  cbn [negb Js.ret].
  destruct (bool_decide _); [reflexivity|].
  rewrite apply_selected_connections. reflexivity.
Qed.

(** C2 (as the code has it).  On a workflow with a name, at least one node
    and a trigger node found, one of whose connections names a target that
    no node carries, the generator's [validateWorkflow] throws an [Error]
    whose message names such a missing target; it returns no list.  The
    rule-based validator answers the same whatever the connections are. *)
Theorem missing_target_validation :
  (forall workflow : Schemas.N8nWorkflow,
      Js.truthy (Schemas.wf_name workflow) = true ->
      Schemas.nodes workflow <> [] ->
      Generator.some_trigger (Schemas.nodes workflow) = inr true ->
      (exists x, dangling workflow x) ->
      exists x, dangling workflow x
                /\ Generator.validateWorkflow workflow = inl (missing_target_error x))
  /\ (forall wf c input,
         Infrastructure.validateWorkflow
           (fun _ => Js.ret (Infrastructure.with_connections wf c)) input
         = Infrastructure.validateWorkflow (fun _ => Js.ret wf) input).
Proof.
  split.
  - exact validateWorkflow_missing_target.
  - exact validateWorkflow_ignores_connections.
Qed.

Lemma missing_target_validation_witness :
  exists x, dangling ghost_workflow x
            /\ Generator.validateWorkflow ghost_workflow = inl (missing_target_error x).
Proof.
  apply (proj1 missing_target_validation ghost_workflow).
  - reflexivity.
  - discriminate.
  - reflexivity.
  - exists {| Schemas.node := Some "Ghost"; Schemas.conn_type := "main"; Schemas.index := 0 |}.
    split; [|reflexivity].
    eexists "Start", _. split; [reflexivity|]. apply list_elem_of_here.
Defined.

(** C2, counterexample to the claim as written: the generator's validator
    throws for the missing target instead of returning a list, and the
    rule-based validator accepts the same graph without any issue. *)
Lemma missing_target_counterexample :
  Generator.validateWorkflow ghost_workflow
  = inl (Js.Error "Connection points to non-existent node: Ghost")
  /\ exists body,
      Infrastructure.validateWorkflow (fun _ => Js.ret ghost_api_workflow)
        {| Infrastructure.workflowId := Some "7";
           Infrastructure.validationRules := None |}
      = Infrastructure.Ok body
      /\ Infrastructure.validationPassed body = true
      /\ Infrastructure.body_issues body = [].
Proof.
  split; [reflexivity|].
  eexists. split; [reflexivity|]. split; reflexivity.
Qed.

(** C4 (as the code has it).  On a workflow without nodes the generator's
    [validateWorkflow] throws for the missing name if there is none and
    otherwise for the missing nodes, and checks nothing further.  The
    rule-based validator, asked for all rules, answers without throwing,
    with [validationPassed = false] and the issue of the trigger rule,
    followed by what the error-handling and naming rules report; it has no
    rule about the number of nodes. *)
Theorem empty_node_list_validation :
  (forall workflow : Schemas.N8nWorkflow,
      Schemas.nodes workflow = [] ->
      Generator.validateWorkflow workflow
      = inl (Js.Error (if Js.truthy (Schemas.wf_name workflow)
                       then "Workflow must have at least one node"
                       else "Workflow must have a name")))
  /\ (forall getWorkflow input workflowId wf,
         Infrastructure.workflowId input = Some workflowId ->
         Js.truthy workflowId = true ->
         getWorkflow workflowId = inr wf ->
         Infrastructure.nodes wf = [] ->
         "all" ∈ default ["all"] (Infrastructure.validationRules input) ->
         exists body,
           Infrastructure.validateWorkflow getWorkflow input
           = Infrastructure.Ok body
           /\ Infrastructure.validationPassed body = false
           /\ Infrastructure.body_issues body
              = ("[trigger] Workflow must have at least one trigger node"
                 :: tagged "errorHandling" (Infrastructure.rule_errorHandling wf)
                 ++ tagged "naming" (Infrastructure.rule_naming wf))%list).
Proof.
  split.
  - intros workflow Hnodes. unfold Generator.validateWorkflow. rewrite Hnodes.
    destruct (Js.truthy (Schemas.wf_name workflow)); reflexivity.
  - intros getWorkflow input workflowId wf Hinput Hid Hget Hnodes Hall.
    unfold Infrastructure.validateWorkflow. rewrite Hinput.
    cbn [default from_option Datatypes.id Js.truthy_opt].
    rewrite Hid, Hget. cbn [negb].
    rewrite bool_decide_eq_true_2 by exact Hall.
    destruct wf as [wname wnodes wconns werr]. cbn [Infrastructure.nodes] in Hnodes.
    subst wnodes. unfold tagged.
    cbn -[Js.truthy_opt Js.truthy String.length Nat.ltb append].
    destruct (Js.truthy_opt werr); cbn -[Js.truthy String.length Nat.ltb append];
      destruct wname as [n|];
      try destruct (negb (Js.truthy n) || (String.length n <? 3)%nat);
      cbn -[append]; eexists; (split; [reflexivity|]); split; reflexivity.
Qed.

Lemma empty_node_list_validation_witness :
  Generator.validateWorkflow empty_workflow
  = inl (Js.Error "Workflow must have at least one node")
  /\ exists body,
      Infrastructure.validateWorkflow (fun _ => Js.ret empty_api_workflow)
        {| Infrastructure.workflowId := Some "7";
           Infrastructure.validationRules := Some ["all"] |}
      = Infrastructure.Ok body
      /\ Infrastructure.validationPassed body = false
      /\ Infrastructure.body_issues body
         = ["[trigger] Workflow must have at least one trigger node";
            "[errorHandling] Workflow lacks error handling mechanisms"].
Proof.
  split.
  - apply (proj1 empty_node_list_validation empty_workflow). reflexivity.
  - apply (proj2 empty_node_list_validation (fun _ => Js.ret empty_api_workflow)
             {| Infrastructure.workflowId := Some "7";
                Infrastructure.validationRules := Some ["all"] |}
             "7" empty_api_workflow).
    + reflexivity.
    + reflexivity.
    + reflexivity.
    + reflexivity.
    + apply list_elem_of_here.
Defined.

(** C4, counterexample to the claim as written: on a named workflow without
    nodes the generator's validator throws one error, about the nodes, and
    never reaches the trigger check; the rule-based validator reports the
    missing trigger and the missing error handling, and nothing about the
    empty node list. *)
Lemma empty_node_list_counterexample :
  Generator.validateWorkflow empty_workflow
  = inl (Js.Error "Workflow must have at least one node")
  /\ exists body,
      Infrastructure.validateWorkflow (fun _ => Js.ret empty_api_workflow)
        {| Infrastructure.workflowId := Some "7";
           Infrastructure.validationRules := None |}
      = Infrastructure.Ok body
      /\ Infrastructure.body_issues body
         = ["[trigger] Workflow must have at least one trigger node";
            "[errorHandling] Workflow lacks error handling mechanisms"].
Proof.
  split; [reflexivity|]. eexists. split; reflexivity.
Qed.

End ValidationOfGraphs.

Section SocialPosting.
Import Schemas SocialPost Notions.

Variable toLowerCase : string -> string.
Variable capitalize : string -> string.

Lemma platformNode_name_own (platform : string) :
  Js.inherited (platformNode_name capitalize platform) = false.
Proof.
  unfold Js.inherited, Js.Object_prototype, platformNode_name.
  apply bool_decide_eq_false_2. intros H. simpl in H.
  each_member H ltac:(discriminate H).
Qed.

Lemma platformNode_name_not_source (platform : string) :
  platformNode_name capitalize platform <> "Content Source".
Proof. unfold platformNode_name. simpl. discriminate. Qed.

Lemma nd_name_platformNode (platform : string) (x : Z) :
  nd_name (platformNode toLowerCase capitalize platform x)
  = platformNode_name capitalize platform.
Proof.
  unfold platformNode.
  destruct (String.eqb _ "twitter" || String.eqb _ "x"); [reflexivity|].
  destruct (String.eqb _ "linkedin"); [reflexivity|].
  destruct (String.eqb _ "facebook"); reflexivity.
Qed.

(** The platform loop, started with an own key as the last node name:
    it does not throw; a key that is no platform node's name receives at
    most the connection to the first platform, and that only if it is the
    last node name at the start; every platform's node is connected to
    the node of the platform after it. *)
Lemma for_platforms_chain (platforms : list string) :
  forall st,
    Js.inherited (lastNodeName st) = false ->
    exists st',
      for_platforms toLowerCase capitalize platforms st = inr st'
      /\ (forall k, k ∉ map (platformNode_name capitalize) platforms ->
                    targets (ls_main st') k
                    = (targets (ls_main st) k
                       ++ match platforms with
                          | first :: _ =>
                              if decide (k = lastNodeName st)
                              then [to_platform capitalize first] else []
                          | [] => []
                          end)%list)
      /\ (forall k x, x ∈ targets (ls_main st) k -> x ∈ targets (ls_main st') k)
      /\ (forall i p q,
             platforms !! i = Some p -> platforms !! S i = Some q ->
             to_platform capitalize q
             ∈ targets (ls_main st') (platformNode_name capitalize p))
      /\ (forall p, platforms !! 0%nat = Some p ->
                    to_platform capitalize p ∈ targets (ls_main st') (lastNodeName st)).
Proof.
  induction platforms as [|p rest IH]; intros st Hlast.
  - exists st. split; [reflexivity|]. split; [|split; [|split]].
    + intros k _. rewrite app_nil_r. reflexivity.
    + auto.
    + intros i p q H. inversion H.
    + intros p H. inversion H.
  - cbn [for_platforms]. unfold add_platform.
    rewrite nd_name_platformNode.
    destruct (push_connection_own (ls_main st) (Some (lastNodeName st))
                (to_platform capitalize p) Hlast) as (m1 & Hm1 & Hmine & Hother & _).
    cbn [Js.property_key] in Hmine, Hother.
    unfold to_platform in Hm1. rewrite Hm1. cbn [Js.bind Js.ret].
    match goal with
    | |- context [for_platforms toLowerCase capitalize rest ?s] => set (st1 := s)
    end.
    destruct (IH st1 (platformNode_name_own p))
      as (st' & Hrun & Hframe & Hmono & Hchain & Hfirst).
    assert (forall k x, x ∈ targets (ls_main st) k -> x ∈ targets m1 k) as Hmono1.
    { intros k x Hx. destruct (decide (k = lastNodeName st)) as [->|Hne].
      - rewrite Hmine. apply elem_of_app. left. exact Hx.
      - rewrite Hother by exact Hne. exact Hx. }
    exists st'. split; [exact Hrun|]. split; [|split; [|split]].
    + intros k Hk.
      assert (k <> platformNode_name capitalize p) as Hkp
          by (intros ->; apply Hk; simpl; left).
      assert (k ∉ map (platformNode_name capitalize) rest) as Hkrest
          by (intros Hin; apply Hk; simpl; right; exact Hin).
      rewrite (Hframe k Hkrest). cbn [ls_main lastNodeName st1].
      assert (match rest with
              | first :: _ =>
                  if decide (k = platformNode_name capitalize p)
                  then [to_platform capitalize first] else []
              | [] => []
              end = []) as ->.
      { destruct rest; [reflexivity|]. destruct (decide _); [contradiction|reflexivity]. }
      rewrite app_nil_r.
      destruct (decide (k = lastNodeName st)) as [->|Hne].
      * exact Hmine.
      * rewrite Hother by exact Hne. rewrite app_nil_r. reflexivity.
    + intros k x Hx. apply Hmono. cbn [ls_main st1]. apply Hmono1, Hx.
    + intros [|i] p' q Hi HSi.
      * simpl in Hi. inversion Hi; subst p'. apply Hfirst. exact HSi.
      * apply (Hchain i p' q); assumption.
    + intros p' Hp'. simpl in Hp'. inversion Hp'; subst p'.
      apply Hmono. cbn [ls_main st1]. rewrite Hmine.
      apply elem_of_app. right. apply list_elem_of_singleton. reflexivity.
Qed.

Variable StoredWorkflow : Type.
Variable createWorkflow : WorkflowData -> Js.Result StoredWorkflow.

(** C3 (as the code has it).  For a request with a name and at least two
    platforms the workflow data handed to the API chains the platform
    nodes one after another: the content source is connected to the node
    of the first platform only, and the node of each platform to the node
    of the platform after it. *)
Theorem platforms_are_chained (input : CreateSocialPostWorkflowInput)
    (platforms : list string) :
  Js.truthy_opt (SocialPost.name input) = true ->
  SocialPost.platforms input = Some platforms ->
  (2 <= length platforms)%nat ->
  exists workflowData first,
    sent _ (createSocialPostWorkflow toLowerCase capitalize _ createWorkflow input)
    = [workflowData]
    /\ platforms !! 0%nat = Some first
    /\ targets (conn_main (wd_connections workflowData)) "Content Source"
       = [to_platform capitalize first]
    /\ (forall i p q,
           platforms !! i = Some p -> platforms !! S i = Some q ->
           to_platform capitalize q
           ∈ targets (conn_main (wd_connections workflowData))
               (platformNode_name capitalize p)).
Proof.
  intros Hname Hplatforms Hlen.
  destruct platforms as [|first rest]; [simpl in Hlen; lia|].
  unfold createSocialPostWorkflow. rewrite Hname, Hplatforms.
  cbn [negb default from_option Datatypes.id].
  change (Nat.eqb (length (first :: rest)) 0) with false. cbv iota.
  unfold build_workflowData.
  match goal with
  | |- context [for_platforms toLowerCase capitalize (first :: rest) ?s] => set (st0 := s)
  end.
  destruct (for_platforms_chain (first :: rest) st0 eq_refl)
    as (st' & Hrun & Hframe & _ & Hchain & _).
  rewrite Hrun. cbn [Js.bind Js.ret].
  match goal with
  | |- context [createWorkflow ?w] => set (workflowData := w)
  end.
  exists workflowData, first.
  split; [destruct (createWorkflow workflowData); reflexivity|].
  split; [reflexivity|]. split.
  - cbn [workflowData wd_connections conn_main].
    rewrite Hframe.
    + cbn [st0 ls_main lastNodeName]. reflexivity.
    + intros Hin. apply list_elem_of_fmap in Hin as (p & Hp & _).
      symmetry in Hp. exact (platformNode_name_not_source p Hp).
  - exact Hchain.
Qed.

End SocialPosting.

Lemma platforms_are_chained_witness :
  exists workflowData first,
    SocialPost.sent _ (SocialPost.createSocialPostWorkflow Js.toLowerCase
                         Notions.capitalize_ascii _ Notions.store
                         Notions.two_platforms) = [workflowData]
    /\ ["twitter"; "linkedin"] !! 0%nat = Some first
    /\ Notions.targets (Schemas.conn_main (Schemas.wd_connections workflowData))
         "Content Source" = [Notions.to_platform Notions.capitalize_ascii first]
    /\ (forall i p q,
           ["twitter"; "linkedin"] !! i = Some p ->
           ["twitter"; "linkedin"] !! S i = Some q ->
           (Notions.to_platform Notions.capitalize_ascii q)
           ∈ (Notions.targets (Schemas.conn_main (Schemas.wd_connections workflowData))
                (SocialPost.platformNode_name Notions.capitalize_ascii p))).
Proof.
  apply (platforms_are_chained Js.toLowerCase Notions.capitalize_ascii _
           Notions.store Notions.two_platforms
           ["twitter"; "linkedin"]).
  - reflexivity.
  - reflexivity.
  - simpl. lia.
Defined.

(** C3, counterexample to the claim as written: for the platforms twitter
    and linkedin the content source has a single outgoing connection, to
    the twitter node; the linkedin node is fed by the twitter node. *)
Lemma fan_out_counterexample :
  exists workflowData,
    SocialPost.sent _ (SocialPost.createSocialPostWorkflow Js.toLowerCase
                         Notions.capitalize_ascii _ Notions.store
                         Notions.two_platforms) = [workflowData]
    /\ Notions.targets (Schemas.conn_main (Schemas.wd_connections workflowData))
         "Content Source"
       = [ {| Schemas.node := Some "Post to Twitter";
              Schemas.conn_type := "main"; Schemas.index := 0 |} ]
    /\ Notions.targets (Schemas.conn_main (Schemas.wd_connections workflowData))
         "Post to Twitter"
       = [ {| Schemas.node := Some "Post to Linkedin";
              Schemas.conn_type := "main"; Schemas.index := 0 |} ].
Proof.
  eexists. split; [reflexivity|]. split; vm_compute; reflexivity.
Qed.

Section TemplateApplication.
Import Schemas ApplyTemplate Notions.

Lemma select_template_unknown (template_id name : string) parameters :
  template_id ∉ template_ids ->
  select_template template_id name parameters = None.
Proof.
  intros Hunknown. unfold select_template.
  repeat match goal with
         | |- context [String.eqb template_id ?known] =>
             destruct (String.eqb_spec template_id known) as [->|_];
             [exfalso; apply Hunknown; unfold template_ids;
              repeat first [apply list_elem_of_here | apply list_elem_of_further]|]
         end.
  reflexivity.
Qed.

Variable StoredWorkflow : Type.
Variable createWorkflow : WorkflowData -> Js.Result StoredWorkflow.

(** C8 (as the code has it).  A request whose template identifier is not
    one of the known templates hands nothing to the API client and is
    answered with an error; when the identifier and the workflow name are
    both non-empty, it is the not-found error that quotes the identifier. *)
Theorem unknown_template_is_rejected (input : ApplyTemplateInput) :
  (forall known, template_id input = Some known -> known ∉ template_ids) ->
  sent _ (applyTemplate _ createWorkflow input) = []
  /\ (exists message, result _ (applyTemplate _ createWorkflow input)
                      = Failed _ message)
  /\ (forall unknown,
         template_id input = Some unknown ->
         Js.truthy unknown = true ->
         Js.truthy_opt (ApplyTemplate.name input) = true ->
         result _ (applyTemplate _ createWorkflow input)
         = Failed _ (Js.Text (not_found_text unknown))).
Proof.
  intros Hunknown. unfold applyTemplate.
  destruct (template_id input) as [tid|] eqn:Htid; cbn [Js.truthy_opt].
  - destruct (Js.truthy tid) eqn:Htruthy; cbn [negb].
    + destruct (Js.truthy_opt (ApplyTemplate.name input)) eqn:Hname; cbn [negb].
      * cbn [default from_option Datatypes.id].
        rewrite select_template_unknown by (apply Hunknown; reflexivity).
        split; [reflexivity|]. split; [eexists; reflexivity|].
        intros unknown Heq _ _. inversion Heq; subst. reflexivity.
      * split; [reflexivity|]. split; [eexists; reflexivity|].
        intros unknown _ _ Hcontra. discriminate Hcontra.
    + split; [reflexivity|]. split; [eexists; reflexivity|].
      intros unknown Heq Hcontra _. inversion Heq; subst. congruence.
  - split; [reflexivity|]. split; [eexists; reflexivity|].
    intros unknown Heq. discriminate Heq.
Qed.

End TemplateApplication.

Lemma unknown_template_is_rejected_witness :
  ApplyTemplate.sent _ (ApplyTemplate.applyTemplate _ Notions.store
                          Notions.unknown_template_named) = []
  /\ (exists message,
         ApplyTemplate.result _ (ApplyTemplate.applyTemplate _ Notions.store
                                   Notions.unknown_template_named)
         = ApplyTemplate.Failed _ message)
  /\ (forall unknown,
         ApplyTemplate.template_id Notions.unknown_template_named = Some unknown ->
         Js.truthy unknown = true ->
         Js.truthy_opt (ApplyTemplate.name Notions.unknown_template_named) = true ->
         ApplyTemplate.result _ (ApplyTemplate.applyTemplate _ Notions.store
                                   Notions.unknown_template_named)
         = ApplyTemplate.Failed _ (Js.Text (Notions.not_found_text unknown))).
Proof.
  apply (unknown_template_is_rejected _ Notions.store Notions.unknown_template_named).
  intros known Hknown. inversion Hknown; subst. vm_compute.
  intros Hin. each_member Hin ltac:(discriminate Hin).
Defined.

(** C8, counterexample to the claim as written: a request for an unknown
    template whose workflow name is empty is answered with the
    required-name error, not with the not-found error. *)
Lemma unknown_template_counterexample :
  ApplyTemplate.result _ (ApplyTemplate.applyTemplate _ Notions.store
                            Notions.unknown_template_unnamed)
  = ApplyTemplate.Failed _ (Js.Text "Workflow name is required")
  /\ ("unknown-template-id" ∉ ApplyTemplate.template_ids)
  /\ "Workflow name is required" <> Notions.not_found_text "unknown-template-id".
Proof.
  split; [reflexivity|]. split.
  - unfold ApplyTemplate.template_ids. intros Hin.
    each_member Hin ltac:(discriminate Hin).
  - vm_compute. discriminate.
Qed.

(** * Further properties of the generator *)

Section WiringInvariants.
Import Schemas NodeDefinitions Generator Notions.

(** Whatever the node types, the loop adds at most one target entry per
    step it can take, and every entry it adds is stored under the key of a
    node of the list and targets the display name of a node of the list. *)
Lemma connect_from_invariant (nodes : list N8nNode) :
  Forall own_key nodes ->
  forall c, exists c',
    connect_from nodes c = inr c'
    /\ (total_targets c' <= total_targets c + (length nodes - 1))%nat
    /\ (forall k x, x ∈ targets c' k ->
                    x ∈ targets c k
                    \/ (k ∈ map key_of nodes /\ node x ∈ map name nodes)).
Proof.
  induction nodes as [| n | cur next after IHafter IHnext] using list_ind_two;
    intros Hown c.
  - exists c. split; [reflexivity|]. split; [simpl; lia | auto].
  - exists c. split; [reflexivity|]. split; [simpl; lia | auto].
  - apply Forall_cons in Hown as [Hcur Hrest].
    pose proof Hrest as Hrest'. apply Forall_cons in Hrest' as [_ Hafter].
    assert (forall c0 c1 target (i : nat),
               targets c1 (Js.property_key (name cur))
               = (targets c0 (Js.property_key (name cur)) ++ [connection_to target i])%list ->
               (forall k, k <> Js.property_key (name cur) -> targets c1 k = targets c0 k) ->
               forall k x, x ∈ targets c1 k ->
                           x ∈ targets c0 k
                           \/ (k = key_of cur /\ x = connection_to target i)) as Hpush.
    { intros c0 c1 target i Hmine Hother k x Hx.
      destruct (decide (k = Js.property_key (name cur))) as [->|Hne].
      - rewrite Hmine in Hx. apply elem_of_app in Hx as [Hx|Hx]; [left; exact Hx|].
        apply list_elem_of_singleton in Hx. right. split; [reflexivity | exact Hx].
      - rewrite Hother in Hx by exact Hne. left. exact Hx. }
    destruct (has_outputs cur) eqn:Ho.
    + destruct (is_branch cur) eqn:Hb.
      * destruct after as [|second after'].
        -- rewrite connect_from_branch_last by assumption.
           destruct (push_connection_own c (name cur) (connection_to next 0) Hcur)
             as (c1 & -> & Hmine & Hother & Htotal).
           exists c1. split; [reflexivity|]. split; [simpl; lia|].
           intros k x Hx.
           destruct (Hpush c c1 next 0%nat Hmine Hother k x Hx) as [Hold|[-> ->]];
             [left; exact Hold | right].
           split; [simpl; left | simpl; right; left].
        -- rewrite connect_from_branch by assumption.
           destruct (push_connection_own c (name cur) (connection_to next 0) Hcur)
             as (c1 & -> & Hmine1 & Hother1 & Htotal1).
           cbn [Js.bind].
           destruct (push_connection_own c1 (name cur) (connection_to second 1) Hcur)
             as (c2 & -> & Hmine2 & Hother2 & Htotal2).
           cbn [Js.bind].
           destruct (IHafter Hafter c2) as (c3 & Hc3 & Htotal3 & Hclosed).
           exists c3. split; [exact Hc3|]. split; [cbn [length] in *; lia|].
           intros k x Hx.
           destruct (Hclosed k x Hx) as [Hx2|[Hk Hn]].
           ++ destruct (Hpush c1 c2 second 1%nat Hmine2 Hother2 k x Hx2)
                as [Hx1|[-> ->]].
              ** destruct (Hpush c c1 next 0%nat Hmine1 Hother1 k x Hx1)
                   as [Hold|[-> ->]]; [left; exact Hold | right].
                 split; [simpl; left | simpl; right; left].
              ** right. split; [simpl; left | simpl; right; right; left].
           ++ right. split; simpl; right; right; assumption.
      * rewrite connect_from_plain by assumption.
        destruct (push_connection_own c (name cur) (connection_to next 0) Hcur)
          as (c1 & -> & Hmine & Hother & Htotal).
        cbn [Js.bind].
        destruct (IHnext Hrest c1) as (c2 & Hc2 & Htotal2 & Hclosed).
        exists c2. split; [exact Hc2|]. split; [cbn [length] in *; lia|].
        intros k x Hx.
        destruct (Hclosed k x Hx) as [Hx1|[Hk Hn]].
        -- destruct (Hpush c c1 next 0%nat Hmine Hother k x Hx1) as [Hold|[-> ->]];
             [left; exact Hold | right].
           split; [simpl; left | simpl; right; left].
        -- right. split; simpl; right; assumption.
    + rewrite connect_from_skip by assumption.
      destruct (IHnext Hrest c) as (c1 & Hc1 & Htotal1 & Hclosed).
      exists c1. split; [exact Hc1|]. split; [cbn [length] in *; lia|].
      intros k x Hx.
      destruct (Hclosed k x Hx) as [Hold|[Hk Hn]]; [left; exact Hold | right].
      split; simpl; right; assumption.
Qed.

Lemma targets_empty (k : string) : targets ∅ k = [].
Proof. unfold targets. rewrite lookup_empty. reflexivity. Qed.

Lemma find_node_by_name (nodes : list N8nNode) (target : option string) :
  target ∈ map name nodes -> find_node nodes target = true.
Proof.
  intros Hin. apply list_elem_of_fmap in Hin as (n & -> & Hn).
  unfold find_node. apply existsb_exists. exists n.
  split; [apply list_elem_of_In, Hn|].
  unfold Js.strict_eq. apply bool_decide_eq_true_2. reflexivity.
Qed.

(** X1. Whatever the types of the nodes, [createConnections] only records
    connections between nodes of the list: every entry is stored under the
    key of one of the nodes and targets the display name of one of them. *)
Theorem createConnections_stays_inside (nodes : list N8nNode) :
  Forall own_key nodes ->
  exists c,
    createConnections nodes = inr c
    /\ forall k entry x,
        conn_main c !! k = Some entry -> x ∈ main entry ->
        (exists source, source ∈ nodes /\ key_of source = k)
        /\ find_node nodes (node x) = true.
Proof.
  intros Hown.
  destruct (connect_from_invariant nodes Hown ∅) as (c & Hc & _ & Hclosed).
  exists {| conn_main := c |}. split.
  - unfold createConnections. rewrite Hc. reflexivity.
  - cbn [conn_main]. intros k entry x Hentry Hx.
    destruct (Hclosed k x) as [Hold|[Hk Hn]].
    + unfold targets. rewrite Hentry. exact Hx.
    + rewrite targets_empty in Hold. inversion Hold.
    + split; [|apply find_node_by_name, Hn].
      apply list_elem_of_fmap in Hk as (source & -> & Hsource). eauto.
Qed.

Lemma createConnections_stays_inside_witness :
  exists c,
    createConnections [node_of start_def "start_1" 100;
                       node_of if_def "if_2" 300;
                       node_of set_def "set_3" 500] = inr c
    /\ forall k entry x,
        conn_main c !! k = Some entry -> x ∈ main entry ->
        (exists source,
            source ∈ [node_of start_def "start_1" 100;
                      node_of if_def "if_2" 300;
                      node_of set_def "set_3" 500]
            /\ key_of source = k)
        /\ find_node [node_of start_def "start_1" 100;
                      node_of if_def "if_2" 300;
                      node_of set_def "set_3" 500] (node x) = true.
Proof.
  apply (createConnections_stays_inside
           [node_of start_def "start_1" 100; node_of if_def "if_2" 300;
            node_of set_def "set_3" 500]).
  repeat constructor.
Defined.

(** X2. Whatever the types of the nodes, the connections map of a list of
    [len] nodes holds at most [len - 1] target entries. *)
Theorem createConnections_at_most_one_per_step (nodes : list N8nNode) :
  Forall own_key nodes ->
  exists c,
    createConnections nodes = inr c
    /\ (total_targets (conn_main c) <= length nodes - 1)%nat.
Proof.
  intros Hown.
  destruct (connect_from_invariant nodes Hown ∅) as (c & Hc & Htotal & _).
  exists {| conn_main := c |}. split.
  - unfold createConnections. rewrite Hc. reflexivity.
  - cbn [conn_main]. unfold total_targets in Htotal at 2.
    rewrite map_to_list_empty in Htotal. simpl in Htotal. exact Htotal.
Qed.

Lemma createConnections_at_most_one_per_step_witness :
  exists c,
    createConnections [node_of start_def "start_1" 100;
                       node_of if_def "if_2" 300;
                       node_of set_def "set_3" 500;
                       node_of slack_def "slack_4" 700] = inr c
    /\ (total_targets (conn_main c) <= 4 - 1)%nat.
Proof.
  apply (createConnections_at_most_one_per_step
           [node_of start_def "start_1" 100; node_of if_def "if_2" 300;
            node_of set_def "set_3" 500; node_of slack_def "slack_4" 700]).
  repeat constructor.
Defined.

End WiringInvariants.

Section RequiredNodes.
Import Schemas NodeDefinitions Generator Notions.

Local Abbreviation add_explicit :=
  (fold_left (fun nodes node => if mem node nodes then nodes else (nodes ++ [node])%list)).

Lemma add_explicit_spec (explicit : list string) :
  forall base : list string,
    NoDup base ->
    NoDup (add_explicit explicit base)
    /\ (exists added, add_explicit explicit base = (base ++ added)%list)
    /\ (forall n, n ∈ add_explicit explicit base <-> n ∈ base \/ n ∈ explicit).
Proof.
  induction explicit as [|node rest IH]; intros base Hbase; cbn [fold_left].
  - split; [exact Hbase|]. split; [exists []; rewrite app_nil_r; reflexivity|].
    intros n. split; [auto|]. intros [H|H]; [exact H | inversion H].
  - destruct (mem node base) eqn:Hmem; unfold mem in Hmem.
    + apply bool_decide_eq_true_1 in Hmem.
      destruct (IH base Hbase) as (Hnodup & Hprefix & Hiff).
      split; [exact Hnodup|]. split; [exact Hprefix|].
      intros n. rewrite Hiff. split.
      * intros [H|H]; [left; exact H | right; right; exact H].
      * intros [H|H]; [left; exact H|].
        apply elem_of_cons in H as [->|H]; [left; exact Hmem | right; exact H].
    + apply bool_decide_eq_false_1 in Hmem.
      assert (NoDup (base ++ [node])) as Hbase'.
      { apply NoDup_app. split; [exact Hbase|]. split; [|apply NoDup_singleton].
        intros x Hx Hx'. apply list_elem_of_singleton in Hx'. subst. contradiction. }
      destruct (IH (base ++ [node])%list Hbase') as (Hnodup & [added Hadded] & Hiff).
      split; [exact Hnodup|]. split.
      * exists (node :: added). rewrite Hadded, <- app_assoc. reflexivity.
      * intros n. rewrite Hiff, elem_of_app, list_elem_of_singleton, elem_of_cons.
        tauto.
Qed.

(** X3. The list of node types [determineRequiredNodes] answers always starts
    with a trigger type (the schedule trigger when the operations include
    [schedule], the start node otherwise), never holds a type twice, and
    holds every explicitly required type. *)
Theorem determineRequiredNodes_trigger_first
    (requirements : WorkflowRequirements) (explicitNodes : option (list string)) :
  (exists rest,
      determineRequiredNodes requirements explicitNodes
      = (if mem "schedule" (operations requirements)
         then "n8n-nodes-base.scheduleTrigger" else "n8n-nodes-base.start") :: rest)
  /\ NoDup (determineRequiredNodes requirements explicitNodes)
  /\ (forall n, n ∈ default [] explicitNodes ->
                n ∈ determineRequiredNodes requirements explicitNodes).
Proof.
  unfold determineRequiredNodes. cbv zeta.
  match goal with
  | |- context [fold_left _ _ ?b] =>
      assert (NoDup b) as Hbase;
      [| destruct (add_explicit_spec (default [] explicitNodes) b Hbase)
           as (Hnodup & [added Hadded] & Hiff)]
  end.
  - repeat match goal with
           | |- context [if ?c then _ else _] => destruct c
           end;
      cbn [app]; refine (bool_decide_unpack _ _); vm_compute; exact I.
  - split; [|split].
    + rewrite Hadded. cbn [app]. eexists. reflexivity.
    + exact Hnodup.
    + intros n Hn. apply Hiff. right. exact Hn.
Qed.

End RequiredNodes.

Section SequentialPath.
Import Schemas NodeDefinitions Generator Notions.

Variable parseWorkflowRequirements : string -> Js.Result WorkflowRequirements.
Variable apiUrlMatch : string -> option string.
Variable templateNodes :
  string -> WorkflowRequirements -> option (Js.Result (list N8nNode)).
Variable generateExplanations :
  N8nWorkflow -> WorkflowRequirements -> Js.Result (gmap string string).
Variable generateSetupInstructions : N8nWorkflow -> Js.Result string.

Lemma determineRequiredNodes_head
    (requirements : WorkflowRequirements) (explicitNodes : option (list string)) :
  exists rest,
    determineRequiredNodes requirements explicitNodes
    = (if mem "schedule" (operations requirements)
       then "n8n-nodes-base.scheduleTrigger" else "n8n-nodes-base.start") :: rest.
Proof.
  unfold determineRequiredNodes. cbv zeta.
  match goal with
  | |- context [fold_left ?f ?l ?b] =>
      assert (forall l' b', exists added, fold_left f l' b' = (b' ++ added)%list) as Hfold
  end.
  { induction l' as [|node rest IH]; intros b'; cbn [fold_left].
    - exists []. rewrite app_nil_r. reflexivity.
    - destruct (mem node b').
      + apply IH.
      + destruct (IH (b' ++ [node])%list) as [added ->].
        exists (node :: added). rewrite <- app_assoc. reflexivity. }
  match goal with
  | |- context [fold_left _ ?l ?b] => destruct (Hfold l b) as [added ->]
  end.
  cbn [app]. eexists. reflexivity.
Qed.

Lemma built_type_trigger (scheduled : bool) :
  built_type (if scheduled then "n8n-nodes-base.scheduleTrigger"
              else "n8n-nodes-base.start")
  = Some (Some (if scheduled then "n8n-nodes-base.scheduleTrigger"
                else "n8n-nodes-base.start")).
Proof. destruct scheduled; vm_compute; reflexivity. Qed.

(** The first node of the list the sequential builder makes of the types
    [determineRequiredNodes] answers is a trigger node. *)
Lemma sequential_starts_with_trigger
    (requirements : WorkflowRequirements) (explicitNodes : option (list string)) :
  Shapes.starts_with_trigger
    (buildSequential apiUrlMatch
       (determineRequiredNodes requirements explicitNodes) requirements).
Proof.
  pose proof (buildSequential_types apiUrlMatch requirements
                (determineRequiredNodes requirements explicitNodes)) as Htypes.
  destruct (determineRequiredNodes_head requirements explicitNodes) as [rest Hhead].
  rewrite Hhead in Htypes at 2.
  match type of Htypes with
  | _ = omap built_type (?t :: rest) =>
      change (omap built_type (t :: rest))
        with (match built_type t with
              | Some y => y :: omap built_type rest
              | None => omap built_type rest
              end) in Htypes
  end.
  rewrite built_type_trigger in Htypes.
  destruct (buildSequential apiUrlMatch
              (determineRequiredNodes requirements explicitNodes) requirements)
    as [|first others]; [discriminate Htypes|].
  injection Htypes as Htype _.
  exists first, others. eexists. split; [reflexivity|]. split; [exact Htype|].
  destruct (mem "schedule" (operations requirements)); [left | right]; reflexivity.
Qed.

Lemma starts_with_trigger_found (nodes : list N8nNode) :
  Shapes.starts_with_trigger nodes -> nodes <> [] /\ some_trigger nodes = inr true.
Proof.
  intros (first & rest & t & -> & Htype & Htrigger). split; [discriminate|].
  cbn [some_trigger]. rewrite Htype.
  destruct Htrigger as [->| ->]; [reflexivity|].
  rewrite orb_true_r. reflexivity.
Qed.

Lemma built_trigger_first
    (requirements : WorkflowRequirements) (explicitNodes : option (list string)) :
  buildSequential apiUrlMatch
    (determineRequiredNodes requirements explicitNodes) requirements <> []
  /\ some_trigger (buildSequential apiUrlMatch
                     (determineRequiredNodes requirements explicitNodes) requirements)
     = inr true.
Proof.
  apply starts_with_trigger_found, sequential_starts_with_trigger.
Qed.

(** The connections [createConnections] records for a list of nodes with
    own keys pass the connection check of [validateWorkflow]. *)
Lemma createConnections_checked (nodes : list N8nNode) :
  Forall own_key nodes ->
  exists c,
    createConnections nodes = inr c
    /\ check_sources nodes (map_to_list (conn_main c)) = inr tt.
Proof.
  intros Hown.
  destruct (connect_from_invariant nodes Hown ∅) as (c & Hc & _ & Hclosed).
  exists {| conn_main := c |}. split.
  - unfold createConnections. rewrite Hc. reflexivity.
  - cbn [conn_main].
    destruct (check_sources_spec nodes (map_to_list c))
      as [[Hok _] | (k & entry & x & Hin & Hx & Hmiss & _)]; [exact Hok|].
    exfalso. apply elem_of_map_to_list in Hin.
    destruct (Hclosed k x) as [Hold|[_ Hn]].
    + unfold targets. rewrite Hin. exact Hx.
    + rewrite targets_empty in Hold. inversion Hold.
    + rewrite (find_node_by_name nodes (node x) Hn) in Hmiss. discriminate.
Qed.

(** [validateWorkflow] returns on a workflow with a name, a node, a
    trigger node found and connections that pass the connection check. *)
Lemma validateWorkflow_of_checked (workflow : N8nWorkflow) :
  Js.truthy (wf_name workflow) = true ->
  nodes workflow <> [] ->
  some_trigger (nodes workflow) = inr true ->
  check_sources (nodes workflow) (map_to_list (conn_main (connections workflow)))
  = inr tt ->
  validateWorkflow workflow = inr tt.
Proof.
  intros Hname Hnodes Htrigger Hchecked. unfold validateWorkflow.
  rewrite Hname. cbn [negb].
  destruct (nodes workflow) as [|n ns]; [congruence|].
  cbn [length Nat.eqb]. rewrite Htrigger. cbn [Js.bind negb]. exact Hchecked.
Qed.

(** X4. Built one by one and wired, the nodes of the types
    [determineRequiredNodes] answers always make a workflow that passes
    [validateWorkflow], whenever the name is not empty: whatever the
    operations, the description and the explicitly required types are,
    the wiring does not throw, a trigger node is found and no connection
    points to a missing node. *)
Theorem sequential_workflow_validates
    (requirements : WorkflowRequirements) (explicitNodes : option (list string))
    (description : string) (isActive : bool) (workflowSettings : Settings) :
  Js.truthy (req_name requirements) = true ->
  exists c,
    createConnections
      (buildSequential apiUrlMatch
         (determineRequiredNodes requirements explicitNodes) requirements) = inr c
    /\ validateWorkflow
         {| wf_name := req_name requirements;
            wf_description := description;
            nodes := buildSequential apiUrlMatch
                       (determineRequiredNodes requirements explicitNodes) requirements;
            connections := c;
            active := isActive;
            settings := workflowSettings |} = inr tt.
Proof.
  intros Hname.
  destruct (createConnections_checked _
              (buildSequential_own_keys apiUrlMatch requirements
                 (determineRequiredNodes requirements explicitNodes)))
    as (c & Hc & Hchecked).
  destruct (built_trigger_first requirements explicitNodes) as [Hnodes Htrigger].
  exists c. split; [exact Hc|].
  apply validateWorkflow_of_checked; assumption.
Qed.

Local Abbreviation generate :=
  (generateWorkflow parseWorkflowRequirements apiUrlMatch templateNodes
     generateExplanations generateSetupInstructions).

Local Abbreviation generate_try :=
  (generateWorkflow_try parseWorkflowRequirements apiUrlMatch templateNodes
     generateExplanations generateSetupInstructions).

Local Abbreviation effective parsed input :=
  (match in_complexity input with
   | Some c => with_complexity parsed c
   | None => parsed
   end).

Lemma createNodeStructure_sequential (parsed : WorkflowRequirements)
    (input : WorkflowGenerationInput) (nodeTypes : list string) :
  (forall tid r, templateId parsed = Some tid -> templateNodes tid r = None) ->
  createNodeStructure apiUrlMatch templateNodes nodeTypes (effective parsed input)
  = inr (buildSequential apiUrlMatch nodeTypes (effective parsed input)).
Proof.
  intros Hnone. unfold createNodeStructure.
  assert (templateId (effective parsed input) = templateId parsed) as ->
    by (destruct (in_complexity input); reflexivity).
  destruct (templateId parsed) as [tid|] eqn:Htid; [|reflexivity].
  destruct (Js.truthy tid); [|reflexivity].
  rewrite (Hnone tid _ eq_refl). reflexivity.
Qed.

(** X5. When no template generator exists for the requirements parsed from
    the description and the parsed name is not empty, generation cannot
    fail before the texts are produced: the workflow of the types
    [determineRequiredNodes] answers is built, wired and validated, and
    the result is whatever the two text generators make of it. *)
Theorem generateWorkflow_sequential_reaches_texts
    (input : WorkflowGenerationInput) (description : string)
    (parsed : WorkflowRequirements) :
  in_description input = Some description ->
  Js.truthy description = true ->
  parseWorkflowRequirements description = inr parsed ->
  (forall tid r, templateId parsed = Some tid -> templateNodes tid r = None) ->
  Js.truthy (req_name parsed) = true ->
  exists workflow,
    nodes workflow
    = buildSequential apiUrlMatch
        (determineRequiredNodes (effective parsed input) (requiredNodes input))
        (effective parsed input)
    /\ validateWorkflow workflow = inr tt
    /\ generate_try input
       = (do explanations <- generateExplanations workflow (effective parsed input) ;
          do setupInstructions <-
            (if includeCredentials input
             then do text <- generateSetupInstructions workflow ; Js.ret (Some text)
             else Js.ret None) ;
          Js.ret (Data workflow explanations setupInstructions)).
Proof.
  intros Hd Htruthy Hparse Hnone Hname.
  assert (Js.truthy (req_name (effective parsed input)) = true) as Hname'
    by (destruct (in_complexity input); exact Hname).
  destruct (createConnections_checked _
              (buildSequential_own_keys apiUrlMatch (effective parsed input)
                 (determineRequiredNodes (effective parsed input) (requiredNodes input))))
    as (c & Hc & Hchecked).
  destruct (built_trigger_first (effective parsed input) (requiredNodes input))
    as [Hnodes Htrigger].
  match goal with
  | |- exists workflow, _ /\ _ /\ _ = Js.bind (_ workflow ?r) _ =>
      set (workflow :=
             {| wf_name := req_name r;
                wf_description := req_description r;
                nodes := buildSequential apiUrlMatch
                           (determineRequiredNodes r (requiredNodes input)) r;
                connections := c;
                active := false;
                settings := {| executionOrder := Some "v1";
                               saveExecutionProgress := true;
                               saveManualExecutions := true |} |})
  end.
  assert (validateWorkflow workflow = inr tt) as Hvalid
    by (apply validateWorkflow_of_checked; assumption).
  exists workflow. split; [reflexivity|]. split; [exact Hvalid|].
  unfold generateWorkflow_try. rewrite Hd. cbn [Js.truthy_opt]. rewrite Htruthy.
  cbn [negb default from_option Datatypes.id]. rewrite Hparse. cbn [Js.bind].
  rewrite (createNodeStructure_sequential parsed input _ Hnone). cbn [Js.bind].
  rewrite Hc. cbn [Js.bind]. fold workflow. rewrite Hvalid. cbn [Js.bind].
  reflexivity.
Qed.

(** X6. When no template generator exists for the requirements parsed from
    the description and the parsed name is empty, [generateWorkflow]
    answers the error [Workflow must have a name], whatever else the
    description and the input ask for. *)
Theorem generateWorkflow_nameless
    (input : WorkflowGenerationInput) (description : string)
    (parsed : WorkflowRequirements) :
  in_description input = Some description ->
  Js.truthy description = true ->
  parseWorkflowRequirements description = inr parsed ->
  (forall tid r, templateId parsed = Some tid -> templateNodes tid r = None) ->
  req_name parsed = "" ->
  generate input = Failed (Js.Text "Workflow must have a name").
Proof.
  intros Hd Htruthy Hparse Hnone Hname.
  assert (req_name (effective parsed input) = "") as Hname'
    by (destruct (in_complexity input); exact Hname).
  destruct (createConnections_checked _
              (buildSequential_own_keys apiUrlMatch (effective parsed input)
                 (determineRequiredNodes (effective parsed input) (requiredNodes input))))
    as (c & Hc & _).
  unfold generateWorkflow, generateWorkflow_try. rewrite Hd. cbn [Js.truthy_opt].
  rewrite Htruthy. cbn [negb default from_option Datatypes.id].
  rewrite Hparse. cbn [Js.bind].
  rewrite (createNodeStructure_sequential parsed input _ Hnone). cbn [Js.bind].
  rewrite Hc. cbn [Js.bind]. unfold validateWorkflow. cbn [wf_name].
  rewrite Hname'. reflexivity.
Qed.

End SequentialPath.

Lemma sequential_workflow_validates_witness :
  exists c,
    Generator.createConnections
      (Generator.buildSequential (fun _ => None)
         (Generator.determineRequiredNodes (Notions.example_requirements "get the data")
            (Some ["n8n-nodes-base.if"; "n8n-nodes-base.slack"]))
         (Notions.example_requirements "get the data")) = inr c
    /\ Generator.validateWorkflow
         {| Schemas.wf_name := "Generated Workflow";
            Schemas.wf_description := "get the data";
            Schemas.nodes :=
              Generator.buildSequential (fun _ => None)
                (Generator.determineRequiredNodes
                   (Notions.example_requirements "get the data")
                   (Some ["n8n-nodes-base.if"; "n8n-nodes-base.slack"]))
                (Notions.example_requirements "get the data");
            Schemas.connections := c;
            Schemas.active := false;
            Schemas.settings := {| Schemas.executionOrder := Some "v1";
                                   Schemas.saveExecutionProgress := true;
                                   Schemas.saveManualExecutions := true |} |} = inr tt.
Proof.
  apply (sequential_workflow_validates (fun _ => None)
           (Notions.example_requirements "get the data")
           (Some ["n8n-nodes-base.if"; "n8n-nodes-base.slack"])
           "get the data" false
           {| Schemas.executionOrder := Some "v1";
              Schemas.saveExecutionProgress := true;
              Schemas.saveManualExecutions := true |}).
  reflexivity.
Defined.

Lemma generateWorkflow_sequential_reaches_texts_witness :
  exists workflow,
    Schemas.nodes workflow
    = Generator.buildSequential (fun _ => None)
        (Generator.determineRequiredNodes
           (Notions.example_requirements "get the data")
           (Some ["n8n-nodes-base.set"]))
        (Notions.example_requirements "get the data")
    /\ Generator.validateWorkflow workflow = inr tt
    /\ Generator.generateWorkflow_try
         (fun d => Js.ret (Notions.example_requirements d)) (fun _ => None)
         (fun _ _ => None) (fun _ _ => Js.ret ∅) (fun _ => Js.ret "")
         Notions.example_input
       = inr (Generator.Data workflow ∅ None).
Proof.
  apply (generateWorkflow_sequential_reaches_texts
           (fun d => Js.ret (Notions.example_requirements d)) (fun _ => None)
           (fun _ _ => None) (fun _ _ => Js.ret ∅) (fun _ => Js.ret "")
           Notions.example_input "get the data"
           (Notions.example_requirements "get the data"));
    [reflexivity | reflexivity | reflexivity | intros; reflexivity | reflexivity].
Defined.

Lemma generateWorkflow_nameless_witness :
  Generator.generateWorkflow
    (fun d => Js.ret (Examples.nameless_requirements d)) (fun _ => None)
    (fun _ _ => None) (fun _ _ => Js.ret ∅) (fun _ => Js.ret "")
    Examples.nameless_input
  = Generator.Failed (Js.Text "Workflow must have a name").
Proof.
  apply (generateWorkflow_nameless
           (fun d => Js.ret (Examples.nameless_requirements d)) (fun _ => None)
           (fun _ _ => None) (fun _ _ => Js.ret ∅) (fun _ => Js.ret "")
           Examples.nameless_input "workflow to  "
           (Examples.nameless_requirements "workflow to  "));
    [reflexivity | reflexivity | reflexivity | intros; reflexivity | reflexivity].
Defined.

Section NodeIdentifiers.
Import Schemas NodeDefinitions Generator Notions.

Variable apiUrlMatch : string -> option string.
Variable requirements : WorkflowRequirements.

(** The decimal text of a number holds no underscore. *)
Lemma pretty_N_go_no_underscore (x : N) :
  forall s,
    (forall a b, s <> a +:+ "_" +:+ b) ->
    forall a b, pretty_N_go x s <> a +:+ "_" +:+ b.
Proof.
  induction (N.lt_wf_0 x) as [x _ IH]. intros s Hs a b.
  assert (x = 0 \/ 0 < x)%N as [->|Hpos] by lia.
  - rewrite pretty_N_go_0. apply Hs.
  - rewrite pretty_N_go_step by exact Hpos. apply IH.
    + apply N.div_lt; [exact Hpos | reflexivity].
    + intros a' b' Heq. destruct a' as [|c a'].
      * injection Heq as Hc _. revert Hc. unfold pretty_N_char.
        repeat case_match; discriminate.
      * injection Heq as _ Htail. apply (Hs a' b'), Htail.
Qed.

Lemma pretty_nat_no_underscore (n : nat) (a b : string) :
  pretty n <> a +:+ "_" +:+ b.
Proof.
  unfold pretty, pretty_nat, pretty, pretty_N.
  destruct (decide (N.of_nat n = 0%N)).
  - destruct a as [|c a]; [discriminate|].
    destruct a; discriminate.
  - apply pretty_N_go_no_underscore. intros a' b'. destruct a'; discriminate.
Qed.

(** Two texts that end in an underscore followed by a number are equal
    only when the numbers are. *)
Lemma numbered_inj (a a' : string) (n n' : nat) :
  a +:+ "_" +:+ pretty n = a' +:+ "_" +:+ pretty n' -> n = n'.
Proof.
  revert a'. induction a as [|c a IH]; intros [|c' a'] Heq.
  - injection Heq as Heq. apply (inj pretty), Heq.
  - injection Heq as _ Heq. exfalso. apply (pretty_nat_no_underscore n a' (pretty n')).
    exact Heq.
  - injection Heq as _ Heq. exfalso. apply (pretty_nat_no_underscore n' a (pretty n)).
    symmetry. exact Heq.
  - injection Heq as _ Heq. apply (IH a'), Heq.
Qed.

Lemma createNodeId_inj (t t' : string) (index index' : nat) :
  createNodeId t index = createNodeId t' index' -> index = index'.
Proof. unfold createNodeId. apply numbered_inj. Qed.

(** The state of the [forEach] of [createNodeStructure] before the
    callback runs for position [index]: the identifiers given so far are
    numbered from 1 to [index] at most and pairwise distinct, and the
    next node is put 200 to the right of the last one. *)
Lemma forEach_nodeType_layout (nodeTypes : list string) :
  forall (index : nat) (state : list N8nNode * Z),
    NoDup (map id (fst state)) ->
    Forall (fun n => exists t j, id n = createNodeId t j /\ (j <= index)%nat)
           (fst state) ->
    (forall k n, fst state !! k = Some n ->
                 position n = ((100 + 200 * Z.of_nat k)%Z, 300%Z)) ->
    snd state = (100 + 200 * Z.of_nat (length (fst state)))%Z ->
    let final := forEach_nodeType apiUrlMatch requirements index nodeTypes state in
    NoDup (map id (fst final))
    /\ (forall k n, fst final !! k = Some n ->
                    position n = ((100 + 200 * Z.of_nat k)%Z, 300%Z)).
Proof.
  induction nodeTypes as [|nodeType rest IH];
    intros index [nodes x] Hnodup Hids Hpos Hx; cbn [fst snd] in *.
  - split; assumption.
  - cbn [forEach_nodeType]. unfold addNode.
    destruct (Js.get nodeDefinitions nodeType) as [definition|].
    + destruct (customize apiUrlMatch nodeType requirements)
        as [customParameters customName].
      apply IH; cbn [fst snd].
      * rewrite map_app. cbn [map createNode id]. apply NoDup_app.
        split; [exact Hnodup|]. split; [|apply NoDup_singleton].
        intros i Hi Hi'. apply list_elem_of_singleton in Hi'. subst i.
        apply list_elem_of_fmap in Hi as (n & Heq & Hn).
        rewrite Forall_forall in Hids. destruct (Hids n Hn) as (t & j & Hid & Hj).
        rewrite Hid in Heq. apply createNodeId_inj in Heq. lia.
      * apply Forall_app. split.
        -- eapply Forall_impl; [exact Hids|]. intros n (t & j & Hid & Hj).
           exists t, j. split; [exact Hid | lia].
        -- constructor; [|constructor]. exists nodeType, (index + 1)%nat.
           split; [reflexivity | lia].
      * intros k n Hk. apply lookup_app_Some in Hk as [Hk|[Hlen Hk]].
        -- apply Hpos, Hk.
        -- apply list_lookup_singleton_Some in Hk as [Hk <-].
           cbn [createNode position]. rewrite Hx. f_equal. f_equal. lia.
      * rewrite length_app. cbn [length]. rewrite Hx. lia.
    + apply IH; cbn [fst snd]; try assumption.
      eapply Forall_impl; [exact Hids|]. intros n (t & j & Hid & Hj).
      exists t, j. split; [exact Hid | lia].
Qed.

(** X7. The identifiers the sequential builder gives its nodes are pairwise
    distinct, whatever the node types are, also when a type occurs
    several times. *)
Theorem buildSequential_ids_unique (nodeTypes : list string) :
  NoDup (map id (buildSequential apiUrlMatch nodeTypes requirements)).
Proof.
  unfold buildSequential.
  apply (forEach_nodeType_layout nodeTypes 0 ([], 100%Z)); cbn [fst snd].
  - constructor.
  - constructor.
  - intros k n Hk. inversion Hk.
  - reflexivity.
Qed.

(** X8. The sequential builder lays its nodes out on one line from left to
    right: the node at position [k] of the list is placed at
    [(100 + 200 * k, 300)], identifiers that were skipped leaving no gap. *)
Theorem buildSequential_positions (nodeTypes : list string) (k : nat) (n : N8nNode) :
  buildSequential apiUrlMatch nodeTypes requirements !! k = Some n ->
  position n = ((100 + 200 * Z.of_nat k)%Z, 300%Z).
Proof.
  unfold buildSequential.
  apply (forEach_nodeType_layout nodeTypes 0 ([], 100%Z)); cbn [fst snd].
  - constructor.
  - constructor.
  - intros k' n' Hk. inversion Hk.
  - reflexivity.
Qed.

End NodeIdentifiers.

Lemma buildSequential_positions_witness :
  Schemas.position
    (NodeDefinitions.createNode (Js.Own NodeDefinitions.set_def) "set_3"
       (300%Z, 300%Z) (Some ∅) None)
  = ((100 + 200 * Z.of_nat 1)%Z, 300%Z).
Proof.
  apply (buildSequential_positions (fun _ => None)
           (Notions.example_requirements "")
           ["n8n-nodes-base.start"; "no-such-type"; "n8n-nodes-base.set"] 1).
  reflexivity.
Defined.

Section TemplatePath.
Import Schemas NodeDefinitions Generator Notions.

Variable parseWorkflowRequirements : string -> Js.Result WorkflowRequirements.
Variable apiUrlMatch : string -> option string.
Variable templateNodes :
  string -> WorkflowRequirements -> option (Js.Result (list N8nNode)).
Variable generateExplanations :
  N8nWorkflow -> WorkflowRequirements -> Js.Result (gmap string string).
Variable generateSetupInstructions : N8nWorkflow -> Js.Result string.

Local Abbreviation generate :=
  (generateWorkflow parseWorkflowRequirements apiUrlMatch templateNodes
     generateExplanations generateSetupInstructions).

(** X9. When the requirements parsed from the description select a template
    that exists, the explicitly required node types play no part: the
    answer of [generateWorkflow] is the same whatever [requiredNodes]
    holds. *)
Theorem requiredNodes_ignored_with_template
    (input : WorkflowGenerationInput) (description tid : string)
    (parsed : WorkflowRequirements) (explicitNodes : option (list string)) :
  in_description input = Some description ->
  parseWorkflowRequirements description = inr parsed ->
  templateId parsed = Some tid ->
  Js.truthy tid = true ->
  (forall r, is_Some (templateNodes tid r)) ->
  generate input
  = generate {| in_description := in_description input;
                requiredNodes := explicitNodes;
                in_complexity := in_complexity input;
                includeCredentials := includeCredentials input |}.
Proof.
  intros Hd Hparse Htid Htruthy Htemplate.
  unfold generateWorkflow, generateWorkflow_try.
  cbn [in_description requiredNodes in_complexity includeCredentials].
  rewrite Hd. cbn [Js.truthy_opt default from_option Datatypes.id].
  destruct (Js.truthy description); cbn [negb]; [|reflexivity].
  rewrite Hparse. cbn [Js.bind].
  set (requirements := match in_complexity input with
                       | Some c => with_complexity parsed c
                       | None => parsed
                       end).
  assert (forall nodeTypes,
             createNodeStructure apiUrlMatch templateNodes nodeTypes requirements
             = match templateNodes tid requirements with
               | Some nodes => nodes
               | None => inr []
               end) as Hstructure.
  { intros nodeTypes. unfold createNodeStructure.
    assert (templateId requirements = Some tid) as ->
      by (unfold requirements; destruct (in_complexity input); exact Htid).
    rewrite Htruthy. destruct (Htemplate requirements) as [nodes ->]. reflexivity. }
  rewrite !Hstructure. reflexivity.
Qed.

End TemplatePath.

Lemma requiredNodes_ignored_with_template_witness :
  Generator.generateWorkflow
    (fun d => Js.ret (Examples.template_requirements d)) (fun _ => None)
    Examples.start_only (fun _ _ => Js.ret ∅) (fun _ => Js.ret "")
    Notions.example_input
  = Generator.generateWorkflow
      (fun d => Js.ret (Examples.template_requirements d)) (fun _ => None)
      Examples.start_only (fun _ _ => Js.ret ∅) (fun _ => Js.ret "")
      {| Generator.in_description := Some "get the data";
         Generator.requiredNodes := Some ["n8n-nodes-base.slack"];
         Generator.in_complexity := None;
         Generator.includeCredentials := false |}.
Proof.
  apply (requiredNodes_ignored_with_template
           (fun d => Js.ret (Examples.template_requirements d)) (fun _ => None)
           Examples.start_only (fun _ _ => Js.ret ∅) (fun _ => Js.ret "")
           Notions.example_input "get the data" "api-request"
           (Examples.template_requirements "get the data")
           (Some ["n8n-nodes-base.slack"]));
    try reflexivity.
  intros r. eexists. reflexivity.
Defined.

(** * The dispatcher *)

Section Dispatcher.
Import Server.

Variable Input Answer : Type.
Variable call : Handler -> string -> Input -> Js.Result Answer.
Variable infrastructureHandler : string -> string -> Input -> Js.Result Answer.

(** X10. The four infrastructure tools the manifest announces are never
    reached: the dispatcher looks their handler up under the tool name
    without its [n8n/] prefix, which is written with underscores, while
    the handlers are registered under camel-case names; whatever the
    input, the answer is the error [Infrastructure tool not found]. *)
Theorem infrastructure_tools_not_found (tool : string) (input : Input) :
  tool ∈ ["n8n/deploy_workflow"; "n8n/validate_workflow";
          "n8n/manage_credentials"; "n8n/generate_environment_config"] ->
  tool ∈ manifest_tools
  /\ execute Input Answer call infrastructureHandler tool input
     = Failed Answer (Js.Text ("Infrastructure tool not found: " +:+ tool)).
Proof.
  intros Hin.
  each_member Hin ltac:(subst tool; split;
                        [refine (bool_decide_unpack _ _); vm_compute; exact I
                        | reflexivity]).
Qed.

Lemma route_unknown (tool : string) :
  route tool = Unknown <-> tool ∉ manifest_tools.
Proof.
  split.
  - intros Hroute Hin. unfold manifest_tools in Hin.
    each_member Hin ltac:(subst tool; discriminate Hroute).
  - intros Hout. unfold route.
    repeat match goal with
           | |- context [String.eqb tool ?s] =>
               destruct (String.eqb_spec tool s) as [Heq|_];
               [exfalso; apply Hout; rewrite Heq;
                refine (bool_decide_unpack _ _); vm_compute; exact I|]
           end.
    reflexivity.
Qed.

(** X11. The dispatcher knows exactly the tools of the manifest: a tool name
    is answered with the error [Unknown tool], without any tool being
    called, exactly when it is not one of the names the manifest
    announces. *)
Theorem execute_unknown_iff_not_in_manifest (tool : string) (input : Input) :
  (tool ∉ manifest_tools ->
   execute Input Answer call infrastructureHandler tool input
   = Failed Answer (Js.Text ("Unknown tool: " +:+ tool)))
  /\ (tool ∈ manifest_tools -> route tool <> Unknown).
Proof.
  split.
  - intros Hout. apply route_unknown in Hout.
    unfold execute, execute_try. rewrite Hout. reflexivity.
  - intros Hin Hroute. apply route_unknown in Hroute. contradiction.
Qed.

End Dispatcher.

Lemma infrastructure_tools_not_found_witness :
  "n8n/validate_workflow" ∈ Server.manifest_tools
  /\ Server.execute unit string Examples.echo_call Examples.echo_infrastructure
       "n8n/validate_workflow" tt
     = Server.Failed string
         (Js.Text "Infrastructure tool not found: n8n/validate_workflow").
Proof.
  apply (infrastructure_tools_not_found unit string Examples.echo_call
           Examples.echo_infrastructure "n8n/validate_workflow" tt).
  refine (bool_decide_unpack _ _). vm_compute. exact I.
Defined.

Lemma execute_unknown_iff_not_in_manifest_witness :
  Server.execute unit string Examples.echo_call Examples.echo_infrastructure
    "n8n/deployWorkflow" tt
  = Server.Failed string (Js.Text "Unknown tool: n8n/deployWorkflow").
Proof.
  apply (execute_unknown_iff_not_in_manifest unit string Examples.echo_call
           Examples.echo_infrastructure "n8n/deployWorkflow" tt).
  refine (bool_decide_unpack _ _). vm_compute. exact I.
Defined.

(** * Deployment *)

Section Deployment.
Import Deploy.

Variable getWorkflow : nat -> string -> Js.Result Infrastructure.ApiWorkflow.

Lemma valid_environments_kept (envs : list string) :
  Forall (fun env => env ∈ getEnvironments) envs ->
  List.filter (fun env => negb (Generator.mem env getEnvironments)) envs = [].
Proof.
  induction 1 as [|env envs Henv _ IH]; [reflexivity|].
  cbn [List.filter]. unfold Generator.mem at 1.
  rewrite bool_decide_eq_true_2 by exact Henv. exact IH.
Qed.

(** X12. An unforced deployment to known environments is decided by the two
    retrievals alone: once the workflow has been fetched, it is deployed
    to every environment asked for whenever the retrieval made for the
    validation succeeds, whatever issues the validation finds, and it is
    aborted only when that second retrieval fails. *)
Theorem deployWorkflow_ignores_validation_issues
    (input : DeployWorkflowInput) (workflowId : string) (envs : list string)
    (workflow : Infrastructure.ApiWorkflow) :
  Deploy.workflowId input = Some workflowId ->
  Js.truthy workflowId = true ->
  environments input = Some envs ->
  envs <> [] ->
  Forall (fun env => env ∈ getEnvironments) envs ->
  default false (force input) = false ->
  getWorkflow 0%nat workflowId = inr workflow ->
  deployWorkflow getWorkflow input
  = match getWorkflow 1%nat workflowId with
    | inr _ =>
        Deployed ("Workflow deployed to " +:+ pretty (length envs) +:+ " environment(s)")
                 (map (deployment_of workflow workflowId (default false (activate input)))
                      envs)
    | inl error =>
        Rejected (Js.Text "Validation failed, deployment aborted")
                 (ValidationError
                    (Js.message_of ("Failed to retrieve workflow " +:+ workflowId +:+ ": ")
                                   error))
    end.
Proof.
  intros Hid Htruthy Henvs Hnonempty Hvalid Hforce Hfirst.
  unfold deployWorkflow. rewrite Hid, Henvs, Hforce.
  cbn [Js.truthy_opt default from_option Datatypes.id]. rewrite Htruthy. cbn [negb].
  destruct envs as [|env envs]; [congruence|].
  cbn [length Nat.eqb]. rewrite (valid_environments_kept _ Hvalid).
  cbn [length Nat.ltb Nat.leb andb]. rewrite Hfirst.
  unfold Infrastructure.validateWorkflow.
  cbn [Infrastructure.workflowId Infrastructure.validationRules Js.truthy_opt
       default from_option Datatypes.id].
  rewrite Htruthy. cbn [negb].
  destruct (getWorkflow 1%nat workflowId) as [error|fetched]; [reflexivity|].
  rewrite bool_decide_eq_true_2 by (apply list_elem_of_singleton; reflexivity).
  cbn [Js.ret].
  match goal with
  | |- context [Infrastructure.collect ?results true []] =>
      destruct (Infrastructure.collect results true []) as [allPassed allIssues]
  end.
  reflexivity.
Qed.

(** X13. A forced deployment skips both the check of the environment names
    and the validation: once the workflow has been fetched, one successful
    deployment is reported for every environment asked for, known or not,
    in the order asked. *)
Theorem deployWorkflow_forced
    (input : DeployWorkflowInput) (workflowId : string) (envs : list string)
    (workflow : Infrastructure.ApiWorkflow) :
  Deploy.workflowId input = Some workflowId ->
  Js.truthy workflowId = true ->
  environments input = Some envs ->
  envs <> [] ->
  force input = Some true ->
  getWorkflow 0%nat workflowId = inr workflow ->
  deployWorkflow getWorkflow input
  = Deployed ("Workflow deployed to " +:+ pretty (length envs) +:+ " environment(s)")
             (map (deployment_of workflow workflowId (default false (activate input)))
                  envs).
Proof.
  intros Hid Htruthy Henvs Hnonempty Hforce Hfirst.
  unfold deployWorkflow. rewrite Hid, Henvs, Hforce.
  cbn [Js.truthy_opt default from_option Datatypes.id]. rewrite Htruthy. cbn [negb].
  destruct envs as [|env envs]; [congruence|].
  cbn [length Nat.eqb]. rewrite andb_false_r. rewrite Hfirst. reflexivity.
Qed.

End Deployment.

Lemma deployWorkflow_ignores_validation_issues_witness :
  Deploy.deployWorkflow Examples.api_once Examples.deploy_request
  = Deploy.Rejected (Js.Text "Validation failed, deployment aborted")
      (Deploy.ValidationError (Js.Text "Failed to retrieve workflow 42: timeout")).
Proof.
  apply (deployWorkflow_ignores_validation_issues Examples.api_once
           Examples.deploy_request "42" ["staging"; "production"]
           Notions.empty_api_workflow);
    try reflexivity.
  - discriminate.
  - repeat constructor.
Defined.

Lemma deployWorkflow_forced_witness :
  Deploy.deployWorkflow Examples.api_once Examples.forced_request
  = Deploy.Deployed "Workflow deployed to 2 environment(s)"
      [ {| Deploy.environment := "staging";
           Deploy.success := true;
           Deploy.message := "Workflow Empty deployed to staging";
           Deploy.deployed_workflowId := "staging-42";
           Deploy.activationStatus := true |};
        {| Deploy.environment := "moon";
           Deploy.success := true;
           Deploy.message := "Workflow Empty deployed to moon";
           Deploy.deployed_workflowId := "moon-42";
           Deploy.activationStatus := true |} ].
Proof.
  apply (deployWorkflow_forced Examples.api_once Examples.forced_request "42"
           ["staging"; "moon"] Notions.empty_api_workflow);
    try reflexivity.
  discriminate.
Defined.

(** * Template listing and application *)

Section Templates.
Import Schemas ApplyTemplate.

Variable toLowerCase : string -> string.
Variable StoredWorkflow : Type.
Variable createWorkflow : WorkflowData -> Js.Result StoredWorkflow.

Lemma listed_is_template (requested : option string) (t : ListTemplates.Template) :
  t ∈ ListTemplates.listed (ListTemplates.listTemplates toLowerCase requested) ->
  t ∈ ListTemplates.templates.
Proof.
  unfold ListTemplates.listTemplates. cbn [ListTemplates.listed].
  destruct requested as [wanted|]; [|auto].
  destruct (Js.truthy wanted && negb (String.eqb wanted "all")); [|auto].
  intros Hin. apply list_elem_of_In, filter_In in Hin as [Hin _].
  apply list_elem_of_In, Hin.
Qed.

(** X14. Every template [listTemplates] shows, with any category filter, can be
    applied: given its identifier and a workflow name, [applyTemplate]
    hands exactly one workflow to the API, named as asked.  That workflow
    never has more nodes than the listing announces, and has as many only
    for the template [api-request]. *)
Theorem listed_templates_can_be_applied
    (requested : option string) (t : ListTemplates.Template)
    (name : string) (parameters : option (gmap string JSON)) :
  t ∈ ListTemplates.listed (ListTemplates.listTemplates toLowerCase requested) ->
  Js.truthy name = true ->
  exists workflowData,
    sent _ (applyTemplate _ createWorkflow
              {| template_id := Some (ListTemplates.id t);
                 ApplyTemplate.name := Some name;
                 ApplyTemplate.parameters := parameters |}) = [workflowData]
    /\ wd_name workflowData = name
    /\ (length (wd_nodes workflowData) <= ListTemplates.nodeCount t)%nat
    /\ (length (wd_nodes workflowData) = ListTemplates.nodeCount t
        <-> ListTemplates.id t = "api-request").
Proof.
  intros Hin Hname. apply listed_is_template in Hin.
  unfold ListTemplates.templates in Hin.
  each_member Hin
    ltac:(subst t; unfold applyTemplate;
          cbn [template_id ApplyTemplate.name ApplyTemplate.parameters
               ListTemplates.id ListTemplates.nodeCount
               Js.truthy_opt default from_option Datatypes.id];
          rewrite Hname; cbn [negb Js.truthy String.eqb Ascii.eqb Bool.eqb
                              select_template];
          match goal with
          | |- context [createWorkflow ?w] =>
              exists w; split; [destruct (createWorkflow w); reflexivity|];
              split; [reflexivity|]; split; [cbn; lia|];
              split; [cbn; intros; first [reflexivity | lia] | intros; first [reflexivity | discriminate]]
          end).
Qed.

(** X15. The workflow [applyTemplate] hands to the API, whatever the template
    and the parameters are, carries the name asked for, is inactive,
    begins with the start node, gives its nodes pairwise distinct display
    names, and only connects nodes it holds. *)
Theorem applyTemplate_sends_closed_workflow
    (input : ApplyTemplateInput) (workflowData : WorkflowData) :
  workflowData ∈ sent _ (applyTemplate _ createWorkflow input) ->
  ApplyTemplate.name input = Some (wd_name workflowData)
  /\ wd_active workflowData = false
  /\ (exists rest, wd_nodes workflowData = start_node :: rest)
  /\ NoDup (map nd_name (wd_nodes workflowData))
  /\ (forall source entry x,
         conn_main (wd_connections workflowData) !! source = Some entry ->
         x ∈ main entry ->
         source ∈ map nd_name (wd_nodes workflowData)
         /\ node x ∈ map (fun n => Some (nd_name n)) (wd_nodes workflowData)).
Proof.
  unfold applyTemplate.
  destruct (Js.truthy_opt (template_id input)); cbn [negb sent];
    [|intros H; inversion H].
  destruct (ApplyTemplate.name input) as [name|]; cbn [Js.truthy_opt];
    [|intros H; inversion H].
  destruct (Js.truthy name); cbn [negb sent]; [|intros H; inversion H].
  cbn [default from_option Datatypes.id].
  assert (forall built,
             select_template (default "" (template_id input)) name
               (default ∅ (parameters input)) = Some built ->
             wd_name built = name
             /\ wd_active built = false
             /\ (exists rest, wd_nodes built = start_node :: rest)
             /\ NoDup (map nd_name (wd_nodes built))
             /\ (forall source entry x,
                    conn_main (wd_connections built) !! source = Some entry ->
                    x ∈ main entry ->
                    source ∈ map nd_name (wd_nodes built)
                    /\ node x ∈ map (fun n => Some (nd_name n)) (wd_nodes built)))
    as Hbuilt.
  { intros built. unfold select_template.
    repeat match goal with
           | |- context [if ?c then _ else _] => destruct c
           end;
      intros Hsome; try discriminate Hsome; injection Hsome as <-;
      (split; [reflexivity|]); (split; [reflexivity|]);
      (split; [eexists; reflexivity|]);
      (split; [cbn; refine (bool_decide_unpack _ _); vm_compute; exact I|]);
      intros source entry x Hentry Hx;
      cbn [wd_connections conn_main createApiRequestWorkflow
           createSocialMediaWorkflow createDataProcessingWorkflow
           createNotificationWorkflow] in Hentry;
      repeat (apply lookup_insert_Some in Hentry as [[<- <-]|[_ Hentry]];
              [apply list_elem_of_singleton in Hx; subst x;
               split; cbn;
               repeat first [apply list_elem_of_here | apply list_elem_of_further]|]);
      rewrite lookup_empty in Hentry; discriminate Hentry. }
  destruct (select_template _ name _) as [built|] eqn:Hselect;
    [|intros H; inversion H].
  destruct (Hbuilt built eq_refl) as (Hn & Ha & Hs & Hd & Hc).
  assert (workflowData = apply_parameters built (default ∅ (parameters input)) ->
          Some name = Some (wd_name workflowData)
          /\ wd_active workflowData = false
          /\ (exists rest, wd_nodes workflowData = start_node :: rest)
          /\ NoDup (map nd_name (wd_nodes workflowData))
          /\ (forall source entry x,
                 conn_main (wd_connections workflowData) !! source = Some entry ->
                 x ∈ main entry ->
                 source ∈ map nd_name (wd_nodes workflowData)
                 /\ node x ∈ map (fun n => Some (nd_name n)) (wd_nodes workflowData)))
    as Hsent.
  { intros ->. cbn [apply_parameters wd_name wd_active wd_nodes wd_connections].
    rewrite Hn. auto. }
  destruct (createWorkflow _); cbn [sent]; intros H;
    apply list_elem_of_singleton in H; apply Hsent, H.
Qed.

End Templates.

Lemma listed_templates_can_be_applied_witness :
  exists workflowData,
    ApplyTemplate.sent _
      (ApplyTemplate.applyTemplate _ Notions.store
         {| ApplyTemplate.template_id := Some "notification";
            ApplyTemplate.name := Some "Alerts";
            ApplyTemplate.parameters := None |}) = [workflowData]
    /\ Schemas.wd_name workflowData = "Alerts"
    /\ (length (Schemas.wd_nodes workflowData) <= 4)%nat
    /\ (length (Schemas.wd_nodes workflowData) = 4%nat
        <-> "notification" = "api-request").
Proof.
  apply (listed_templates_can_be_applied Js.toLowerCase _ Notions.store
           (Some "Automation")
           {| ListTemplates.id := "notification";
              ListTemplates.name := "Notification System";
              ListTemplates.description :=
                "Send notifications through multiple channels based on triggers";
              ListTemplates.category := ["communication"; "automation"];
              ListTemplates.nodeCount := 4 |}
           "Alerts" None).
  - vm_compute. apply list_elem_of_here.
  - reflexivity.
Defined.

Lemma applyTemplate_sends_closed_workflow_witness :
  ApplyTemplate.name
    {| ApplyTemplate.template_id := Some "data-processing";
       ApplyTemplate.name := Some "Pipeline";
       ApplyTemplate.parameters := None |}
  = Some (Schemas.wd_name
            (ApplyTemplate.apply_parameters
               (ApplyTemplate.createDataProcessingWorkflow "Pipeline" ∅) ∅)).
Proof.
  apply (applyTemplate_sends_closed_workflow _ Notions.store
           {| ApplyTemplate.template_id := Some "data-processing";
              ApplyTemplate.name := Some "Pipeline";
              ApplyTemplate.parameters := None |}
           (ApplyTemplate.apply_parameters
              (ApplyTemplate.createDataProcessingWorkflow "Pipeline" ∅) ∅)).
  apply list_elem_of_singleton. reflexivity.
Defined.

(** * The posting workflow as a whole *)

Section PostingWorkflow.
Import Schemas SocialPost Notions.

Variable toLowerCase : string -> string.
Variable capitalize : string -> string.

(** The platform loop adds one node and one connection for every element
    of [platforms], and every connection it adds leaves the last node or
    a platform node and enters a platform node. *)
Lemma for_platforms_shape (platforms : list string) :
  forall st,
    Js.inherited (lastNodeName st) = false ->
    exists st',
      for_platforms toLowerCase capitalize platforms st = inr st'
      /\ map nd_name (ls_nodes st')
         = (map nd_name (ls_nodes st) ++ map (platformNode_name capitalize) platforms)%list
      /\ total_targets (ls_main st')
         = (total_targets (ls_main st) + length platforms)%nat
      /\ (forall k x,
             x ∈ targets (ls_main st') k ->
             x ∈ targets (ls_main st) k
             \/ (k ∈ lastNodeName st :: map (platformNode_name capitalize) platforms
                 /\ node x ∈ map (fun p => Some (platformNode_name capitalize p)) platforms)).
Proof.
  induction platforms as [|p rest IH]; intros st Hlast.
  - exists st. split; [reflexivity|]. split; [rewrite app_nil_r; reflexivity|].
    split; [cbn [length]; lia | auto].
  - cbn [for_platforms]. unfold add_platform.
    rewrite nd_name_platformNode.
    destruct (push_connection_own (ls_main st) (Some (lastNodeName st))
                (to_platform capitalize p) Hlast) as (m1 & Hm1 & Hmine & Hother & Htotal).
    cbn [Js.property_key] in Hmine, Hother.
    unfold to_platform in Hm1. rewrite Hm1. cbn [Js.bind Js.ret].
    match goal with
    | |- context [for_platforms toLowerCase capitalize rest ?s] => set (st1 := s)
    end.
    destruct (IH st1 (platformNode_name_own capitalize p))
      as (st' & Hrun & Hnames & Hcount & Hclosed).
    exists st'. split; [exact Hrun|]. split; [|split].
    + rewrite Hnames. cbn [st1 ls_nodes]. rewrite map_app, <- app_assoc.
      cbn [map app]. rewrite nd_name_platformNode. reflexivity.
    + rewrite Hcount. cbn [st1 ls_main length]. lia.
    + intros k x Hx. destruct (Hclosed k x Hx) as [Hold|[Hk Hn]].
      * cbn [st1 ls_main] in Hold.
        destruct (decide (k = lastNodeName st)) as [->|Hne].
        -- rewrite Hmine in Hold. apply elem_of_app in Hold as [Hold|Hnew];
             [left; exact Hold | right].
           apply list_elem_of_singleton in Hnew. subst x.
           split; [apply list_elem_of_here | cbn; apply list_elem_of_here].
        -- rewrite Hother in Hold by exact Hne. left. exact Hold.
      * right. cbn [st1 lastNodeName] in Hk. split.
        -- apply list_elem_of_further. exact Hk.
        -- cbn [map]. apply list_elem_of_further. exact Hn.
Qed.

Variable StoredWorkflow : Type.
Variable createWorkflow : WorkflowData -> Js.Result StoredWorkflow.

(** What a request with a name and at least one platform hands to the
    API, read off the two loop lemmas. *)
Lemma createSocialPostWorkflow_sent (input : CreateSocialPostWorkflowInput)
    (platforms : list string) :
  Js.truthy_opt (SocialPost.name input) = true ->
  SocialPost.platforms input = Some platforms ->
  platforms <> [] ->
  exists workflowData,
    sent _ (createSocialPostWorkflow toLowerCase capitalize _ createWorkflow input)
    = [workflowData]
    /\ map nd_name (wd_nodes workflowData)
       = "Start" :: "Content Source" :: map (platformNode_name capitalize) platforms
    /\ total_targets (conn_main (wd_connections workflowData)) = S (length platforms)
    /\ (forall k x,
           x ∈ targets (conn_main (wd_connections workflowData)) k ->
           k ∈ map nd_name (wd_nodes workflowData)
           /\ node x ∈ map (fun n => Some (nd_name n)) (wd_nodes workflowData))
    /\ (forall i p q,
           platforms !! i = Some p -> platforms !! S i = Some q ->
           to_platform capitalize q
           ∈ targets (conn_main (wd_connections workflowData))
               (platformNode_name capitalize p)).
Proof.
  intros Hname Hplatforms Hnonempty.
  destruct platforms as [|first rest]; [congruence|].
  unfold createSocialPostWorkflow. rewrite Hname, Hplatforms.
  cbn [negb default from_option Datatypes.id].
  change (Nat.eqb (length (first :: rest)) 0) with false. cbv iota.
  unfold build_workflowData.
  match goal with
  | |- context [for_platforms toLowerCase capitalize (first :: rest) ?s] => set (st0 := s)
  end.
  destruct (for_platforms_shape (first :: rest) st0 eq_refl)
    as (st' & Hrun & Hnames & Hcount & Hclosed).
  destruct (for_platforms_chain toLowerCase capitalize (first :: rest) st0 eq_refl)
    as (st'' & Hrun' & _ & _ & Hchain & _).
  rewrite Hrun in Hrun'. injection Hrun' as <-.
  rewrite Hrun. cbn [Js.bind Js.ret].
  match goal with
  | |- context [createWorkflow ?w] => set (workflowData := w)
  end.
  exists workflowData.
  split; [destruct (createWorkflow workflowData); reflexivity|].
  cbn [workflowData wd_nodes wd_connections conn_main].
  assert (map nd_name (ls_nodes st')
          = "Start" :: "Content Source" :: map (platformNode_name capitalize) (first :: rest))
    as Hnames' by (rewrite Hnames; reflexivity).
  split; [exact Hnames'|]. split; [|split; [|exact Hchain]].
  - rewrite Hcount. cbn [st0 ls_main]. unfold total_targets at 1.
    rewrite insert_empty, map_to_list_singleton. reflexivity.
  - intros k x Hx.
    assert (map (fun n => Some (nd_name n)) (ls_nodes st')
            = map Some (map nd_name (ls_nodes st'))) as ->
      by (rewrite map_map; reflexivity).
    rewrite Hnames'.
    destruct (Hclosed k x Hx) as [Hold|[Hk Hn]].
    + cbn [st0 ls_main] in Hold. unfold targets in Hold.
      destruct (decide (k = "Start")) as [->|Hne].
      * rewrite lookup_insert_eq in Hold. cbn [main] in Hold.
        apply list_elem_of_singleton in Hold. subst x.
        split; [apply list_elem_of_here|].
        cbn [map node]. apply list_elem_of_further, list_elem_of_here.
      * rewrite lookup_insert_ne, lookup_empty in Hold by congruence.
        inversion Hold.
    + split.
      * cbn [st0 lastNodeName] in Hk. apply list_elem_of_further. exact Hk.
      * cbn [map]. do 2 apply list_elem_of_further.
        rewrite map_map. exact Hn.
Qed.

(** X16. For every request with a name and at least one platform, building
    the posting workflow does not fail: the workflow handed to the API
    holds the start node, the content source and one node per element of
    [platforms], in that order, holds one connection more than it has
    platforms, and every connection leaves and enters the display name
    of one of its nodes. *)
Theorem createSocialPostWorkflow_one_node_per_platform
    (input : CreateSocialPostWorkflowInput) (platforms : list string) :
  Js.truthy_opt (SocialPost.name input) = true ->
  SocialPost.platforms input = Some platforms ->
  platforms <> [] ->
  exists workflowData,
    sent _ (createSocialPostWorkflow toLowerCase capitalize _ createWorkflow input)
    = [workflowData]
    /\ map nd_name (wd_nodes workflowData)
       = "Start" :: "Content Source" :: map (platformNode_name capitalize) platforms
    /\ total_targets (conn_main (wd_connections workflowData)) = S (length platforms)
    /\ (forall source entry x,
           conn_main (wd_connections workflowData) !! source = Some entry ->
           x ∈ main entry ->
           source ∈ map nd_name (wd_nodes workflowData)
           /\ node x ∈ map (fun n => Some (nd_name n)) (wd_nodes workflowData)).
Proof.
  intros Hname Hplatforms Hnonempty.
  destruct (createSocialPostWorkflow_sent input platforms Hname Hplatforms Hnonempty)
    as (workflowData & Hsent & Hnames & Hcount & Hclosed & _).
  exists workflowData. split; [exact Hsent|]. split; [exact Hnames|].
  split; [exact Hcount|].
  intros source entry x Hentry Hx. apply Hclosed.
  unfold targets. rewrite Hentry. exact Hx.
Qed.

(** X17. When two neighbours in [platforms] get the same display name (the
    same platform twice, or two spellings that the capitalisation of the
    first letter makes equal), the workflow handed to the API holds two
    nodes of that name, next to each other, and a connection from that
    name to itself. *)
Theorem repeated_platform_connects_to_itself
    (input : CreateSocialPostWorkflowInput) (platforms : list string)
    (i : nat) (p q : string) :
  Js.truthy_opt (SocialPost.name input) = true ->
  SocialPost.platforms input = Some platforms ->
  platforms !! i = Some p ->
  platforms !! S i = Some q ->
  platformNode_name capitalize p = platformNode_name capitalize q ->
  exists workflowData first second,
    sent _ (createSocialPostWorkflow toLowerCase capitalize _ createWorkflow input)
    = [workflowData]
    /\ wd_nodes workflowData !! (2 + i)%nat = Some first
    /\ wd_nodes workflowData !! (3 + i)%nat = Some second
    /\ nd_name first = "Post to " +:+ capitalize q
    /\ nd_name second = "Post to " +:+ capitalize q
    /\ {| node := Some ("Post to " +:+ capitalize q); conn_type := "main"; index := 0 |}
       ∈ targets (conn_main (wd_connections workflowData))
           ("Post to " +:+ capitalize q).
Proof.
  intros Hname Hplatforms Hp Hq Hsame.
  assert (platforms <> []) as Hnonempty by (intros ->; inversion Hp).
  destruct (createSocialPostWorkflow_sent input platforms Hname Hplatforms Hnonempty)
    as (workflowData & Hsent & Hnames & _ & _ & Hchain).
  assert (map nd_name (wd_nodes workflowData) !! (2 + i)%nat
          = Some (platformNode_name capitalize q)) as Hfirst.
  { rewrite Hnames.
    change (map (platformNode_name capitalize) platforms !! i
            = Some (platformNode_name capitalize q)).
    rewrite list_lookup_fmap, Hp. cbn [fmap option_fmap option_map].
    f_equal. exact Hsame. }
  assert (map nd_name (wd_nodes workflowData) !! (3 + i)%nat
          = Some (platformNode_name capitalize q)) as Hsecond.
  { rewrite Hnames.
    change (map (platformNode_name capitalize) platforms !! S i
            = Some (platformNode_name capitalize q)).
    rewrite list_lookup_fmap, Hq. reflexivity. }
  rewrite list_lookup_fmap in Hfirst, Hsecond.
  destruct (wd_nodes workflowData !! (2 + i)%nat) as [first|] eqn:H1;
    [|discriminate Hfirst].
  destruct (wd_nodes workflowData !! (3 + i)%nat) as [second|] eqn:H2;
    [|discriminate Hsecond].
  cbn [fmap option_fmap option_map] in Hfirst, Hsecond.
  injection Hfirst as Hfirst. injection Hsecond as Hsecond.
  exists workflowData, first, second.
  split; [exact Hsent|]. split; [exact H1|]. split; [exact H2|].
  split; [exact Hfirst|]. split; [exact Hsecond|].
  pose proof (Hchain i p q Hp Hq) as Hself. rewrite Hsame in Hself. exact Hself.
Qed.

End PostingWorkflow.

Lemma createSocialPostWorkflow_one_node_per_platform_witness :
  exists workflowData,
    SocialPost.sent _ (SocialPost.createSocialPostWorkflow Js.toLowerCase
                         Notions.capitalize_ascii _ Notions.store
                         Notions.two_platforms) = [workflowData]
    /\ map Schemas.nd_name (Schemas.wd_nodes workflowData)
       = "Start" :: "Content Source"
         :: map (SocialPost.platformNode_name Notions.capitalize_ascii)
              ["twitter"; "linkedin"]
    /\ Notions.total_targets (Schemas.conn_main (Schemas.wd_connections workflowData))
       = 3%nat
    /\ (forall source entry x,
           Schemas.conn_main (Schemas.wd_connections workflowData) !! source
           = Some entry ->
           x ∈ Schemas.main entry ->
           source ∈ map Schemas.nd_name (Schemas.wd_nodes workflowData)
           /\ Schemas.node x
              ∈ map (fun n => Some (Schemas.nd_name n)) (Schemas.wd_nodes workflowData)).
Proof.
  apply (createSocialPostWorkflow_one_node_per_platform Js.toLowerCase
           Notions.capitalize_ascii _ Notions.store
           Notions.two_platforms ["twitter"; "linkedin"]).
  - reflexivity.
  - reflexivity.
  - discriminate.
Defined.

Lemma repeated_platform_connects_to_itself_witness :
  exists workflowData first second,
    SocialPost.sent _ (SocialPost.createSocialPostWorkflow Js.toLowerCase
                         Notions.capitalize_ascii _ Notions.store
                         Examples.twice_twitter) = [workflowData]
    /\ Schemas.wd_nodes workflowData !! 2%nat = Some first
    /\ Schemas.wd_nodes workflowData !! 3%nat = Some second
    /\ Schemas.nd_name first = "Post to Twitter"
    /\ Schemas.nd_name second = "Post to Twitter"
    /\ {| Schemas.node := Some "Post to Twitter";
          Schemas.conn_type := "main"; Schemas.index := 0 |}
       ∈ Notions.targets (Schemas.conn_main (Schemas.wd_connections workflowData))
           "Post to Twitter".
Proof.
  apply (repeated_platform_connects_to_itself Js.toLowerCase
           Notions.capitalize_ascii _ Notions.store
           Examples.twice_twitter ["twitter"; "Twitter"] 0 "twitter" "Twitter");
    reflexivity.
Defined.

(** * The rule-based validator as a tool *)

Section RuleSelection.
Import Infrastructure Notions.

Lemma rules_keys (rule : string) (ruleFunc : Rule) :
  rules !! rule = Some ruleFunc -> (rule, ruleFunc) ∈ rules_entries.
Proof. apply elem_of_list_to_map_2. Qed.

Lemma assign_keys key value (results : list (string * RuleResult)) :
  (forall k, k ∈ map fst (assign key value results)
             <-> k = key \/ k ∈ map fst results)
  /\ (NoDup (map fst results) -> NoDup (map fst (assign key value results)))
  /\ (forall k r, (k, r) ∈ assign key value results ->
                  (k = key /\ r = value) \/ (k, r) ∈ results).
Proof.
  induction results as [|[k0 v0] rest (IHkeys & IHnodup & IHvalues)];
    cbn [assign map fst].
  - split; [|split].
    + intros k. rewrite list_elem_of_singleton, elem_of_nil. tauto.
    + intros _. apply NoDup_singleton.
    + intros k r Hin. apply list_elem_of_singleton in Hin. injection Hin as -> ->.
      left. split; reflexivity.
  - destruct (String.eqb_spec k0 key) as [->|Hne]; cbn [map fst].
    + split; [|split].
      * intros k. rewrite !elem_of_cons. tauto.
      * auto.
      * intros k r Hin. apply elem_of_cons in Hin as [Hin|Hin].
        -- injection Hin as -> ->. left. split; reflexivity.
        -- right. apply list_elem_of_further, Hin.
    + split; [|split].
      * intros k. rewrite !elem_of_cons, IHkeys. tauto.
      * intros Hnodup. apply NoDup_cons in Hnodup as [Hfresh Hnodup].
        apply NoDup_cons. split; [|apply IHnodup, Hnodup].
        rewrite IHkeys. intros [Heq|Hin]; [congruence | contradiction].
      * intros k r Hin. apply elem_of_cons in Hin as [Hin|Hin].
        -- right. rewrite Hin. apply list_elem_of_here.
        -- destruct (IHvalues k r Hin) as [Hnew|Hold]; [left; exact Hnew | right].
           apply list_elem_of_further, Hold.
Qed.

(** The loop over the selected rule names, when none of them is an
    inherited member: it returns, and the results hold one entry for each
    rule that is named at least once, computed on the workflow. *)
Lemma apply_selected_results (selected : list string) (wf : ApiWorkflow) :
  Forall (fun rule => Js.inherited rule = false) selected ->
  forall results,
    exists results',
      apply_selected selected wf results = inr results'
      /\ (forall k, k ∈ map fst results'
                    <-> k ∈ map fst results
                        \/ (k ∈ selected /\ is_Some (rules !! k)))
      /\ (NoDup (map fst results) -> NoDup (map fst results'))
      /\ (forall k r, (k, r) ∈ results' ->
                      (k, r) ∈ results
                      \/ exists ruleFunc, rules !! k = Some ruleFunc /\ r = ruleFunc wf).
Proof.
  induction 1 as [|rule rest Hown _ IH]; intros results.
  - exists results. split; [reflexivity|]. split; [|split].
    + intros k. rewrite elem_of_nil. tauto.
    + auto.
    + auto.
  - cbn [apply_selected]. unfold Js.get. rewrite Hown.
    destruct (rules !! rule) as [ruleFunc|] eqn:Hrule.
    + destruct (IH (assign rule (ruleFunc wf) results))
        as (results' & Hrun & Hkeys & Hnodup & Hvalues).
      destruct (assign_keys rule (ruleFunc wf) results) as (Akeys & Anodup & Avalues).
      exists results'. split; [exact Hrun|]. split; [|split].
      * intros k. rewrite Hkeys, Akeys, elem_of_cons. split.
        -- intros [[->|Hin]|[Hin Hsome]]; [right; split; [left; reflexivity|eauto]
                                          | left; exact Hin
                                          | right; split; [right; exact Hin | exact Hsome]].
        -- intros [Hin|[[->|Hin] Hsome]]; [left; right; exact Hin
                                          | left; left; reflexivity
                                          | right; split; assumption].
      * intros Hresults. apply Hnodup, Anodup, Hresults.
      * intros k r Hin. destruct (Hvalues k r Hin) as [Hassigned|Hrule'];
          [|right; exact Hrule'].
        destruct (Avalues k r Hassigned) as [[-> ->]|Hold]; [right; eauto | left; exact Hold].
    + destruct (IH results) as (results' & Hrun & Hkeys & Hnodup & Hvalues).
      exists results'. split; [exact Hrun|]. split; [|split].
      * intros k. rewrite Hkeys, elem_of_cons. split.
        -- intros [Hin|[Hin Hsome]]; [left; exact Hin | right; split; [right; exact Hin | exact Hsome]].
        -- intros [Hin|[[->|Hin] Hsome]]; [left; exact Hin
                                          | destruct Hsome as [f Hf]; congruence
                                          | right; split; assumption].
      * exact Hnodup.
      * exact Hvalues.
Qed.

Variable getWorkflow : string -> Js.Result ApiWorkflow.

(** X18. In every answer of [validateWorkflow] that carries a body, the flag
    [validationPassed] is true exactly when the list of issues is empty. *)
Theorem validationPassed_reflects_issues (input : ValidateWorkflowInput) (body : Body) :
  validateWorkflow getWorkflow input = Ok body ->
  validationPassed body = true <-> body_issues body = [].
Proof. apply validationPassed_iff_no_issues. Qed.

(** X19. When the rules are selected by name (no [all] in the list) and no
    name is an inherited member, the validator answers with a body whose
    rule results hold exactly the rules named, each once however often it
    is named, each computed on the workflow fetched; names that are no
    rule leave no trace. *)
Theorem validateWorkflow_selected_rules
    (input : ValidateWorkflowInput) (workflowId : string) (selected : list string)
    (wf : ApiWorkflow) :
  Infrastructure.workflowId input = Some workflowId ->
  Js.truthy workflowId = true ->
  validationRules input = Some selected ->
  "all" ∉ selected ->
  Forall (fun rule => Js.inherited rule = false) selected ->
  getWorkflow workflowId = inr wf ->
  exists body,
    validateWorkflow getWorkflow input = Ok body
    /\ workflowName body = wf_name wf
    /\ NoDup (map fst (ruleResults body))
    /\ (forall k, k ∈ map fst (ruleResults body)
                  <-> k ∈ selected /\ is_Some (rules !! k))
    /\ (forall k r, (k, r) ∈ ruleResults body ->
                    exists ruleFunc, rules !! k = Some ruleFunc /\ r = ruleFunc wf).
Proof.
  intros Hid Htruthy Hrules Hall Hown Hfetch.
  unfold validateWorkflow. rewrite Hid, Hrules.
  cbn [Js.truthy_opt default from_option Datatypes.id]. rewrite Htruthy. cbn [negb].
  rewrite Hfetch. rewrite bool_decide_eq_false_2 by exact Hall.
  destruct (apply_selected_results selected wf Hown [])
    as (results & Hrun & Hkeys & Hnodup & Hvalues).
  rewrite Hrun.
  destruct (collect results true []) as [allPassed allIssues].
  eexists. split; [reflexivity|]. cbn [workflowName ruleResults].
  split; [reflexivity|]. split; [apply Hnodup; constructor|]. split.
  - intros k. rewrite Hkeys. cbn [map]. rewrite elem_of_nil. tauto.
  - intros k r Hin. destruct (Hvalues k r Hin) as [Hold|Hrule]; [inversion Hold | exact Hrule].
Qed.

(** X20. Which rule lists make the validator fail: once the workflow has been
    fetched, the answer is the error [Validation failed: ...] exactly
    when the list does not hold [all] and names a member inherited from
    [Object.prototype]; every other list is answered with a body. *)
Theorem validateWorkflow_fails_iff_inherited
    (input : ValidateWorkflowInput) (workflowId : string) (wf : ApiWorkflow) :
  Infrastructure.workflowId input = Some workflowId ->
  Js.truthy workflowId = true ->
  getWorkflow workflowId = inr wf ->
  (validateWorkflow getWorkflow input = Failed (Js.EngineText "Validation failed: ")
   /\ ("all" ∉ default ["all"] (validationRules input))
   /\ Exists (fun rule => Js.inherited rule = true)
             (default ["all"] (validationRules input)))
  \/ (exists body,
         validateWorkflow getWorkflow input = Ok body
         /\ ("all" ∈ default ["all"] (validationRules input)
             \/ Forall (fun rule => Js.inherited rule = false)
                       (default ["all"] (validationRules input)))).
Proof.
  intros Hid Htruthy Hfetch.
  unfold validateWorkflow. rewrite Hid.
  cbn [Js.truthy_opt]. rewrite Htruthy. cbn [negb].
  change (default "" (Some workflowId)) with workflowId. rewrite Hfetch.
  set (selected := default ["all"] (validationRules input)).
  destruct (decide ("all" ∈ selected)) as [Hall|Hall].
  - right. rewrite bool_decide_eq_true_2 by exact Hall. cbn [Js.ret].
    match goal with
    | |- context [collect ?results true []] =>
        destruct (collect results true []) as [allPassed allIssues]
    end.
    eexists. split; [reflexivity | left; exact Hall].
  - rewrite bool_decide_eq_false_2 by exact Hall.
    destruct (decide (Forall (fun rule => Js.inherited rule = false) selected))
      as [Hown|Hinherited].
    + right. destruct (apply_selected_results selected wf Hown [])
        as (results & Hrun & _). rewrite Hrun.
      destruct (collect results true []) as [allPassed allIssues].
      eexists. split; [reflexivity | right; exact Hown].
    + left. apply not_Forall_Exists in Hinherited; [|intros rule; apply _].
      assert (Exists (fun rule => Js.inherited rule = true) selected) as Hex.
      { eapply Exists_impl; [exact Hinherited|]. intros rule Hrule. cbn in Hrule.
        destruct (Js.inherited rule); congruence. }
      rewrite (apply_selected_inherited selected wf [] Hex).
      split; [reflexivity|]. split; assumption.
Qed.

End RuleSelection.

Lemma validationPassed_reflects_issues_witness :
  Infrastructure.validationPassed
    {| Infrastructure.body_workflowId := "42";
       Infrastructure.workflowName := Some "Empty";
       Infrastructure.validationPassed := true;
       Infrastructure.ruleResults :=
         [("credentials", Infrastructure.rule_credentials Notions.empty_api_workflow)];
       Infrastructure.body_issues := [] |} = true
  <-> Infrastructure.body_issues
        {| Infrastructure.body_workflowId := "42";
           Infrastructure.workflowName := Some "Empty";
           Infrastructure.validationPassed := true;
           Infrastructure.ruleResults :=
             [("credentials", Infrastructure.rule_credentials Notions.empty_api_workflow)];
           Infrastructure.body_issues := [] |} = [].
Proof.
  apply (validationPassed_reflects_issues (fun _ => Js.ret Notions.empty_api_workflow)
           {| Infrastructure.workflowId := Some "42";
              Infrastructure.validationRules := Some ["credentials"] |}).
  reflexivity.
Defined.

Lemma validateWorkflow_selected_rules_witness :
  exists body,
    Infrastructure.validateWorkflow (fun _ => Js.ret Notions.empty_api_workflow)
      Examples.selected_rules = Infrastructure.Ok body
    /\ Infrastructure.workflowName body = Some "Empty"
    /\ NoDup (map fst (Infrastructure.ruleResults body))
    /\ (forall k, k ∈ map fst (Infrastructure.ruleResults body)
                  <-> k ∈ ["naming"; "speed"; "trigger"; "naming"]
                      /\ is_Some (Infrastructure.rules !! k))
    /\ (forall k r, (k, r) ∈ Infrastructure.ruleResults body ->
                    exists ruleFunc,
                      Infrastructure.rules !! k = Some ruleFunc
                      /\ r = ruleFunc Notions.empty_api_workflow).
Proof.
  apply (validateWorkflow_selected_rules (fun _ => Js.ret Notions.empty_api_workflow)
           Examples.selected_rules "42" ["naming"; "speed"; "trigger"; "naming"]
           Notions.empty_api_workflow);
    try reflexivity.
  - intros Hin. each_member Hin ltac:(discriminate Hin).
  - repeat constructor.
Defined.

Lemma validateWorkflow_fails_iff_inherited_witness :
  (Infrastructure.validateWorkflow (fun _ => Js.ret Notions.empty_api_workflow)
     Examples.selected_rules = Infrastructure.Failed (Js.EngineText "Validation failed: ")
   /\ ("all" ∉ ["naming"; "speed"; "trigger"; "naming"])
   /\ Exists (fun rule => Js.inherited rule = true)
             ["naming"; "speed"; "trigger"; "naming"])
  \/ (exists body,
         Infrastructure.validateWorkflow (fun _ => Js.ret Notions.empty_api_workflow)
           Examples.selected_rules = Infrastructure.Ok body
         /\ ("all" ∈ ["naming"; "speed"; "trigger"; "naming"]
             \/ Forall (fun rule => Js.inherited rule = false)
                       ["naming"; "speed"; "trigger"; "naming"])).
Proof.
  apply (validateWorkflow_fails_iff_inherited
           (fun _ => Js.ret Notions.empty_api_workflow)
           Examples.selected_rules "42" Notions.empty_api_workflow);
    reflexivity.
Defined.

Section NamingRule.
Import Infrastructure Notions.

(** The loop of the naming rule: a duplicate is reported for a name
    exactly when a node carries it that comes after another node of that
    name, or after a name already seen. *)
Lemma naming_step_duplicates (nodes : list ApiNode) :
  forall (seen : gset string) (issues : list string) (n : string),
    ("Duplicate node name: " +:+ n) ∈ snd (fold_left naming_step nodes (seen, issues))
    <-> ("Duplicate node name: " +:+ n) ∈ issues
        \/ (exists j, map name nodes !! j = Some n
                      /\ (n ∈ seen
                          \/ exists i, (i < j)%nat /\ map name nodes !! i = Some n)).
Proof.
  induction nodes as [|node rest IH]; intros seen issues n.
  - cbn [fold_left snd map]. split; [auto|].
    intros [H|(j & Hj & _)]; [exact H | inversion Hj].
  - cbn [fold_left naming_step]. rewrite IH. clear IH.
    assert (forall l : list string,
               ("Duplicate node name: " +:+ n)
               ∈ (if String.eqb (name node) (type node) || Js.includes "Node" (name node)
                  then (l ++ ["Generic node name detected: " +:+ name node])%list
                  else l)
               <-> ("Duplicate node name: " +:+ n) ∈ l) as Hgeneric.
    { intros l. destruct (_ || _); [|tauto].
      rewrite elem_of_app, list_elem_of_singleton. split; [|auto].
      intros [H|H]; [exact H | discriminate H]. }
    rewrite Hgeneric.
    assert (("Duplicate node name: " +:+ n)
            ∈ (if bool_decide (name node ∈ seen)
               then (issues ++ ["Duplicate node name: " +:+ name node])%list
               else issues)
            <-> ("Duplicate node name: " +:+ n) ∈ issues
                \/ (n = name node /\ n ∈ seen)) as ->.
    { destruct (bool_decide (name node ∈ seen)) eqn:Hseen.
      - apply bool_decide_eq_true_1 in Hseen.
        rewrite elem_of_app, list_elem_of_singleton. split.
        + intros [H|H]; [left; exact H | right].
          apply (inj (String.app _)) in H. subst n.
          split; [reflexivity | exact Hseen].
        + intros [H|[-> _]]; [left; exact H | right; reflexivity].
      - apply bool_decide_eq_false_1 in Hseen. split; [auto|].
        intros [H|[-> H]]; [exact H | contradiction]. }
    split.
    + intros [[Hold|[-> Hseen]]|(j & Hj & Hdup)].
      * left. exact Hold.
      * right. exists 0%nat. split; [reflexivity | left; exact Hseen].
      * right. exists (S j). split; [exact Hj|].
        destruct Hdup as [Hin|(i & Hi & Hni)].
        -- apply elem_of_union in Hin as [Hin|Hin].
           ++ apply elem_of_singleton in Hin. right. exists 0%nat.
              split; [lia | cbn; rewrite Hin; reflexivity].
           ++ left. exact Hin.
        -- right. exists (S i). split; [lia | exact Hni].
    + intros [Hold|(j & Hj & Hdup)]; [left; left; exact Hold|].
      destruct j as [|j].
      * cbn in Hj. injection Hj as Hj.
        destruct Hdup as [Hseen|(i & Hi & _)]; [|lia].
        left. right. split; [symmetry; exact Hj | exact Hseen].
      * right. exists j. split; [exact Hj|].
        destruct Hdup as [Hseen|(i & Hi & Hni)].
        -- left. apply elem_of_union. right. exact Hseen.
        -- destruct i as [|i].
           ++ cbn in Hni. injection Hni as Hni. left. apply elem_of_union. left.
              apply elem_of_singleton. symmetry. exact Hni.
           ++ right. exists i. split; [lia | exact Hni].
Qed.

(** X21. The naming rule reports a duplicate for a display name exactly when
    two nodes of the workflow carry it. *)
Theorem rule_naming_reports_duplicates (wf : ApiWorkflow) (n : string) :
  ("Duplicate node name: " +:+ n) ∈ issues (rule_naming wf)
  <-> exists i j, (i < j)%nat
                  /\ map name (nodes wf) !! i = Some n
                  /\ map name (nodes wf) !! j = Some n.
Proof.
  unfold rule_naming. cbn [issues]. rewrite naming_step_duplicates. split.
  - intros [H|(j & Hj & [H|(i & Hi & Hni)])].
    + destruct (wf_name wf) as [w|]; [destruct (_ || _)|];
        try (apply list_elem_of_singleton in H; discriminate H); inversion H.
    + apply elem_of_empty in H. contradiction.
    + exists i, j. auto.
  - intros (i & j & Hij & Hi & Hj). right. exists j. split; [exact Hj|].
    right. exists i. split; assumption.
Qed.

End NamingRule.

(** * The workflow templates *)

Section TemplateLoops.
Import Schemas NodeDefinitions Generator Notions Templates Shapes.

Lemma node_of_type_known (key id : string) (position : Position)
    (customParameters : option (gmap string JSON)) (customName : option string)
    (d : NodeDefinition) :
  nodeDefinitions !! key = Some d ->
  node_of_type key id position customParameters customName
  = inr (createNode (Js.Own d) id position customParameters customName).
Proof. intros Hd. unfold node_of_type, Js.get. rewrite Hd. reflexivity. Qed.

(** A node made from a catalogue entry carries that entry's type, and a
    display name that is an own key. *)
Lemma node_of_type_made (key id : string) (position : Position)
    (customParameters : option (gmap string JSON)) (customName : option string) :
  is_Some (nodeDefinitions !! key) ->
  (forall custom, customName = Some custom -> Js.inherited custom = false) ->
  exists made,
    node_of_type key id position customParameters customName = inr made
    /\ type made = Some key
    /\ own_key made
    /\ (Js.truthy_opt customName = true -> name made = customName).
Proof.
  intros [d Hd] Hcustom. rewrite (node_of_type_known _ _ _ _ _ d Hd).
  eexists. split; [reflexivity|]. cbn [createNode type name read_type]. split; [|split].
  - rewrite (catalogue_keys_are_types key d Hd). reflexivity.
  - unfold own_key, key_of. cbn [createNode name].
    destruct (Js.truthy_opt customName) eqn:Htruthy.
    + destruct customName as [custom|]; [|discriminate].
      apply (Hcustom custom eq_refl).
    + cbn [read_defaultName Js.property_key]. apply (catalogue_names_own key d Hd).
  - intros ->. reflexivity.
Qed.

Lemma wired_state_last_own (st : LoopState) :
  wired_state st -> Js.inherited (Js.property_key (lastNodeName st)) = false.
Proof.
  intros (Hown & Hlast & _). apply list_elem_of_fmap in Hlast as (n & Hn & Hin).
  rewrite Forall_forall in Hown. rewrite Hn. apply (Hown n Hin).
Qed.

(** Appending a node whose display name is an own key keeps the state
    wired, and adds the node at the end. *)
Lemma append_node_wired (advance : bool) (st : LoopState) (newNode : N8nNode) :
  wired_state st -> own_key newNode ->
  exists st',
    append_node advance st newNode = inr st'
    /\ wired_state st'
    /\ ls_nodes st' = (ls_nodes st ++ [newNode])%list
    /\ nodePosition st'
       = (if advance
          then ((fst (nodePosition st) + 200)%Z, snd (nodePosition st))
          else nodePosition st).
Proof.
  intros Hst Hnew. pose proof (wired_state_last_own st Hst) as Hlast_own.
  destruct Hst as (Hown & Hlast & Hwired & Hcount).
  unfold append_node.
  destruct (push_connection_own (ls_main st) (lastNodeName st)
              (createConnections (lastNodeName st) (name newNode)) Hlast_own)
    as (m & -> & Hmine & Hother & Htotal).
  cbn [Js.bind Js.ret]. eexists. split; [reflexivity|].
  unfold wired_state. cbn [ls_nodes ls_main lastNodeName nodePosition].
  split; [|split; reflexivity].
  split; [|split; [|split]].
  - apply Forall_app. split; [exact Hown | constructor; [exact Hnew | constructor]].
  - rewrite map_app. apply elem_of_app. destruct advance.
    + right. apply list_elem_of_here.
    + left. exact Hlast.
  - intros k x Hx. rewrite !map_app, !elem_of_app.
    destruct (decide (k = Js.property_key (lastNodeName st))) as [->|Hne].
    + rewrite Hmine in Hx. apply elem_of_app in Hx as [Hx|Hx].
      * destruct (Hwired _ x Hx) as [Hk Hn]. auto.
      * apply list_elem_of_singleton in Hx. subst x. split.
        -- left. apply list_elem_of_fmap in Hlast as (n & Hn & Hin).
           apply list_elem_of_fmap. exists n. split; [|exact Hin].
           unfold key_of. rewrite Hn. reflexivity.
        -- right. apply list_elem_of_here.
    + rewrite Hother in Hx by exact Hne. destruct (Hwired k x Hx) as [Hk Hn]. auto.
  - rewrite Htotal, length_app, <- Hcount. cbn [length]. lia.
Qed.

(** A loop whose callback only builds nodes with own keys keeps the state
    wired and only adds nodes at the end. *)
Lemma forEach_append_wired (advance : bool)
    (build : string -> nat -> LoopState -> option (Js.Result N8nNode))
    (items : list string) :
  (forall item index st,
      match build item index st with
      | Some made => exists newNode, made = inr newNode /\ own_key newNode
      | None => True
      end) ->
  forall index st,
    wired_state st ->
    exists st' added,
      forEach_append advance build index items st = inr st'
      /\ wired_state st'
      /\ ls_nodes st' = (ls_nodes st ++ added)%list.
Proof.
  intros Hbuild. induction items as [|item rest IH]; intros index st Hst.
  - exists st, []. split; [reflexivity|]. split; [exact Hst|].
    rewrite app_nil_r. reflexivity.
  - cbn [forEach_append]. pose proof (Hbuild item index st) as Hmade.
    destruct (build item index st) as [made|].
    + destruct Hmade as (newNode & -> & Hnew). cbn [Js.bind].
      destruct (append_node_wired advance st newNode Hst Hnew)
        as (st1 & -> & Hst1 & Hnodes1 & _).
      cbn [Js.bind].
      destruct (IH (S index) st1 Hst1) as (st' & added & Hrun & Hst' & Hnodes').
      exists st', (newNode :: added). split; [exact Hrun|]. split; [exact Hst'|].
      rewrite Hnodes', Hnodes1, <- app_assoc. reflexivity.
    + cbn [Js.bind Js.ret]. apply IH, Hst.
Qed.

(** A single node makes a wired state. *)
Lemma wired_state_start (first : N8nNode) (position : Position) :
  own_key first ->
  wired_state {| ls_nodes := [first];
                 ls_main := ∅;
                 lastNodeName := name first;
                 nodePosition := position |}.
Proof.
  intros Hown. unfold wired_state. cbn [ls_nodes ls_main lastNodeName].
  split; [|split; [|split]].
  - constructor; [exact Hown | constructor].
  - apply list_elem_of_here.
  - intros k x Hx. rewrite targets_empty in Hx. inversion Hx.
  - unfold total_targets. rewrite map_to_list_empty. reflexivity.
Qed.

End TemplateLoops.

Section TemplateWorkflows.
Import Schemas NodeDefinitions Generator Notions Templates Shapes.

Variable toLowerCase : string -> string.
Variable JSON_stringify : list string -> string.

Ltac known_type := eexists; vm_compute; reflexivity.

Ltac own_custom :=
  let custom := fresh "custom" in
  let H := fresh "H" in
  intros custom H; injection H as <-; reflexivity.

Lemma platform_node_builds (keywords : list string) (platform : string)
    (index : nat) (st : LoopState) :
  match platform_node toLowerCase keywords platform index st with
  | Some made => exists newNode, made = inr newNode /\ own_key newNode
  | None => True
  end.
Proof.
  unfold platform_node.
  destruct (String.eqb (toLowerCase platform) "twitter").
  - edestruct node_of_type_made as (made & -> & _ & Hown & _);
      [known_type | own_custom | eauto].
  - destruct (String.eqb (toLowerCase platform) "reddit"); [|exact I].
    edestruct node_of_type_made as (made & -> & _ & Hown & _);
      [known_type | own_custom | eauto].
Qed.

Lemma transform_node_builds (transformation : string) (index : nat) (st : LoopState) :
  match transform_node transformation index st with
  | Some made => exists newNode, made = inr newNode /\ own_key newNode
  | None => True
  end.
Proof.
  unfold transform_node.
  destruct (String.eqb transformation "filter").
  - edestruct node_of_type_made as (made & -> & _ & Hown & _);
      [known_type | own_custom | eauto].
  - destruct (String.eqb transformation "format").
    + edestruct node_of_type_made as (made & -> & _ & Hown & _);
        [known_type | own_custom | eauto].
    + destruct (String.eqb transformation "merge"); [|exact I].
      edestruct node_of_type_made as (made & -> & _ & Hown & _);
        [known_type | own_custom | eauto].
Qed.

Lemma channel_node_builds (notificationConfig : NotificationConfig)
    (channel : string) (index : nat) (st : LoopState) :
  match channel_node notificationConfig channel index st with
  | Some made => exists newNode, made = inr newNode /\ own_key newNode
  | None => True
  end.
Proof.
  unfold channel_node.
  destruct (String.eqb channel "email").
  - edestruct node_of_type_made as (made & -> & _ & Hown & _);
      [known_type | own_custom | eauto].
  - destruct (String.eqb channel "slack"); [|exact I].
    edestruct node_of_type_made as (made & -> & _ & Hown & _);
      [known_type | own_custom | eauto].
Qed.

(** The workflow made of a wired state whose first node is a trigger. *)
Lemma templated_of_state (workflowName description : string) (st : LoopState)
    (first : N8nNode) (added : list N8nNode) (t : string) :
  wired_state st ->
  ls_nodes st = first :: added ->
  type first = Some t ->
  Js.includes "Trigger" t = true \/ t = "n8n-nodes-base.start" ->
  templated workflowName
    {| wf_name := workflowName;
       wf_description := description;
       nodes := ls_nodes st;
       connections := {| conn_main := ls_main st |};
       active := false;
       settings := template_settings |}.
Proof.
  intros (Hown & _ & Hwired & Hcount) Hnodes Htype Htrigger.
  unfold templated. cbn [wf_name active nodes connections conn_main].
  split; [reflexivity|]. split; [reflexivity|]. split; [exact Hown|].
  split; [|split; assumption].
  exists first, added, t. auto.
Qed.

Lemma apiRequest_templated (params : WorkflowTemplateParams) :
  exists workflow,
    apiRequest_generateWorkflow params = inr workflow
    /\ templated (tp_name params) workflow.
Proof.
  unfold apiRequest_generateWorkflow.
  rewrite (node_of_type_known "n8n-nodes-base.start" _ _ _ _ start_def eq_refl).
  cbn [Js.bind].
  rewrite (node_of_type_known "n8n-nodes-base.httpRequest" _ _ _ _ httpRequest_def eq_refl).
  cbn [Js.bind].
  rewrite (node_of_type_known "n8n-nodes-base.set" _ _ _ _ set_def eq_refl).
  cbn [Js.bind Js.ret]. eexists. split; [reflexivity|].
  unfold templated. cbn [wf_name active nodes connections conn_main].
  split; [reflexivity|]. split; [reflexivity|]. split; [repeat constructor|].
  split; [|split].
  - eexists _, _, _. split; [reflexivity|]. split; [reflexivity|]. right. reflexivity.
  - intros k x Hx. unfold targets in Hx.
    cbn [createNode name Js.truthy_opt Js.truthy String.eqb Ascii.eqb Bool.eqb negb
         read_defaultName defaultName start_def Js.property_key] in Hx.
    destruct (decide (k = "API Request")) as [->|Hapi].
    + rewrite lookup_insert_eq in Hx. cbn [main] in Hx.
      apply list_elem_of_singleton in Hx. subst x.
      split; cbn; repeat first [apply list_elem_of_here | apply list_elem_of_further].
    + rewrite lookup_insert_ne in Hx by congruence.
      destruct (decide (k = "Start")) as [->|Hstart].
      * rewrite lookup_insert_eq in Hx. cbn [main] in Hx.
        apply list_elem_of_singleton in Hx. subst x.
        split; cbn; repeat first [apply list_elem_of_here | apply list_elem_of_further].
      * rewrite lookup_insert_ne, lookup_empty in Hx by congruence. inversion Hx.
  - cbn [createNode name Js.truthy_opt Js.truthy String.eqb Ascii.eqb Bool.eqb negb
         read_defaultName defaultName start_def Js.property_key length].
    rewrite total_targets_insert_fresh by reflexivity.
    rewrite total_targets_insert_fresh by reflexivity.
    reflexivity.
Qed.

Lemma socialMedia_templated (params : WorkflowTemplateParams) :
  exists workflow,
    socialMedia_generateWorkflow toLowerCase JSON_stringify params = inr workflow
    /\ templated (tp_name params) workflow.
Proof.
  unfold socialMedia_generateWorkflow.
  rewrite (node_of_type_known "n8n-nodes-base.scheduleTrigger" _ _ _ _
             scheduleTrigger_def eq_refl).
  cbn [Js.bind].
  match goal with
  | |- context [forEach_append true ?build 0 ?items ?s] =>
      destruct (forEach_append_wired true build items
                  (platform_node_builds _) 0 s)
        as (st1 & added & -> & Hst1 & Hnodes1);
      [apply wired_state_start; reflexivity|]
  end.
  cbn [Js.bind].
  edestruct (node_of_type_made "n8n-nodes-base.function") as (functionNode & -> & _ & Hown & _);
    [known_type | own_custom |].
  cbn [Js.bind].
  destruct (append_node_wired false st1 functionNode Hst1 Hown)
    as (st2 & -> & Hst2 & Hnodes2 & _).
  cbn [Js.bind Js.ret]. eexists. split; [reflexivity|].
  eapply templated_of_state;
    [ exact Hst2
    | rewrite Hnodes2, Hnodes1; cbn [ls_nodes app]; reflexivity
    | reflexivity
    | left; reflexivity ].
Qed.

Lemma dataProcessing_templated (params : WorkflowTemplateParams) :
  exists workflow,
    dataProcessing_generateWorkflow params = inr workflow
    /\ templated (tp_name params) workflow.
Proof.
  unfold dataProcessing_generateWorkflow.
  rewrite (node_of_type_known "n8n-nodes-base.start" _ _ _ _ start_def eq_refl).
  cbn [Js.bind].
  match goal with
  | |- context [source_node ?t ?c (nodePosition ?s)] =>
      set (st0 := s);
      assert (exists st1 added,
                 match source_node t c (nodePosition st0) with
                 | Some made => do sourceNode <- made ; append_node true st0 sourceNode
                 | None => Js.ret st0
                 end = inr st1
                 /\ wired_state st1
                 /\ ls_nodes st1 = (ls_nodes st0 ++ added)%list)
        as (st1 & added1 & -> & Hst1 & Hnodes1)
  end.
  { assert (wired_state st0) as Hst0 by (apply wired_state_start; reflexivity).
    unfold source_node.
    destruct (String.eqb _ "http").
    - edestruct (node_of_type_made "n8n-nodes-base.httpRequest")
        as (made & -> & _ & Hown & _); [known_type | own_custom |].
      cbn [Js.bind].
      destruct (append_node_wired true st0 made Hst0 Hown) as (st1 & -> & Hst1 & Hn & _).
      eauto.
    - destruct (String.eqb _ "googleSheets").
      + edestruct (node_of_type_made "n8n-nodes-base.googleSheets")
          as (made & -> & _ & Hown & _); [known_type | own_custom |].
        cbn [Js.bind].
        destruct (append_node_wired true st0 made Hst0 Hown) as (st1 & -> & Hst1 & Hn & _).
        eauto.
      + exists st0, []. rewrite app_nil_r. auto. }
  cbn [Js.bind].
  match goal with
  | |- context [forEach_append true ?build 0 ?items st1] =>
      destruct (forEach_append_wired true build items transform_node_builds 0 st1 Hst1)
        as (st2 & added2 & -> & Hst2 & Hnodes2)
  end.
  cbn [Js.bind Js.ret]. eexists. split; [reflexivity|].
  eapply templated_of_state;
    [ exact Hst2
    | rewrite Hnodes2, Hnodes1; cbn [st0 ls_nodes app]; reflexivity
    | reflexivity
    | right; reflexivity ].
Qed.

Lemma notification_templated (params : WorkflowTemplateParams) :
  trigger_of params ∈ ["schedule"; "manual"] ->
  exists workflow,
    notification_generateWorkflow params = inr workflow
    /\ templated (tp_name params) workflow.
Proof.
  intros Htrigger. unfold notification_generateWorkflow.
  fold (trigger_of params).
  assert (exists triggerNode t,
             trigger_node (trigger_of params)
               (default {| tc_schedule := Some "0 9 * * *" |}
                        (triggerConfig (default no_parameters (tp_parameters params))))
             = Some (inr triggerNode)
             /\ own_key triggerNode
             /\ type triggerNode = Some t
             /\ Js.includes "Trigger" t = true)
    as (triggerNode & t & -> & Hown & Htype & Ht).
  { unfold trigger_node.
    each_member Htrigger ltac:(rewrite Htrigger; cbn [String.eqb Ascii.eqb Bool.eqb]).
    - rewrite (node_of_type_known "n8n-nodes-base.scheduleTrigger" _ _ _ _
                 scheduleTrigger_def eq_refl).
      eexists _, _. split; [reflexivity|]. split; [reflexivity|].
      split; reflexivity.
    - rewrite (node_of_type_known "n8n-nodes-base.manualTrigger" _ _ _ _
                 manualTrigger_def eq_refl).
      eexists _, _. split; [reflexivity|]. split; [reflexivity|].
      split; reflexivity. }
  cbn [Js.bind].
  edestruct (node_of_type_made "n8n-nodes-base.set") as (setNode & -> & _ & Hset & _);
    [known_type | own_custom |].
  cbn [Js.bind].
  match goal with
  | |- context [append_node true ?s setNode] =>
      destruct (append_node_wired true s setNode
                  (wired_state_start triggerNode _ Hown) Hset)
        as (st1 & -> & Hst1 & Hnodes1 & _)
  end.
  cbn [Js.bind].
  match goal with
  | |- context [forEach_append false ?build 0 ?items st1] =>
      destruct (forEach_append_wired false build items (channel_node_builds _) 0 st1 Hst1)
        as (st2 & added2 & -> & Hst2 & Hnodes2)
  end.
  cbn [Js.bind Js.ret]. eexists. split; [reflexivity|].
  eapply templated_of_state;
    [ exact Hst2
    | rewrite Hnodes2, Hnodes1; cbn [ls_nodes app]; reflexivity
    | exact Htype
    | left; exact Ht ].
Qed.

Lemma notification_without_trigger (params : WorkflowTemplateParams) :
  trigger_of params ∉ ["schedule"; "manual"] ->
  notification_generateWorkflow params = inl Js.TypeError.
Proof.
  intros Htrigger. unfold notification_generateWorkflow.
  fold (trigger_of params). unfold trigger_node.
  destruct (String.eqb_spec (trigger_of params) "schedule") as [Heq|_].
  { exfalso. apply Htrigger. rewrite Heq. apply list_elem_of_here. }
  destruct (String.eqb_spec (trigger_of params) "manual") as [Heq|_].
  { exfalso. apply Htrigger. rewrite Heq. apply list_elem_of_further, list_elem_of_here. }
  reflexivity.
Qed.

Lemma template_of_id (templateId : string) (template : WorkflowTemplate) :
  workflowTemplates toLowerCase JSON_stringify !! templateId = Some template ->
  (templateId = "api-request"
   /\ generateWorkflow template = apiRequest_generateWorkflow)
  \/ (templateId = "social-media-monitoring"
      /\ generateWorkflow template
         = socialMedia_generateWorkflow toLowerCase JSON_stringify)
  \/ (templateId = "data-processing"
      /\ generateWorkflow template = dataProcessing_generateWorkflow)
  \/ (templateId = "notification"
      /\ generateWorkflow template = notification_generateWorkflow).
Proof.
  intros Hlookup. apply elem_of_list_to_map_2 in Hlookup.
  each_member Hlookup ltac:(injection Hlookup as -> ->; cbn [generateWorkflow]; tauto).
Qed.

(** X22. Whatever the parameters are, every template of [workflowTemplates]
    generates a workflow that carries the name asked for, begins with a
    trigger node, and only connects nodes it holds, one connection less
    than it has nodes; the one exception is the notification template
    asked for a trigger other than [schedule] and [manual], which raises
    a [TypeError]. *)
Theorem templates_generate_wired_workflows
    (templateId : string) (template : WorkflowTemplate)
    (params : WorkflowTemplateParams) :
  workflowTemplates toLowerCase JSON_stringify !! templateId = Some template ->
  (templateId = "notification"
   /\ (trigger_of params ∉ ["schedule"; "manual"])
   /\ generateWorkflow template params = inl Js.TypeError)
  \/ (exists workflow,
         generateWorkflow template params = inr workflow
         /\ templated (tp_name params) workflow).
Proof.
  intros Hlookup. apply elem_of_list_to_map_2 in Hlookup.
  each_member Hlookup
    ltac:(injection Hlookup as -> ->; cbn [generateWorkflow];
          first [ right; apply apiRequest_templated
                | right; apply socialMedia_templated
                | right; apply dataProcessing_templated
                | destruct (decide (trigger_of params ∈ ["schedule"; "manual"]))
                    as [Hin|Hout];
                  [ right; apply notification_templated, Hin
                  | left; split; [reflexivity|]; split; [exact Hout|];
                    apply notification_without_trigger, Hout ] ]).
Qed.

End TemplateWorkflows.

Lemma templates_generate_wired_workflows_witness :
  ("data-processing" = "notification"
   /\ (Shapes.trigger_of TemplateExamples.bare_params ∉ ["schedule"; "manual"])
   /\ Templates.generateWorkflow TemplateExamples.data_processing
        TemplateExamples.bare_params = inl Js.TypeError)
  \/ (exists workflow,
         Templates.generateWorkflow TemplateExamples.data_processing
           TemplateExamples.bare_params = inr workflow
         /\ Shapes.templated "Pipeline" workflow).
Proof.
  apply (templates_generate_wired_workflows Js.toLowerCase TemplateExamples.stringify
           "data-processing" TemplateExamples.data_processing
           TemplateExamples.bare_params).
  vm_compute. reflexivity.
Defined.

(** * The generator with its parser and its templates *)

Section GenerationOutcome.
Import Schemas NodeDefinitions Generator Notions Shapes.

Variable parseWorkflowRequirements : string -> Js.Result WorkflowRequirements.
Variable apiUrlMatch : string -> option string.
Variable templateNodes :
  string -> WorkflowRequirements -> option (Js.Result (list N8nNode)).
Variable generateExplanations :
  N8nWorkflow -> WorkflowRequirements -> Js.Result (gmap string string).
Variable generateSetupInstructions : N8nWorkflow -> Js.Result string.

Local Abbreviation generate :=
  (generateWorkflow parseWorkflowRequirements apiUrlMatch templateNodes
     generateExplanations generateSetupInstructions).

Local Abbreviation generate_try :=
  (generateWorkflow_try parseWorkflowRequirements apiUrlMatch templateNodes
     generateExplanations generateSetupInstructions).

Local Abbreviation effective parsed input :=
  (match in_complexity input with
   | Some c => with_complexity parsed c
   | None => parsed
   end).

Lemma effective_fields (parsed : WorkflowRequirements) (input : WorkflowGenerationInput) :
  templateId (effective parsed input) = templateId parsed
  /\ req_name (effective parsed input) = req_name parsed.
Proof. destruct (in_complexity input); split; reflexivity. Qed.

(** Once the nodes are built, with display names that are own keys and a
    trigger node first, the rest of the generation can fail on an empty
    name and in the text generators only. *)
Lemma generation_outcome (input : WorkflowGenerationInput) (description : string)
    (parsed : WorkflowRequirements) (built : list N8nNode) :
  in_description input = Some description ->
  Js.truthy description = true ->
  parseWorkflowRequirements description = inr parsed ->
  createNodeStructure apiUrlMatch templateNodes
    (determineRequiredNodes (effective parsed input) (requiredNodes input))
    (effective parsed input) = inr built ->
  Forall own_key built ->
  starts_with_trigger built ->
  exists workflow,
    nodes workflow = built
    /\ wf_name workflow = req_name parsed
    /\ ((wf_name workflow = ""
         /\ generate input = Failed (Js.Text "Workflow must have a name"))
        \/ (validateWorkflow workflow = inr tt
            /\ generate_try input
               = (do explanations <-
                    generateExplanations workflow (effective parsed input) ;
                  do setupInstructions <-
                    (if includeCredentials input
                     then do text <- generateSetupInstructions workflow ;
                          Js.ret (Some text)
                     else Js.ret None) ;
                  Js.ret (Data workflow explanations setupInstructions)))).
Proof.
  intros Hd Htruthy Hparse Hbuilt Hown Htrigger.
  destruct (effective_fields parsed input) as [_ Hname].
  destruct (createConnections_checked built Hown) as (c & Hc & Hchecked).
  destruct (starts_with_trigger_found built Htrigger) as [Hnonempty Hfound].
  assert (generate_try input
          = (do _ <- validateWorkflow (workflow_of (effective parsed input) built c) ;
             do explanations <-
               generateExplanations (workflow_of (effective parsed input) built c)
                 (effective parsed input) ;
             do setupInstructions <-
               (if includeCredentials input
                then do text <- generateSetupInstructions
                                  (workflow_of (effective parsed input) built c) ;
                     Js.ret (Some text)
                else Js.ret None) ;
             Js.ret (Data (workflow_of (effective parsed input) built c) explanations
                       setupInstructions))) as Htry.
  { unfold generateWorkflow_try. rewrite Hd. cbn [Js.truthy_opt]. rewrite Htruthy.
    cbn [negb default from_option Datatypes.id]. rewrite Hparse. cbn [Js.bind].
    rewrite Hbuilt. cbn [Js.bind]. rewrite Hc. reflexivity. }
  revert Hbuilt Htry Hname. generalize (effective parsed input). intros requirements _ Htry Hname.
  exists (workflow_of requirements built c).
  split; [reflexivity|]. split; [exact Hname|].
  destruct (Js.truthy (req_name requirements)) eqn:Htruthy_name.
  - right.
    assert (validateWorkflow (workflow_of requirements built c) = inr tt) as Hvalid
      by (apply validateWorkflow_of_checked; assumption).
    split; [exact Hvalid|]. rewrite Htry, Hvalid. reflexivity.
  - left.
    assert (req_name requirements = "") as Hempty.
    { unfold Js.truthy in Htruthy_name. apply negb_false_iff in Htruthy_name.
      apply String.eqb_eq, Htruthy_name. }
    split; [exact Hempty|].
    unfold generateWorkflow. rewrite Htry. unfold validateWorkflow.
    cbn [workflow_of wf_name]. rewrite Hempty. reflexivity.
Qed.

End GenerationOutcome.

Section FullPipeline.
Import Schemas NodeDefinitions Generator Notions Shapes.

Variable toLowerCase : string -> string.
Variable JSON_stringify : list string -> string.
Variable keywordsOf : string -> option (list string).
Variable apiUrlMatch : string -> option string.
Variable nameOf : string -> option string.
Variable generateExplanations :
  N8nWorkflow -> WorkflowRequirements -> Js.Result (gmap string string).
Variable generateSetupInstructions : N8nWorkflow -> Js.Result string.

Local Abbreviation parse :=
  (Parser.parseWorkflowRequirements toLowerCase nameOf).

Local Abbreviation templates :=
  (Templates.templateNodes toLowerCase JSON_stringify keywordsOf apiUrlMatch).

Local Abbreviation generate :=
  (generateWorkflow (fun description => Js.ret (parse description)) apiUrlMatch
     templates generateExplanations generateSetupInstructions).

Local Abbreviation generate_try :=
  (generateWorkflow_try (fun description => Js.ret (parse description)) apiUrlMatch
     templates generateExplanations generateSetupInstructions).

Local Abbreviation effective parsed input :=
  (match in_complexity input with
   | Some c => with_complexity parsed c
   | None => parsed
   end).

Lemma parsed_templateId (description : string) :
  templateId (parse description)
  ∈ [None; Some "api-request"; Some "social-media-monitoring";
     Some "notification"; Some "data-processing"].
Proof.
  unfold Parser.parseWorkflowRequirements. cbn [templateId].
  repeat match goal with
         | |- context [if ?c then _ else _] => destruct c
         end;
    repeat first [apply list_elem_of_here | apply list_elem_of_further].
Qed.

Lemma workflowTemplates_lookup (tid : string) :
  tid ∈ ["api-request"; "social-media-monitoring"; "notification"; "data-processing"] ->
  is_Some (Templates.workflowTemplates toLowerCase JSON_stringify !! tid).
Proof.
  intros Htid.
  each_member Htid
    ltac:(subst tid; eexists; apply elem_of_list_to_map_1;
          [ cbn [fmap list_fmap fst];
            refine (bool_decide_unpack _ _); vm_compute; exact I
          | repeat first [apply list_elem_of_here | apply list_elem_of_further] ]).
Qed.

(** For each of the four identifiers, the template branch of
    [createNodeStructure] answers with the nodes of the workflow the
    template of that name generates. *)
Lemma templateNodes_known (tid : string) (requirements : WorkflowRequirements) :
  tid ∈ ["api-request"; "social-media-monitoring"; "notification"; "data-processing"] ->
  exists template workflow,
    Templates.workflowTemplates toLowerCase JSON_stringify !! tid = Some template
    /\ Templates.generateWorkflow template
         (Templates.templateParams toLowerCase keywordsOf apiUrlMatch tid requirements)
       = inr workflow
    /\ templates tid requirements = Some (inr (nodes workflow))
    /\ templated (req_name requirements) workflow.
Proof.
  intros Htid. destruct (workflowTemplates_lookup tid Htid) as [template Hlookup].
  assert (exists workflow,
             Templates.generateWorkflow template
               (Templates.templateParams toLowerCase keywordsOf apiUrlMatch
                  tid requirements) = inr workflow
             /\ templated (req_name requirements) workflow)
    as (workflow & Hgenerated & Hshape).
  { destruct (template_of_id toLowerCase JSON_stringify tid template Hlookup)
      as [[-> ->]|[[-> ->]|[[-> ->]|[-> ->]]]].
    + apply apiRequest_templated.
    + apply socialMedia_templated.
    + apply dataProcessing_templated.
    + apply notification_templated. unfold trigger_of, Templates.templateParams.
      cbn [Templates.tp_parameters String.eqb Ascii.eqb Bool.eqb default from_option
           Datatypes.id Templates.trigger].
      destruct (mem "schedule" (operations requirements));
        repeat first [apply list_elem_of_here | apply list_elem_of_further]. }
  exists template, workflow. split; [exact Hlookup|]. split; [exact Hgenerated|].
  split; [|exact Hshape].
  unfold Templates.templateNodes, Js.get. rewrite Hlookup, Hgenerated. reflexivity.
Qed.

Lemma parsed_template_known (description tid : string) :
  templateId (parse description) = Some tid ->
  tid ∈ ["api-request"; "social-media-monitoring"; "notification"; "data-processing"]
  /\ Js.truthy tid = true.
Proof.
  intros Hparsed.
  pose proof (parsed_templateId description) as Hin. rewrite Hparsed in Hin.
  each_member Hin ltac:(first [ discriminate Hin
                              | injection Hin as ->; split;
                                [ repeat first [apply list_elem_of_here
                                               | apply list_elem_of_further]
                                | reflexivity ] ]).
Qed.

(** [createNodeStructure] on requirements that carry the template
    identifier the parser selected for some description. *)
Lemma createNodeStructure_parsed (description : string)
    (requirements : WorkflowRequirements) (nodeTypes : list string) :
  templateId requirements = templateId (parse description) ->
  (templateId requirements = None
   /\ createNodeStructure apiUrlMatch templates nodeTypes requirements
      = inr (buildSequential apiUrlMatch nodeTypes requirements))
  \/ (exists workflow,
         createNodeStructure apiUrlMatch templates nodeTypes requirements
         = inr (nodes workflow)
         /\ templated (req_name requirements) workflow).
Proof.
  intros Hsame. unfold createNodeStructure.
  destruct (templateId requirements) as [tid|] eqn:Htid; [right | left; auto].
  symmetry in Hsame. destruct (parsed_template_known description tid Hsame)
    as [Hknown Htruthy].
  destruct (templateNodes_known tid requirements Hknown)
    as (template & workflow & _ & _ & Htemplate & Hshape).
  exists workflow. rewrite Htruthy, Htemplate. auto.
Qed.

(** X23. Every template the parser selects is a template of
    [workflowTemplates]: whatever the description is, when the parsed
    requirements carry a template identifier, that template generates a
    workflow from them, [createNodeStructure] answers with its nodes, the
    first of which is a trigger node, and the node types it was given
    play no part. *)
Theorem parser_selects_existing_templates (description tid : string)
    (nodeTypes : list string) :
  templateId (parse description) = Some tid ->
  exists template workflow,
    Templates.workflowTemplates toLowerCase JSON_stringify !! tid = Some template
    /\ Templates.generateWorkflow template
         (Templates.templateParams toLowerCase keywordsOf apiUrlMatch tid
            (parse description)) = inr workflow
    /\ createNodeStructure apiUrlMatch templates nodeTypes (parse description)
       = inr (nodes workflow)
    /\ templated (req_name (parse description)) workflow.
Proof.
  intros Hparsed.
  destruct (parsed_template_known description tid Hparsed) as [Hknown Htruthy].
  destruct (templateNodes_known tid (parse description) Hknown)
    as (template & workflow & Hlookup & Hgenerated & Htemplate & Hshape).
  exists template, workflow. split; [exact Hlookup|]. split; [exact Hgenerated|].
  split; [|exact Hshape].
  unfold createNodeStructure. rewrite Hparsed, Htruthy, Htemplate. reflexivity.
Qed.

(** X24. Whatever the description is, the structural part of the generation
    can fail in one way only: the workflow is built (from a template or
    node by node), wired and checked, and either the parsed name is empty
    and the answer is the error [Workflow must have a name], or the
    workflow passes [validateWorkflow] and the answer is whatever the two
    text generators make of it. *)
Theorem generation_fails_on_name_or_texts_only
    (input : WorkflowGenerationInput) (description : string) :
  in_description input = Some description ->
  Js.truthy description = true ->
  exists workflow,
    starts_with_trigger (nodes workflow)
    /\ wf_name workflow = req_name (parse description)
    /\ ((wf_name workflow = ""
         /\ generate input = Failed (Js.Text "Workflow must have a name"))
        \/ (validateWorkflow workflow = inr tt
            /\ generate_try input
               = (do explanations <-
                    generateExplanations workflow (effective (parse description) input) ;
                  do setupInstructions <-
                    (if includeCredentials input
                     then do text <- generateSetupInstructions workflow ;
                          Js.ret (Some text)
                     else Js.ret None) ;
                  Js.ret (Data workflow explanations setupInstructions)))).
Proof.
  intros Hd Htruthy.
  destruct (effective_fields (parse description) input) as [Htid _].
  assert (exists built,
             createNodeStructure apiUrlMatch templates
               (determineRequiredNodes (effective (parse description) input)
                  (requiredNodes input))
               (effective (parse description) input) = inr built
             /\ Forall own_key built
             /\ starts_with_trigger built) as (built & Hbuilt & Hown & Htrigger).
  { destruct (createNodeStructure_parsed description
                (effective (parse description) input)
                (determineRequiredNodes (effective (parse description) input)
                   (requiredNodes input)) Htid)
      as [[_ Hsequential]|(workflow & Htemplate & _ & _ & Hown & Htrigger & _)].
    - eexists. split; [exact Hsequential|].
      split; [apply buildSequential_own_keys | apply sequential_starts_with_trigger].
    - eauto. }
  destruct (generation_outcome (fun d => Js.ret (parse d)) apiUrlMatch templates
              generateExplanations generateSetupInstructions
              input description (parse description) built
              Hd Htruthy eq_refl Hbuilt Hown Htrigger)
    as (workflow & Hnodes & Hname & Houtcome).
  exists workflow. rewrite Hnodes. auto.
Qed.



End FullPipeline.

Lemma parser_selects_existing_templates_witness :
  exists template workflow,
    Templates.workflowTemplates Js.toLowerCase TemplateExamples.stringify
      !! "notification" = Some template
    /\ Templates.generateWorkflow template
         (Templates.templateParams Js.toLowerCase TemplateExamples.no_keywords
            TemplateExamples.no_match "notification"
            (Parser.parseWorkflowRequirements Js.toLowerCase TemplateExamples.no_match
               "send an email and a slack message")) = inr workflow
    /\ Generator.createNodeStructure TemplateExamples.no_match
         (Templates.templateNodes Js.toLowerCase TemplateExamples.stringify
            TemplateExamples.no_keywords TemplateExamples.no_match)
         ["n8n-nodes-base.slack"]
         (Parser.parseWorkflowRequirements Js.toLowerCase TemplateExamples.no_match
            "send an email and a slack message")
       = inr (Schemas.nodes workflow)
    /\ Shapes.templated
         (Generator.req_name
            (Parser.parseWorkflowRequirements Js.toLowerCase TemplateExamples.no_match
               "send an email and a slack message"))
         workflow.
Proof.
  apply (parser_selects_existing_templates Js.toLowerCase TemplateExamples.stringify
           TemplateExamples.no_keywords TemplateExamples.no_match
           TemplateExamples.no_match
           "send an email and a slack message" "notification"
           ["n8n-nodes-base.slack"]).
  vm_compute. reflexivity.
Defined.

Lemma generation_fails_on_name_or_texts_only_witness :
  exists workflow,
    Shapes.starts_with_trigger (Schemas.nodes workflow)
    /\ Schemas.wf_name workflow
       = Generator.req_name
           (Parser.parseWorkflowRequirements Js.toLowerCase TemplateExamples.no_match
              "send an email and a slack message")
    /\ ((Schemas.wf_name workflow = ""
         /\ Generator.generateWorkflow
              (fun description =>
                 Js.ret (Parser.parseWorkflowRequirements Js.toLowerCase
                           TemplateExamples.no_match description))
              TemplateExamples.no_match
              (Templates.templateNodes Js.toLowerCase TemplateExamples.stringify
                 TemplateExamples.no_keywords TemplateExamples.no_match)
              (fun _ _ => Js.ret ∅) (fun _ => Js.ret "")
              TemplateExamples.notify_input
            = Generator.Failed (Js.Text "Workflow must have a name"))
        \/ (Generator.validateWorkflow workflow = inr tt
            /\ Generator.generateWorkflow_try
                 (fun description =>
                    Js.ret (Parser.parseWorkflowRequirements Js.toLowerCase
                              TemplateExamples.no_match description))
                 TemplateExamples.no_match
                 (Templates.templateNodes Js.toLowerCase TemplateExamples.stringify
                    TemplateExamples.no_keywords TemplateExamples.no_match)
                 (fun _ _ => Js.ret ∅) (fun _ => Js.ret "")
                 TemplateExamples.notify_input
               = inr (Generator.Data workflow ∅ None))).
Proof.
  apply (generation_fails_on_name_or_texts_only Js.toLowerCase
           TemplateExamples.stringify TemplateExamples.no_keywords
           TemplateExamples.no_match TemplateExamples.no_match
           (fun _ _ => Js.ret ∅) (fun _ => Js.ret "")
           TemplateExamples.notify_input "send an email and a slack message");
    reflexivity.
Defined.


(** * The requirements parser *)

Section ParsedRequirements.
Import Generator Parser.

Variable toLowerCase : string -> string.
Variable nameOf : string -> option string.

Local Abbreviation parse := (parseWorkflowRequirements toLowerCase nameOf).

Local Abbreviation matched description :=
  (fun entry : list string * string => some_keyword toLowerCase description (fst entry)).

(** The loop over [operationKeywords], for any list of keyword groups
    with pairwise distinct operations none of which was found before. *)
Lemma operation_steps (description : string) (groups : list (list string * string)) :
  forall found,
    NoDup (map snd groups) ->
    (forall operation, operation ∈ map snd groups ->
                       operation ∉ found_operations found) ->
    found_operations (fold_left (operation_step toLowerCase description) groups found)
    = (found_operations found
       ++ map snd (List.filter (matched description) groups))%list
    /\ (is_Some (found_scheduling
                   (fold_left (operation_step toLowerCase description) groups found))
        <-> is_Some (found_scheduling found)
            \/ "schedule" ∈ map snd (List.filter (matched description) groups))
    /\ (found_conditionalLogic
          (fold_left (operation_step toLowerCase description) groups found) = true
        <-> found_conditionalLogic found = true
            \/ "condition" ∈ map snd (List.filter (matched description) groups)).
Proof.
  induction groups as [|[keywords operation] rest IH]; intros found Hnodup Hfresh.
  - cbn [fold_left List.filter map]. rewrite app_nil_r.
    split; [reflexivity|]. split; (split; [auto|]); intros [H|H]; auto; inversion H.
  - cbn [map snd] in Hnodup, Hfresh. apply NoDup_cons in Hnodup as [Hhead Hnodup].
    cbn [fold_left List.filter fst]. unfold operation_step at 2 4 6.
    destruct (some_keyword toLowerCase description keywords) eqn:Hmatched.
    + assert (mem operation (found_operations found) = false) as ->.
      { apply bool_decide_eq_false_2, Hfresh, list_elem_of_here. }
      match goal with
      | |- context [fold_left _ rest ?st] => destruct (IH st Hnodup) as (Hops & Hsch & Hcond)
      end.
      { cbn [found_operations]. intros op Hop Hin.
        apply elem_of_app in Hin as [Hin|Hin].
        - apply (Hfresh op); [apply list_elem_of_further, Hop | exact Hin].
        - apply list_elem_of_singleton in Hin. subst op. contradiction. }
      cbn [found_operations found_scheduling found_conditionalLogic] in Hops, Hsch, Hcond.
      cbn [map snd]. split; [|split].
      * rewrite Hops, <- app_assoc. reflexivity.
      * rewrite Hsch, elem_of_cons.
        destruct (String.eqb_spec operation "schedule") as [->|Hne].
        -- split; [intros _; right; left; reflexivity|]. intros _. left. eexists. reflexivity.
        -- split; [intros [H|H]; auto|]. intros [H|[H|H]]; auto; congruence.
      * rewrite Hcond, elem_of_cons.
        destruct (String.eqb_spec operation "condition") as [->|Hne].
        -- split; [intros _; right; left; reflexivity|]. intros _. left. reflexivity.
        -- split; [intros [H|H]; auto|]. intros [H|[H|H]]; auto; congruence.
    + apply IH; [exact Hnodup|].
      intros op Hop. apply Hfresh, list_elem_of_further, Hop.
Qed.

Lemma dataType_steps (description : string) (groups : list (list string * string)) :
  forall found,
    NoDup (map snd groups) ->
    (forall dataType, dataType ∈ map snd groups -> dataType ∉ found) ->
    fold_left (dataType_step toLowerCase description) groups found
    = (found ++ map snd (List.filter (matched description) groups))%list.
Proof.
  induction groups as [|[keywords dataType] rest IH]; intros found Hnodup Hfresh.
  - cbn [fold_left List.filter map]. rewrite app_nil_r. reflexivity.
  - cbn [map snd] in Hnodup, Hfresh. apply NoDup_cons in Hnodup as [Hhead Hnodup].
    cbn [fold_left List.filter fst]. unfold dataType_step at 2.
    destruct (some_keyword toLowerCase description keywords) eqn:Hmatched.
    + assert (mem dataType found = false) as ->.
      { apply bool_decide_eq_false_2, Hfresh, list_elem_of_here. }
      rewrite IH; [cbn [map snd]; rewrite <- app_assoc; reflexivity | exact Hnodup |].
      intros dt Hdt Hin. apply elem_of_app in Hin as [Hin|Hin].
      * apply (Hfresh dt); [apply list_elem_of_further, Hdt | exact Hin].
      * apply list_elem_of_singleton in Hin. subst dt. contradiction.
    + apply IH; [exact Hnodup|].
      intros dt Hdt. apply Hfresh, list_elem_of_further, Hdt.
Qed.

(** X26. Whatever the description is, the parsed requirements list each
    operation whose keywords occur in it once, in the fixed order of
    [operationKeywords], and the data types likewise; [scheduling] is set
    exactly when the operations hold [schedule], and [conditionalLogic]
    exactly when they hold [condition]. *)
Theorem parsed_operations_follow_keywords (description : string) :
  operations (parse description)
  = map snd (List.filter (matched description) operationKeywords)
  /\ dataTypes (parse description)
     = map snd (List.filter (matched description) dataTypeKeywords)
  /\ (is_Some (scheduling (parse description))
      <-> "schedule" ∈ operations (parse description))
  /\ (conditionalLogic (parse description) = true
      <-> "condition" ∈ operations (parse description)).
Proof.
  unfold parseWorkflowRequirements.
  cbn [operations dataTypes scheduling conditionalLogic].
  match goal with
  | |- context [fold_left (operation_step _ _) _ ?found] =>
      destruct (operation_steps description operationKeywords found)
        as (Hops & Hsch & Hcond)
  end.
  { refine (bool_decide_unpack _ _). vm_compute. exact I. }
  { intros operation _ Hin. inversion Hin. }
  cbn [found_operations found_scheduling found_conditionalLogic app] in Hops, Hsch, Hcond.
  split; [exact Hops|]. split.
  - apply dataType_steps.
    + refine (bool_decide_unpack _ _). vm_compute. exact I.
    + intros dataType _ Hin. inversion Hin.
  - rewrite Hops. split.
    + rewrite Hsch. split; [intros [[? H]|H]; [discriminate H | exact H] | auto].
    + rewrite Hcond. split; [intros [H|H]; [discriminate H | exact H] | auto].
Qed.

End ParsedRequirements.

Section Rewiring.
Import Schemas NodeDefinitions Generator Notions Templates Shapes TemplateExamples.

Variable toLowerCase : string -> string.
Variable keywordsOf : string -> option (list string).
Variable apiUrlMatch : string -> option string.

(** X27. The generator keeps the nodes of a template and wires them anew.  For
    the notification template with both channels the two wirings differ:
    the template connects the node that prepares the notification to both
    channel nodes, while the wiring the generator computes for the same
    nodes, which is the one the generated workflow carries, connects it to
    the email node only and the email node to the Slack node. *)
Theorem notification_fan_out_is_rewired (requirements : WorkflowRequirements) :
  Js.includes "email" (toLowerCase (req_description requirements)) = true ->
  Js.includes "slack" (toLowerCase (req_description requirements)) = true ->
  exists workflow c,
    notification_generateWorkflow
      (templateParams toLowerCase keywordsOf apiUrlMatch "notification" requirements)
    = inr workflow
    /\ Generator.createConnections (nodes workflow) = inr c
    /\ targets (conn_main (connections workflow)) "Prepare Notification"
       = [to_node "Send Email"; to_node "Send Slack Message"]
    /\ targets (conn_main (connections workflow)) "Send Email" = []
    /\ targets (conn_main c) "Prepare Notification" = [to_node "Send Email"]
    /\ targets (conn_main c) "Send Email" = [to_node "Send Slack Message"].
Proof.
  intros Hemail Hslack.
  unfold notification_generateWorkflow, templateParams.
  cbn [String.eqb Ascii.eqb Bool.eqb tp_parameters tp_name tp_description
       default from_option Datatypes.id trigger triggerConfig notificationChannels
       notificationConfig].
  rewrite Hemail, Hslack. cbn [app].
  destruct (mem "schedule" (operations requirements));
    match goal with
    | |- exists workflow c, ?made = inr workflow /\ _ =>
        let made' := eval vm_compute in made in
        lazymatch made' with
        | inr ?made_workflow => exists made_workflow
        end
    end;
    match goal with
    | |- exists c, _ /\ Generator.createConnections ?built = inr c /\ _ =>
        let wired := eval vm_compute in (Generator.createConnections built) in
        lazymatch wired with
        | inr ?made_c => exists made_c
        end
    end;
    repeat split; vm_compute; reflexivity.
Qed.

End Rewiring.

Lemma notification_fan_out_is_rewired_witness :
  exists workflow c,
    Templates.notification_generateWorkflow
      (Templates.templateParams Js.toLowerCase TemplateExamples.no_keywords
         TemplateExamples.no_match "notification"
         (Parser.parseWorkflowRequirements Js.toLowerCase TemplateExamples.no_match
            "send an email and a slack message"))
    = inr workflow
    /\ Generator.createConnections (Schemas.nodes workflow) = inr c
    /\ Notions.targets (Schemas.conn_main (Schemas.connections workflow))
         "Prepare Notification"
       = [TemplateExamples.to_node "Send Email";
          TemplateExamples.to_node "Send Slack Message"]
    /\ Notions.targets (Schemas.conn_main (Schemas.connections workflow))
         "Send Email" = []
    /\ Notions.targets (Schemas.conn_main c) "Prepare Notification"
       = [TemplateExamples.to_node "Send Email"]
    /\ Notions.targets (Schemas.conn_main c) "Send Email"
       = [TemplateExamples.to_node "Send Slack Message"].
Proof.
  apply (notification_fan_out_is_rewired Js.toLowerCase TemplateExamples.no_keywords
           TemplateExamples.no_match
           (Parser.parseWorkflowRequirements Js.toLowerCase TemplateExamples.no_match
              "send an email and a slack message"));
    vm_compute; reflexivity.
Defined.

(** * Listing workflows *)

Section WorkflowListing.
Import ListWorkflows.

Variable toLowerCase : string -> string.

Lemma filter_partition {A} (f : A -> bool) (l : list A) :
  (length (List.filter f l) + length (List.filter (fun x => negb (f x)) l))%nat
  = length l.
Proof.
  induction l as [|x l IH]; [reflexivity|].
  cbn [List.filter]. destruct (f x); cbn [negb length]; lia.
Qed.

Lemma filter_sublist {A} (f : A -> bool) (l : list A) : sublist (List.filter f l) l.
Proof.
  induction l as [|x l IH]; [constructor|].
  cbn [List.filter]. destruct (f x); [apply sublist_skip | apply sublist_cons]; exact IH.
Qed.

(** X28. Whatever the filter is, when the API answers, [listWorkflows] lists
    summaries of workflows the API returned, in the order the API returned
    them; [count] is their number, [totalCount] the number of workflows
    the API returned, and without a filter every workflow is listed. *)
Theorem listWorkflows_counts (workflows : list ApiWorkflow) (filter : option string) :
  exists listed,
    listWorkflows toLowerCase (inr workflows) filter
    = Data listed (length listed) (length workflows)
    /\ sublist listed (map summary workflows)
    /\ (length listed <= length workflows)%nat
    /\ (Js.truthy_opt filter = false -> listed = map summary workflows).
Proof.
  unfold listWorkflows. eexists. split; [reflexivity|].
  assert (forall kept,
             sublist kept workflows ->
             sublist (map summary kept) (map summary workflows)
             /\ (length (map summary kept) <= length workflows)%nat) as Hkept.
  { intros kept Hsub. split; [apply (fmap_sublist summary), Hsub|].
    rewrite length_map. apply sublist_length, Hsub. }
  destruct filter as [f|]; cbn [Js.truthy_opt].
  - destruct (Js.truthy f).
    + destruct (Hkept _ (filter_sublist (selects toLowerCase f) workflows)) as [Hsub Hlen].
      split; [exact Hsub|]. split; [exact Hlen | discriminate].
    + destruct (Hkept workflows (reflexivity _)) as [Hsub Hlen]. auto.
  - destruct (Hkept workflows (reflexivity _)) as [Hsub Hlen]. auto.
Qed.

(** X29. The filters [active] and [inactive], in any letter case, split the
    workflows the API returned in two: every workflow is listed by exactly
    one of them, the first lists the active ones and the second the
    others, and the two counts add up to [totalCount]. *)
Theorem listWorkflows_status_partition
    (workflows : list ApiWorkflow) (activeFilter inactiveFilter : string) :
  Js.truthy activeFilter = true ->
  Js.truthy inactiveFilter = true ->
  toLowerCase activeFilter = "active" ->
  toLowerCase inactiveFilter = "inactive" ->
  exists activeOnes inactiveOnes,
    listWorkflows toLowerCase (inr workflows) (Some activeFilter)
    = Data activeOnes (length activeOnes) (length workflows)
    /\ listWorkflows toLowerCase (inr workflows) (Some inactiveFilter)
       = Data inactiveOnes (length inactiveOnes) (length workflows)
    /\ (length activeOnes + length inactiveOnes)%nat = length workflows
    /\ Forall (fun listed => s_active listed = true) activeOnes
    /\ Forall (fun listed => s_active listed = false) inactiveOnes.
Proof.
  intros Htruthy_a Htruthy_i Hactive Hinactive.
  unfold listWorkflows. rewrite Htruthy_a, Htruthy_i.
  assert (forall workflow, selects toLowerCase activeFilter workflow = active workflow)
    as Hsel_a by (intros workflow; unfold selects; rewrite Hactive; reflexivity).
  assert (forall workflow,
             selects toLowerCase inactiveFilter workflow = negb (active workflow))
    as Hsel_i by (intros workflow; unfold selects; rewrite Hinactive; reflexivity).
  rewrite (List.filter_ext _ _ Hsel_a), (List.filter_ext _ _ Hsel_i).
  eexists _, _. split; [reflexivity|]. split; [reflexivity|].
  rewrite !length_map. split; [apply filter_partition|]. split.
  - apply Forall_forall. intros listed Hin.
    apply list_elem_of_fmap in Hin as (workflow & -> & Hin).
    apply list_elem_of_In, filter_In in Hin as [_ Hactive']. exact Hactive'.
  - apply Forall_forall. intros listed Hin.
    apply list_elem_of_fmap in Hin as (workflow & -> & Hin).
    apply list_elem_of_In, filter_In in Hin as [_ Hactive'].
    cbn [summary s_active]. apply negb_true_iff, Hactive'.
Qed.

End WorkflowListing.

Lemma listWorkflows_status_partition_witness :
  exists activeOnes inactiveOnes,
    ListWorkflows.listWorkflows Js.toLowerCase (inr TemplateExamples.two_workflows)
      (Some "Active")
    = ListWorkflows.Data activeOnes (length activeOnes) 2
    /\ ListWorkflows.listWorkflows Js.toLowerCase (inr TemplateExamples.two_workflows)
         (Some "INACTIVE")
       = ListWorkflows.Data inactiveOnes (length inactiveOnes) 2
    /\ (length activeOnes + length inactiveOnes)%nat = 2%nat
    /\ Forall (fun listed => ListWorkflows.s_active listed = true) activeOnes
    /\ Forall (fun listed => ListWorkflows.s_active listed = false) inactiveOnes.
Proof.
  apply (listWorkflows_status_partition Js.toLowerCase TemplateExamples.two_workflows
           "Active" "INACTIVE");
    reflexivity.
Defined.
